(** * STM32MP1 clock driver: gates, PLLs, operating points, power context

    A shallow embedding of the clock-tree driver of the STM32MP1 secure
    firmware (gate reference counting, rate resolution, PLL1 divider
    search, CPU operating point switch, resume sequence), followed by the
    properties that its design description states about it.

    Conventions.
    - The platform is a 32-bit Arm core (its low-power entry code is
      AArch32 assembly, and the driver keeps register addresses in
      [uint32_t]): [unsigned long], [unsigned int], [uint32_t] and [int]
      are 32 bits wide, [unsigned long long] is 64 bits wide.  Values are
      integers of [Z]; every wrap-around of the C arithmetic is written
      with [u32], [u64] or [s32].
    - A register is named by its byte offset from [stm32_rcc_base ()].
    - [panic ()] and a failing [assert] are the outcome [Panic]. *)

From Stdlib Require Import ZArith Lia Bool List.
From stdpp Require Import base list gmap.
Local Open Scope Z_scope.

(** ** Machine integers *)

Definition u32 (x : Z) : Z := x mod 2 ^ 32.
Definition u64 (x : Z) : Z := x mod 2 ^ 64.

(** Conversion of an integer value to [int]. *)
Definition s32 (x : Z) : Z :=
  let r := x mod 2 ^ 32 in if r <? 2 ^ 31 then r else r - 2 ^ 32.

Definition UINT_MAX : Z := 2 ^ 32 - 1.
Definition UINT32_MAX : Z := 2 ^ 32 - 1.

(** Modelled from the spec: [BIT] of [util.h] is not part of the sources;
    the enable bit of a gate is the single bit at its bit position. *)
Definition BIT (n : Z) : Z := u32 (Z.shiftl 1 n).

(** The 32-bit complement [~x]. *)
Definition not32 (x : Z) : Z := u32 (Z.lnot x).

(** ** Identifiers *)

(** Root oscillators, [enum stm32mp_osc_id]. *)
Definition _HSI : Z := 0.
Definition _HSE : Z := 1.
Definition _CSI : Z := 2.
Definition _LSI : Z := 3.
Definition _LSE : Z := 4.
Definition _I2S_CKIN : Z := 5.
Definition _USB_PHY_48 : Z := 6.
Definition NB_OSC : Z := 7.
Definition _UNKNOWN_OSC_ID : Z := 255.

(** Parent clocks, [enum stm32mp1_parent_id]: the oscillators above, then
    the values below. *)
Inductive parent_id : Type :=
  | P_HSI | P_HSE | P_CSI | P_LSI | P_LSE | P_I2S_CKIN | P_USB_PHY_48
  | P_HSI_KER | P_HSE_KER | P_HSE_KER_DIV2 | P_CSI_KER
  | P_PLL1_P | P_PLL1_Q | P_PLL1_R
  | P_PLL2_P | P_PLL2_Q | P_PLL2_R
  | P_PLL3_P | P_PLL3_Q | P_PLL3_R
  | P_PLL4_P | P_PLL4_Q | P_PLL4_R
  | P_ACLK | P_PCLK1 | P_PCLK2 | P_PCLK3 | P_PCLK4 | P_PCLK5
  | P_HCLK6 | P_HCLK2 | P_CK_PER | P_CK_MPU | P_CK_MCU.

Definition parent_ids : list parent_id :=
  [ P_HSI; P_HSE; P_CSI; P_LSI; P_LSE; P_I2S_CKIN; P_USB_PHY_48;
    P_HSI_KER; P_HSE_KER; P_HSE_KER_DIV2; P_CSI_KER;
    P_PLL1_P; P_PLL1_Q; P_PLL1_R; P_PLL2_P; P_PLL2_Q; P_PLL2_R;
    P_PLL3_P; P_PLL3_Q; P_PLL3_R; P_PLL4_P; P_PLL4_Q; P_PLL4_R;
    P_ACLK; P_PCLK1; P_PCLK2; P_PCLK3; P_PCLK4; P_PCLK5;
    P_HCLK6; P_HCLK2; P_CK_PER; P_CK_MPU; P_CK_MCU ].

Definition _PARENT_NB : Z := 34.
Definition _UNKNOWN_ID : Z := 255.

(** The enumerator with numeric value [p], if any. *)
Definition parent_of_Z (p : Z) : option parent_id :=
  if p <? 0 then None else parent_ids !! Z.to_nat p.

Definition _HSI_KER : Z := 7.
Definition _HSE_KER : Z := 8.
Definition _HSE_KER_DIV2 : Z := 9.
Definition _CSI_KER : Z := 10.
Definition _PLL1_P : Z := 11.
Definition _PLL1_Q : Z := 12.
Definition _PLL1_R : Z := 13.
Definition _PLL2_P : Z := 14.
Definition _PLL2_Q : Z := 15.
Definition _PLL2_R : Z := 16.
Definition _PLL3_P : Z := 17.
Definition _PLL3_Q : Z := 18.
Definition _PLL3_R : Z := 19.
Definition _PLL4_P : Z := 20.
Definition _PLL4_Q : Z := 21.
Definition _PLL4_R : Z := 22.
Definition _ACLK : Z := 23.
Definition _PCLK1 : Z := 24.
Definition _PCLK2 : Z := 25.
Definition _PCLK3 : Z := 26.
Definition _PCLK4 : Z := 27.
Definition _PCLK5 : Z := 28.
Definition _HCLK6 : Z := 29.
Definition _HCLK2 : Z := 30.
Definition _CK_PER : Z := 31.
Definition _CK_MPU : Z := 32.
Definition _CK_MCU : Z := 33.

(** Parent selectors, [enum stm32mp1_parent_sel]. *)
Definition _PARENT_SEL_NB : Z := 17.
Definition _UNKNOWN_SEL : Z := 255.

(** PLLs and their output dividers. *)
Inductive pll_id : Type := _PLL1 | _PLL2 | _PLL3 | _PLL4.
Inductive div_id : Type := _DIV_P | _DIV_Q | _DIV_R.
Inductive plltype : Type := PLL_800 | PLL_1600.

(** Indices of [enum stm32mp1_pllcfg]. *)
Definition PLLCFG_M : nat := 0.
Definition PLLCFG_N : nat := 1.
Definition PLLCFG_P : nat := 2.
Definition PLLCFG_Q : nat := 3.
Definition PLLCFG_R : nat := 4.
Definition PLLCFG_O : nat := 5.
Definition PLLCFG_NB : nat := 6.

Definition N_S : Z := 0.
Definition SEC : Z := 1.

(** PLL settings computation related definitions. *)
Definition POST_DIVM_MIN : Z := 8000000.
Definition POST_DIVM_MAX : Z := 16000000.
Definition DIVM_MIN : Z := 0.
Definition DIVM_MAX : Z := 63.
Definition DIVN_MIN : Z := 24.
Definition DIVN_MAX : Z := 99.
Definition DIVP_MIN : Z := 0.
Definition DIVP_MAX : Z := 127.
Definition FRAC_MAX : Z := 8192.
Definition VCO_MIN : Z := 800000000.
Definition VCO_MAX : Z := 1600000000.
Definition PLL1_SETTINGS_VALID_ID : Z := 0x504C4C31.

Definition CLK_MPU_PLL1P : Z := 0x00000202.
Definition CLK_MPU_PLL1P_DIV : Z := 0x00000203.

(** ** Descriptors *)

(** [struct stm32mp1_clk_gate]. *)
Record clk_gate : Type := {
  gate_offset : Z;
  gate_bit : Z;
  gate_clock_id : Z;
  gate_set_clr : Z;
  gate_secure : Z;
  gate_sel : Z;
  gate_fixed : Z
}.

(** [struct stm32mp1_clk_sel]. *)
Record clk_sel : Type := {
  sel_offset : Z;
  sel_src : Z;
  sel_msk : Z;
  sel_parent : list Z
}.

Definition sel_nb_parent (s : clk_sel) : Z := Z.of_nat (length (sel_parent s)).

(** [struct stm32mp1_clk_pll]. *)
Record clk_pll : Type := {
  pll_plltype : plltype;
  rckxselr : Z;
  pllxcfgr1 : Z;
  pllxcfgr2 : Z;
  pllxfracr : Z;
  pllxcr : Z;
  pllxcsgr : Z;
  pll_refclk : list Z
}.

(** [struct stm32mp1_pll]. *)
Record pll_limits : Type := {
  refclk_min : Z;
  refclk_max : Z;
  divn_max : Z
}.

Definition stm32mp1_pll (t : plltype) : pll_limits :=
  match t with
  | PLL_800 => {| refclk_min := 4; refclk_max := 16; divn_max := 99 |}
  | PLL_1600 => {| refclk_min := 8; refclk_max := 16; divn_max := 199 |}
  end.

(** Prescaler tables. *)
Definition stm32mp1_mcu_div : list Z :=
  [0; 1; 2; 3; 4; 6; 7; 8; 9; 9; 9; 9; 9; 9; 9; 9].
Definition stm32mp1_mpu_apbx_div : list Z := [0; 1; 2; 3; 4; 4; 4; 4].
Definition stm32mp1_mpu_div : list Z := stm32mp1_mpu_apbx_div.
Definition stm32mp1_apbx_div : list Z := stm32mp1_mpu_apbx_div.
Definition stm32mp1_axi_div : list Z := [1; 2; 3; 4; 4; 4; 4; 4].

(** Read of a [const uint8_t] table. *)
Definition tbl (t : list Z) (i : Z) : Z := nth (Z.to_nat i) t 0.

(** ** What the driver takes from headers that are not part of its file *)

(** Clock identifiers of the device tree bindings
    ([dt-bindings/clock/stm32mp1-clks.h]). *)
Class clk_ids : Type := {
  CK_HSE : Z; CK_CSI : Z; CK_LSI : Z; CK_LSE : Z; CK_HSI : Z;
  CK_HSE_DIV2 : Z;
  PLL1_P : Z; PLL1_Q : Z; PLL1_R : Z;
  PLL2_P : Z; PLL2_Q : Z; PLL2_R : Z;
  PLL3_P : Z; PLL3_Q : Z; PLL3_R : Z;
  PLL4_P : Z; PLL4_Q : Z; PLL4_R : Z;
  CK_PER : Z; CK_MPU : Z; CK_AXI : Z; CK_MCU : Z;
  TIM2_K : Z; TIM14_K : Z; TIM1_K : Z; TIM17_K : Z
}.

(** Register offsets and fields of the RCC ([drivers/stm32mp1_rcc.h]),
    source selections and the output mask [PQR]
    ([dt-bindings/clock/stm32mp1-clksrc.h]), the mask builder of
    [util.h]. *)
Class rcc_map : Type := {
  RCC_OCENSETR : Z; RCC_OCENCLRR : Z;
  RCC_MPCKSELR : Z; RCC_ASSCKSELR : Z; RCC_MSSCKSELR : Z;
  RCC_CPERCKSELR : Z;
  RCC_MPCKDIVR : Z; RCC_AXIDIVR : Z; RCC_MCUDIVR : Z;
  RCC_APB1DIVR : Z; RCC_APB2DIVR : Z; RCC_APB3DIVR : Z;
  RCC_APB4DIVR : Z; RCC_APB5DIVR : Z;
  RCC_TIMG1PRER : Z; RCC_TIMG2PRER : Z;
  RCC_RCK12SELR : Z; RCC_RCK3SELR : Z; RCC_RCK4SELR : Z;
  RCC_PLL1CR : Z; RCC_PLL1CFGR1 : Z; RCC_PLL1CFGR2 : Z;
  RCC_PLL1FRACR : Z; RCC_PLL1CSGR : Z;
  RCC_PLL2CR : Z; RCC_PLL2CFGR1 : Z; RCC_PLL2CFGR2 : Z;
  RCC_PLL2FRACR : Z; RCC_PLL2CSGR : Z;
  RCC_PLL3CR : Z; RCC_PLL3CFGR1 : Z; RCC_PLL3CFGR2 : Z;
  RCC_PLL3FRACR : Z; RCC_PLL3CSGR : Z;
  RCC_PLL4CR : Z; RCC_PLL4CFGR1 : Z; RCC_PLL4CFGR2 : Z;
  RCC_PLL4FRACR : Z; RCC_PLL4CSGR : Z;
  RCC_MP_ENCLRR_OFFSET : Z;
  RCC_SELR_SRC_MASK : Z; RCC_SELR_REFCLK_SRC_MASK : Z; RCC_SELR_SRCRDY : Z;
  RCC_DIVR_DIV_MASK : Z; RCC_DIVR_DIVRDY : Z;
  RCC_MPUDIV_MASK : Z; RCC_AXIDIV_MASK : Z; RCC_APBXDIV_MASK : Z;
  RCC_MCUDIV_MASK : Z; RCC_TIMGXPRER_TIMGXPRE : Z;
  RCC_PLLNCR_PLLON : Z; RCC_PLLNCR_PLLRDY : Z;
  RCC_PLLNCR_DIVPEN : Z; RCC_PLLNCR_DIVQEN : Z; RCC_PLLNCR_DIVREN : Z;
  RCC_PLLNCR_DIVEN_SHIFT : Z;
  RCC_PLLNCFGR1_DIVM_MASK : Z; RCC_PLLNCFGR1_DIVM_SHIFT : Z;
  RCC_PLLNCFGR1_DIVN_MASK : Z; RCC_PLLNCFGR1_DIVN_SHIFT : Z;
  RCC_PLLNCFGR1_IFRGE_MASK : Z; RCC_PLLNCFGR1_IFRGE_SHIFT : Z;
  RCC_PLLNCFGR2_DIVP_MASK : Z; RCC_PLLNCFGR2_DIVP_SHIFT : Z;
  RCC_PLLNCFGR2_DIVQ_MASK : Z; RCC_PLLNCFGR2_DIVQ_SHIFT : Z;
  RCC_PLLNCFGR2_DIVR_MASK : Z; RCC_PLLNCFGR2_DIVR_SHIFT : Z;
  RCC_PLLNCFGR2_DIVX_MASK : Z;
  RCC_PLLNFRACR_FRACV_MASK : Z; RCC_PLLNFRACR_FRACV_SHIFT : Z;
  RCC_PLLNFRACR_FRACLE : Z;
  RCC_MPCKSELR_HSI : Z; RCC_MPCKSELR_HSE : Z; RCC_MPCKSELR_PLL : Z;
  RCC_MPCKSELR_PLL_MPUDIV : Z;
  RCC_ASSCKSELR_HSI : Z; RCC_ASSCKSELR_HSE : Z; RCC_ASSCKSELR_PLL : Z;
  RCC_MSSCKSELR_HSI : Z; RCC_MSSCKSELR_HSE : Z; RCC_MSSCKSELR_CSI : Z;
  RCC_MSSCKSELR_PLL : Z;
  RCC_CPERCKSELR_HSI : Z; RCC_CPERCKSELR_HSE : Z; RCC_CPERCKSELR_CSI : Z;
  RCC_OCENR_HSIKERON : Z; RCC_OCENR_CSIKERON : Z; RCC_OCENR_HSEKERON : Z;
  CLK_MPU_HSI : Z;
  PQR : Z -> Z -> Z -> Z;
  GENMASK_32 : Z -> Z -> Z
}.

(** The rest of the platform: the tables of the driver, whose entries are
    written with the constants of the headers above and depend on the build
    configuration; the size of the OPP table ([platform_config.h]); the
    security state of the RCC interface ([stm32_rcc_is_secure ()]); and the
    address decoding of the RCC: [rcc_set_register off] holds when [off] is
    the SET half of a SET/CLEAR register pair, whose CLEAR half is at
    [off + RCC_MP_ENCLRR_OFFSET]. *)
Class clk_platform : Type := {
  stm32mp1_clk_gate : list clk_gate;
  stm32mp1_clk_sel : list clk_sel;
  PLAT_MAX_OPP_NB : nat;
  stm32_rcc_is_secure : bool;
  rcc_set_register : Z -> bool
}.

(** ** State of the driver *)

(** [struct stm32mp1_pll_settings]. *)
Record pll_settings : Type := {
  valid_id : Z;
  freq : list Z;
  volt : list Z;
  cfg : list (list Z);
  frac : list Z
}.

(** [struct soc_stop_context]. *)
Record soc_stop_context : Type := {
  pll3cr : Z;
  pll4cr : Z;
  mssckselr : Z;
  mcudivr : Z
}.

(** [struct backup_mux_cfg] and [struct backup_clock_cfg]. *)
Record backup_mux : Type := {
  mux_offset : Z;
  mux_value : Z;
  mux_bit_len : Z
}.

Record backup_clock : Type := {
  bk_offset : Z;
  bk_value : Z
}.

(** The static variables of the driver, the RCC register file [rcc_regs]
    and, for the busy-wait loops, what the hardware will answer:
    [hw_ready] holds, for each coming wait, whether the awaited flag shows
    up before the timeout. *)
Record clk_state : Type := {
  rcc_regs : gmap Z Z;
  hw_ready : list bool;
  stm32mp1_osc : list Z;
  gate_refcounts : list Z;
  pll1_settings : pll_settings;
  current_opp_khz : Z;
  soc_stop_ctx : soc_stop_context;
  backup_mux0_cfg : list backup_mux;
  backup_mux4_cfg : list backup_mux;
  backup_clock_sc_cfg : list backup_clock;
  backup_clock_cfg : list backup_clock
}.

Definition set_rcc_regs (r : gmap Z Z) (s : clk_state) : clk_state :=
  {| rcc_regs := r; hw_ready := hw_ready s; stm32mp1_osc := stm32mp1_osc s;
     gate_refcounts := gate_refcounts s; pll1_settings := pll1_settings s;
     current_opp_khz := current_opp_khz s; soc_stop_ctx := soc_stop_ctx s;
     backup_mux0_cfg := backup_mux0_cfg s;
     backup_mux4_cfg := backup_mux4_cfg s;
     backup_clock_sc_cfg := backup_clock_sc_cfg s;
     backup_clock_cfg := backup_clock_cfg s |}.

Definition set_hw_ready (h : list bool) (s : clk_state) : clk_state :=
  {| rcc_regs := rcc_regs s; hw_ready := h; stm32mp1_osc := stm32mp1_osc s;
     gate_refcounts := gate_refcounts s; pll1_settings := pll1_settings s;
     current_opp_khz := current_opp_khz s; soc_stop_ctx := soc_stop_ctx s;
     backup_mux0_cfg := backup_mux0_cfg s;
     backup_mux4_cfg := backup_mux4_cfg s;
     backup_clock_sc_cfg := backup_clock_sc_cfg s;
     backup_clock_cfg := backup_clock_cfg s |}.

Definition set_gate_refcounts (c : list Z) (s : clk_state) : clk_state :=
  {| rcc_regs := rcc_regs s; hw_ready := hw_ready s;
     stm32mp1_osc := stm32mp1_osc s;
     gate_refcounts := c; pll1_settings := pll1_settings s;
     current_opp_khz := current_opp_khz s; soc_stop_ctx := soc_stop_ctx s;
     backup_mux0_cfg := backup_mux0_cfg s;
     backup_mux4_cfg := backup_mux4_cfg s;
     backup_clock_sc_cfg := backup_clock_sc_cfg s;
     backup_clock_cfg := backup_clock_cfg s |}.

Definition set_pll1_settings (p : pll_settings) (s : clk_state) : clk_state :=
  {| rcc_regs := rcc_regs s; hw_ready := hw_ready s;
     stm32mp1_osc := stm32mp1_osc s;
     gate_refcounts := gate_refcounts s; pll1_settings := p;
     current_opp_khz := current_opp_khz s; soc_stop_ctx := soc_stop_ctx s;
     backup_mux0_cfg := backup_mux0_cfg s;
     backup_mux4_cfg := backup_mux4_cfg s;
     backup_clock_sc_cfg := backup_clock_sc_cfg s;
     backup_clock_cfg := backup_clock_cfg s |}.

Definition set_current_opp_khz (f : Z) (s : clk_state) : clk_state :=
  {| rcc_regs := rcc_regs s; hw_ready := hw_ready s;
     stm32mp1_osc := stm32mp1_osc s;
     gate_refcounts := gate_refcounts s; pll1_settings := pll1_settings s;
     current_opp_khz := f; soc_stop_ctx := soc_stop_ctx s;
     backup_mux0_cfg := backup_mux0_cfg s;
     backup_mux4_cfg := backup_mux4_cfg s;
     backup_clock_sc_cfg := backup_clock_sc_cfg s;
     backup_clock_cfg := backup_clock_cfg s |}.

(** ** Outcomes: a result and the next state, or a halt of the system *)

Inductive outcome (A : Type) : Type :=
  | Done (a : A) (s : clk_state)
  | Panic.
Arguments Done {A} a s.
Arguments Panic {A}.

Definition M (A : Type) : Type := clk_state -> outcome A.

Definition ret {A} (a : A) : M A := fun s => Done a s.
Definition bind {A B} (c : M A) (k : A -> M B) : M B :=
  fun s => match c s with Done a s' => k a s' | Panic => Panic end.
Definition panic {A} : M A := fun _ => Panic.
Definition gets {A} (f : clk_state -> A) : M A := fun s => Done (f s) s.
Definition modify (f : clk_state -> clk_state) : M unit :=
  fun s => Done tt (f s).
Definition assert (b : bool) : M unit := if b then ret tt else panic.

Notation "x <- c ;; k" := (bind c (fun x => k))
  (at level 100, c at next level, right associativity).
Notation "c ;;; k" := (bind c (fun _ => k))
  (at level 100, right associativity).

(** How a loop body ends: the loop goes on with the updated locals, or the
    function returns. *)
Inductive flow (A B : Type) : Type :=
  | Next (a : A)
  | Return (b : B).
Arguments Next {A B} a.
Arguments Return {A B} b.

Definition TEE_SUCCESS : Z := 0.

(** ** The driver *)

Section Driver.
Context {ids : clk_ids} {rmap : rcc_map} {plat : clk_platform}.

(** *** Register access *)

(** The register a write at [off] acts on: the SET half for both halves
    of a SET/CLEAR pair, the register itself otherwise. *)
Definition reg_target (off : Z) : Z :=
  if rcc_set_register off then off
  else if rcc_set_register (off - RCC_MP_ENCLRR_OFFSET)
       then off - RCC_MP_ENCLRR_OFFSET
       else off.

Definition io_read32 (off : Z) (r : gmap Z Z) : Z :=
  u32 (default 0 (r !! reg_target off)).

(** A write to a SET half raises the written bits, a write to a CLEAR
    half lowers them, a write to any other register replaces its
    content. *)
Definition io_write32 (off v : Z) (r : gmap Z Z) : gmap Z Z :=
  if rcc_set_register off
  then <[off := Z.lor (io_read32 off r) (u32 v)]> r
  else if rcc_set_register (off - RCC_MP_ENCLRR_OFFSET)
       then <[off - RCC_MP_ENCLRR_OFFSET :=
                Z.land (io_read32 off r) (not32 v)]> r
       else <[off := u32 v]> r.

(** Modelled from the spec: the read-modify-write accessors of [io.h]
    are not part of the sources; a bit is set or cleared in place. *)
Definition io_setbits32 (off bits : Z) (r : gmap Z Z) : gmap Z Z :=
  io_write32 off (Z.lor (io_read32 off r) bits) r.

(** Modelled from the spec: see [io_setbits32]. *)
Definition io_clrbits32 (off bits : Z) (r : gmap Z Z) : gmap Z Z :=
  io_write32 off (Z.land (io_read32 off r) (not32 bits)) r.

(** Modelled from the spec: see [io_setbits32]. *)
Definition io_clrsetbits32 (off clr set : Z) (r : gmap Z Z) : gmap Z Z :=
  io_write32 off (Z.lor (Z.land (io_read32 off r) (not32 clr)) set) r.

Definition rd (off : Z) : M Z := gets (fun s => io_read32 off (rcc_regs s)).
Definition wr (f : gmap Z Z -> gmap Z Z) : M unit :=
  modify (fun s => set_rcc_regs (f (rcc_regs s)) s).

(** A busy-wait loop on the flag [mask] of the register at [off], bounded
    by a timeout: [true] when the flag was seen, which the register then
    shows, [false] when the timeout elapsed first. *)
Definition wait_flag (off mask : Z) : M bool :=
  fun s =>
    match hw_ready s with
    | true :: h =>
        Done true
          (set_hw_ready h
             (set_rcc_regs
                (<[reg_target off :=
                     Z.lor (io_read32 off (rcc_regs s)) mask]> (rcc_regs s))
                s))
    | false :: h => Done false (set_hw_ready h s)
    | [] => Done false s
    end.

(** *** Gate table *)

Definition NB_GATES : nat := length stm32mp1_clk_gate.

Definition no_gate : clk_gate :=
  {| gate_offset := 0; gate_bit := 0; gate_clock_id := 0;
     gate_set_clr := 0; gate_secure := 0; gate_sel := 0; gate_fixed := 0 |}.

Definition gate_ref (idx : Z) : clk_gate :=
  nth (Z.to_nat idx) stm32mp1_clk_gate no_gate.

Definition gate_is_non_secure (gate : clk_gate) : bool :=
  (gate_secure gate =? N_S) || negb stm32_rcc_is_secure.

(** The loop of [stm32mp1_clk_get_gated_id], from index [i] on. *)
Fixpoint gated_id_from (gates : list clk_gate) (i : Z) (id : Z) : Z :=
  match gates with
  | [] => -1
  | g :: gates' =>
      if gate_clock_id g =? id then i else gated_id_from gates' (i + 1) id
  end.

Definition stm32mp1_clk_get_gated_id (id : Z) : Z :=
  gated_id_from stm32mp1_clk_gate 0 id.

Definition stm32mp1_clk_get_sel (i : Z) : Z := gate_sel (gate_ref i).
Definition stm32mp1_clk_get_fixed_parent (i : Z) : Z :=
  gate_fixed (gate_ref i).

(** *** Gate controller *)

Definition __clk_enable (gate : clk_gate) (r : gmap Z Z) : gmap Z Z :=
  let bit := BIT (gate_bit gate) in
  if negb (gate_set_clr gate =? 0)
  then io_write32 (gate_offset gate) bit r
  else io_setbits32 (gate_offset gate) bit r.

Definition __clk_disable (gate : clk_gate) (r : gmap Z Z) : gmap Z Z :=
  let bit := BIT (gate_bit gate) in
  if negb (gate_set_clr gate =? 0)
  then io_write32 (gate_offset gate + RCC_MP_ENCLRR_OFFSET) bit r
  else io_clrbits32 (gate_offset gate) bit r.

Definition __clk_is_enabled (gate : clk_gate) (r : gmap Z Z) : bool :=
  negb (Z.land (io_read32 (gate_offset gate) r) (BIT (gate_bit gate)) =? 0).

Definition clock_is_always_on (id : Z) : bool :=
  if (id <=? CK_HSE_DIV2) || ((PLL1_P <=? id) && (id <=? PLL3_R))
  then true
  else if id =? CK_AXI then true
  else if id =? CK_MPU then true
  else if id =? CK_MCU then true
  else false.

Definition refcount (s : clk_state) (i : Z) : Z :=
  nth (Z.to_nat i) (gate_refcounts s) 0.

Definition set_refcount (i : Z) (c : Z) (s : clk_state) : clk_state :=
  set_gate_refcounts (<[Z.to_nat i := c]> (gate_refcounts s)) s.

Definition clk_stm32_is_enabled (id : Z) : M bool :=
  if clock_is_always_on id then ret true
  else
    let i := stm32mp1_clk_get_gated_id id in
    if i <? 0 then ret false
    else gets (fun s => __clk_is_enabled (gate_ref i) (rcc_regs s)).

Definition clk_stm32_enable (id : Z) : M Z :=
  if clock_is_always_on id then ret TEE_SUCCESS
  else
    let i := stm32mp1_clk_get_gated_id id in
    if i <? 0 then panic
    else if gate_is_non_secure (gate_ref i)
    then wr (__clk_enable (gate_ref i)) ;;; ret TEE_SUCCESS
    else
      c <- gets (fun s => refcount s i) ;;
      (if c =? 0 then wr (__clk_enable (gate_ref i)) else ret tt) ;;;
      modify (fun s => set_refcount i (u32 (refcount s i + 1)) s) ;;;
      ret TEE_SUCCESS.

Definition clk_stm32_disable (id : Z) : M unit :=
  if clock_is_always_on id then ret tt
  else
    let i := stm32mp1_clk_get_gated_id id in
    if i <? 0 then panic
    else if gate_is_non_secure (gate_ref i) then ret tt
    else
      c <- gets (fun s => refcount s i) ;;
      assert (negb (c =? 0)) ;;;
      modify (fun s => set_refcount i (u32 (refcount s i - 1)) s) ;;;
      c' <- gets (fun s => refcount s i) ;;
      (if c' =? 0 then wr (__clk_disable (gate_ref i)) else ret tt).


(** *** PLL engine *)

Definition stm32mp1_clk_pll (p : pll_id) : clk_pll :=
  match p with
  | _PLL1 =>
      {| pll_plltype := PLL_1600; rckxselr := RCC_RCK12SELR;
         pllxcfgr1 := RCC_PLL1CFGR1; pllxcfgr2 := RCC_PLL1CFGR2;
         pllxfracr := RCC_PLL1FRACR; pllxcr := RCC_PLL1CR;
         pllxcsgr := RCC_PLL1CSGR;
         pll_refclk := [_HSI; _HSE; _UNKNOWN_OSC_ID; _UNKNOWN_OSC_ID] |}
  | _PLL2 =>
      {| pll_plltype := PLL_1600; rckxselr := RCC_RCK12SELR;
         pllxcfgr1 := RCC_PLL2CFGR1; pllxcfgr2 := RCC_PLL2CFGR2;
         pllxfracr := RCC_PLL2FRACR; pllxcr := RCC_PLL2CR;
         pllxcsgr := RCC_PLL2CSGR;
         pll_refclk := [_HSI; _HSE; _UNKNOWN_OSC_ID; _UNKNOWN_OSC_ID] |}
  | _PLL3 =>
      {| pll_plltype := PLL_800; rckxselr := RCC_RCK3SELR;
         pllxcfgr1 := RCC_PLL3CFGR1; pllxcfgr2 := RCC_PLL3CFGR2;
         pllxfracr := RCC_PLL3FRACR; pllxcr := RCC_PLL3CR;
         pllxcsgr := RCC_PLL3CSGR;
         pll_refclk := [_HSI; _HSE; _CSI; _UNKNOWN_OSC_ID] |}
  | _PLL4 =>
      {| pll_plltype := PLL_800; rckxselr := RCC_RCK4SELR;
         pllxcfgr1 := RCC_PLL4CFGR1; pllxcfgr2 := RCC_PLL4CFGR2;
         pllxfracr := RCC_PLL4FRACR; pllxcr := RCC_PLL4CR;
         pllxcsgr := RCC_PLL4CSGR;
         pll_refclk := [_HSI; _HSE; _CSI; _I2S_CKIN] |}
  end.

Definition pll_ref (p : pll_id) : clk_pll := stm32mp1_clk_pll p.

(** [pllncfgr2]: shift of each output divider in PLLNCFGR2. *)
Definition pllncfgr2 (d : div_id) : Z :=
  match d with
  | _DIV_P => RCC_PLLNCFGR2_DIVP_SHIFT
  | _DIV_Q => RCC_PLLNCFGR2_DIVQ_SHIFT
  | _DIV_R => RCC_PLLNCFGR2_DIVR_SHIFT
  end.

Definition osc_frequency (idx : Z) (s : clk_state) : Z :=
  if idx >=? NB_OSC then 0 else u32 (nth (Z.to_nat idx) (stm32mp1_osc s) 0).

Definition stm32mp1_pll_get_fref (pll : clk_pll) (s : clk_state) : Z :=
  let selr := io_read32 (rckxselr pll) (rcc_regs s) in
  let src := Z.land selr RCC_SELR_REFCLK_SRC_MASK in
  osc_frequency (nth (Z.to_nat src) (pll_refclk pll) _UNKNOWN_OSC_ID) s.

Definition stm32mp1_pll_get_fvco (pll : clk_pll) (s : clk_state) : Z :=
  let cfgr1 := io_read32 (pllxcfgr1 pll) (rcc_regs s) in
  let fracr := io_read32 (pllxfracr pll) (rcc_regs s) in
  let divm := Z.shiftr (Z.land cfgr1 RCC_PLLNCFGR1_DIVM_MASK)
                RCC_PLLNCFGR1_DIVM_SHIFT in
  let divn := Z.land cfgr1 RCC_PLLNCFGR1_DIVN_MASK in
  let refclk := stm32mp1_pll_get_fref pll s in
  if negb (Z.land fracr RCC_PLLNFRACR_FRACLE =? 0) then
    let fracv := Z.shiftr (Z.land fracr RCC_PLLNFRACR_FRACV_MASK)
                   RCC_PLLNFRACR_FRACV_SHIFT in
    let numerator := u64 (u64 (Z.shiftl (u64 (divn + 1)) 13) + fracv) in
    let numerator := u64 (refclk * numerator) in
    let denominator := u64 (Z.shiftl (u64 (divm + 1)) 13) in
    u32 (numerator / denominator)
  else
    u32 (u32 (refclk * u32 (divn + 1)) / u32 (divm + 1)).

Definition stm32mp1_read_pll_freq (p : pll_id) (d : div_id)
    (s : clk_state) : Z :=
  let pll := pll_ref p in
  let cfgr2 := io_read32 (pllxcfgr2 pll) (rcc_regs s) in
  let divy := Z.land (Z.shiftr cfgr2 (pllncfgr2 d))
                RCC_PLLNCFGR2_DIVX_MASK in
  stm32mp1_pll_get_fvco pll s / u32 (divy + 1).

Definition pll_start (p : pll_id) : M unit :=
  let pll := pll_ref p in
  v <- rd (pllxcr pll) ;;
  if negb (Z.land v RCC_PLLNCR_PLLON =? 0) then ret tt
  else wr (io_clrsetbits32 (pllxcr pll)
             (Z.lor (Z.lor RCC_PLLNCR_DIVPEN RCC_PLLNCR_DIVQEN)
                RCC_PLLNCR_DIVREN)
             RCC_PLLNCR_PLLON).

Definition pll_output (p : pll_id) (output : Z) : M Z :=
  let pll := pll_ref p in
  ok <- wait_flag (pllxcr pll) RCC_PLLNCR_PLLRDY ;;
  if negb ok then ret (-1)
  else
    wr (io_setbits32 (pllxcr pll)
          (u32 (Z.shiftl output RCC_PLLNCR_DIVEN_SHIFT))) ;;;
    ret 0.

Definition pll_stop (p : pll_id) : M Z :=
  let pll := pll_ref p in
  wr (io_clrbits32 (pllxcr pll)
        (Z.lor (Z.lor RCC_PLLNCR_DIVPEN RCC_PLLNCR_DIVQEN)
           RCC_PLLNCR_DIVREN)) ;;;
  wr (io_clrbits32 (pllxcr pll) RCC_PLLNCR_PLLON) ;;;
  ok <- wait_flag (pllxcr pll) RCC_PLLNCR_PLLRDY ;;
  if negb ok then ret (-1) else ret 0.

Definition pllcfg_at (pllcfg : list Z) (k : nat) : Z := nth k pllcfg 0.

Definition pll_compute_pllxcfgr2 (pllcfg : list Z) : Z :=
  let value :=
    Z.land (u32 (Z.shiftl (pllcfg_at pllcfg PLLCFG_P)
                   RCC_PLLNCFGR2_DIVP_SHIFT))
      RCC_PLLNCFGR2_DIVP_MASK in
  let value :=
    Z.lor value
      (Z.land (u32 (Z.shiftl (pllcfg_at pllcfg PLLCFG_Q)
                      RCC_PLLNCFGR2_DIVQ_SHIFT))
         RCC_PLLNCFGR2_DIVQ_MASK) in
  Z.lor value
    (Z.land (u32 (Z.shiftl (pllcfg_at pllcfg PLLCFG_R)
                    RCC_PLLNCFGR2_DIVR_SHIFT))
       RCC_PLLNCFGR2_DIVR_MASK).

Definition pll_config_output (p : pll_id) (pllcfg : list Z) : M unit :=
  wr (io_write32 (pllxcfgr2 (pll_ref p)) (pll_compute_pllxcfgr2 pllcfg)).

(** [None] is the return value -1; [Some v] is the return value 0 with
    [v] stored in [*cfgr1]. *)
Definition pll_compute_pllxcfgr1 (pll : clk_pll) (pllcfg : list Z)
    (s : clk_state) : option Z :=
  let type := pll_plltype pll in
  let src := Z.land (io_read32 (rckxselr pll) (rcc_regs s))
               RCC_SELR_REFCLK_SRC_MASK in
  let refclk :=
    osc_frequency (nth (Z.to_nat src) (pll_refclk pll) _UNKNOWN_OSC_ID) s
    / u32 (pllcfg_at pllcfg PLLCFG_M + 1) in
  if (refclk <? u32 (refclk_min (stm32mp1_pll type) * 1000000))
     || (refclk >? u32 (refclk_max (stm32mp1_pll type) * 1000000))
  then None
  else
    let ifrge :=
      match type with
      | PLL_800 => if refclk >=? 8000000 then 1 else 0
      | PLL_1600 => 0
      end in
    let cfgr1 :=
      Z.land (u32 (Z.shiftl (pllcfg_at pllcfg PLLCFG_N)
                     RCC_PLLNCFGR1_DIVN_SHIFT))
        RCC_PLLNCFGR1_DIVN_MASK in
    let cfgr1 :=
      Z.lor cfgr1
        (Z.land (u32 (Z.shiftl (pllcfg_at pllcfg PLLCFG_M)
                        RCC_PLLNCFGR1_DIVM_SHIFT))
           RCC_PLLNCFGR1_DIVM_MASK) in
    Some (Z.lor cfgr1
            (Z.land (u32 (Z.shiftl ifrge RCC_PLLNCFGR1_IFRGE_SHIFT))
               RCC_PLLNCFGR1_IFRGE_MASK)).

Definition pll_config (p : pll_id) (pllcfg : list Z) (fracv : Z) : M Z :=
  let pll := pll_ref p in
  r <- gets (pll_compute_pllxcfgr1 pll pllcfg) ;;
  match r with
  | None => ret (-1)
  | Some value =>
      wr (io_write32 (pllxcfgr1 pll) value) ;;;
      wr (io_write32 (pllxfracr pll) value) ;;;
      wr (io_write32 (pllxfracr pll)
            (u32 (Z.shiftl fracv RCC_PLLNFRACR_FRACV_SHIFT))) ;;;
      value <- rd (pllxfracr pll) ;;
      wr (io_write32 (pllxfracr pll)
            (Z.lor value RCC_PLLNFRACR_FRACLE)) ;;;
      pll_config_output p pllcfg ;;;
      ret 0
  end.

(** *** Rate resolver *)

Definition u8 (x : Z) : Z := x mod 256.

Definition parent_id_clock_id : list Z :=
  map u8
    [ CK_HSI; CK_HSE; CK_CSI; CK_LSI; CK_LSE; _UNKNOWN_ID; _UNKNOWN_ID;
      CK_HSI; CK_HSE; CK_HSE_DIV2; CK_CSI;
      PLL1_P; PLL1_Q; PLL1_R; PLL2_P; PLL2_Q; PLL2_R;
      PLL3_P; PLL3_Q; PLL3_R; PLL4_P; PLL4_Q; PLL4_R;
      CK_AXI; CK_AXI; CK_AXI; CK_AXI; CK_AXI; CK_AXI; CK_AXI; CK_AXI;
      CK_PER; CK_MPU; CK_MCU ].

(** The loop of [clock_id2parent_id], from index [n] on. *)
Fixpoint clock_id2parent_id_from (t : list Z) (n : Z) (id : Z) : Z :=
  match t with
  | [] => _UNKNOWN_ID
  | c :: t' => if c =? id then n else clock_id2parent_id_from t' (n + 1) id
  end.

Definition clock_id2parent_id (id : Z) : Z :=
  clock_id2parent_id_from parent_id_clock_id 0 id.

Definition no_sel : clk_sel :=
  {| sel_offset := 0; sel_src := 0; sel_msk := 0; sel_parent := [] |}.

Definition clk_sel_ref (idx : Z) : clk_sel :=
  nth (Z.to_nat idx) stm32mp1_clk_sel no_sel.

Definition __clk_get_parent (id : Z) : M Z :=
  let parent_id := clock_id2parent_id id in
  if negb (parent_id =? _UNKNOWN_ID) then ret parent_id
  else
    let i := stm32mp1_clk_get_gated_id id in
    if i <? 0 then panic
    else
      let p := stm32mp1_clk_get_fixed_parent i in
      if p <? _PARENT_NB then ret p
      else
        let s := stm32mp1_clk_get_sel i in
        if s =? _UNKNOWN_SEL then ret (-1)
        else if s >=? _PARENT_SEL_NB then panic
        else
          let sel := clk_sel_ref s in
          v <- rd (sel_offset sel) ;;
          let p_sel := Z.land (Z.shiftr v (sel_src sel)) (sel_msk sel) in
          if p_sel <? sel_nb_parent sel
          then ret (tbl (sel_parent sel) p_sel)
          else ret (-1).

(** The source selected by the low bits of a xxxSELR register. *)
Definition selr_src (off : Z) (s : clk_state) : Z :=
  Z.land (io_read32 off (rcc_regs s)) RCC_SELR_SRC_MASK.

Definition apbx_shift (divr : Z) (clock : Z) (s : clk_state) : Z :=
  Z.shiftr clock
    (tbl stm32mp1_apbx_div
       (Z.land (io_read32 divr (rcc_regs s)) RCC_APBXDIV_MASK)).

Definition __clk_get_parent_rate (p : Z) (s : clk_state) : Z :=
  match parent_of_Z p with
  | Some P_CK_MPU =>
      let sw := selr_src RCC_MPCKSELR s in
      if sw =? RCC_MPCKSELR_HSI then osc_frequency _HSI s
      else if sw =? RCC_MPCKSELR_HSE then osc_frequency _HSE s
      else if sw =? RCC_MPCKSELR_PLL
      then stm32mp1_read_pll_freq _PLL1 _DIV_P s
      else if sw =? RCC_MPCKSELR_PLL_MPUDIV then
        let reg := io_read32 RCC_MPCKDIVR (rcc_regs s) in
        if negb (Z.land reg RCC_MPUDIV_MASK =? 0)
        then Z.shiftr (stm32mp1_read_pll_freq _PLL1 _DIV_P s)
               (tbl stm32mp1_mpu_div (Z.land reg RCC_MPUDIV_MASK))
        else 0
      else 0
  | Some ((P_ACLK | P_HCLK2 | P_HCLK6 | P_PCLK4 | P_PCLK5) as q) =>
      let sw := selr_src RCC_ASSCKSELR s in
      let clock :=
        if sw =? RCC_ASSCKSELR_HSI then osc_frequency _HSI s
        else if sw =? RCC_ASSCKSELR_HSE then osc_frequency _HSE s
        else if sw =? RCC_ASSCKSELR_PLL
        then stm32mp1_read_pll_freq _PLL2 _DIV_P s
        else 0 in
      let clock :=
        clock / tbl stm32mp1_axi_div
                  (Z.land (io_read32 RCC_AXIDIVR (rcc_regs s))
                     RCC_AXIDIV_MASK) in
      match q with
      | P_PCLK4 => apbx_shift RCC_APB4DIVR clock s
      | P_PCLK5 => apbx_shift RCC_APB5DIVR clock s
      | _ => clock
      end
  | Some ((P_CK_MCU | P_PCLK1 | P_PCLK2 | P_PCLK3) as q) =>
      let sw := selr_src RCC_MSSCKSELR s in
      let clock :=
        if sw =? RCC_MSSCKSELR_HSI then osc_frequency _HSI s
        else if sw =? RCC_MSSCKSELR_HSE then osc_frequency _HSE s
        else if sw =? RCC_MSSCKSELR_CSI then osc_frequency _CSI s
        else if sw =? RCC_MSSCKSELR_PLL
        then stm32mp1_read_pll_freq _PLL3 _DIV_P s
        else 0 in
      let clock :=
        Z.shiftr clock
          (tbl stm32mp1_mcu_div
             (Z.land (io_read32 RCC_MCUDIVR (rcc_regs s))
                RCC_MCUDIV_MASK)) in
      match q with
      | P_PCLK1 => apbx_shift RCC_APB1DIVR clock s
      | P_PCLK2 => apbx_shift RCC_APB2DIVR clock s
      | P_PCLK3 => apbx_shift RCC_APB3DIVR clock s
      | _ => clock
      end
  | Some P_CK_PER =>
      let sw := selr_src RCC_CPERCKSELR s in
      if sw =? RCC_CPERCKSELR_HSI then osc_frequency _HSI s
      else if sw =? RCC_CPERCKSELR_HSE then osc_frequency _HSE s
      else if sw =? RCC_CPERCKSELR_CSI then osc_frequency _CSI s
      else 0
  | Some (P_HSI | P_HSI_KER) => osc_frequency _HSI s
  | Some (P_CSI | P_CSI_KER) => osc_frequency _CSI s
  | Some (P_HSE | P_HSE_KER) => osc_frequency _HSE s
  | Some P_HSE_KER_DIV2 => Z.shiftr (osc_frequency _HSE s) 1
  | Some P_LSI => osc_frequency _LSI s
  | Some P_LSE => osc_frequency _LSE s
  | Some P_PLL1_P => stm32mp1_read_pll_freq _PLL1 _DIV_P s
  | Some P_PLL1_Q => stm32mp1_read_pll_freq _PLL1 _DIV_Q s
  | Some P_PLL1_R => stm32mp1_read_pll_freq _PLL1 _DIV_R s
  | Some P_PLL2_P => stm32mp1_read_pll_freq _PLL2 _DIV_P s
  | Some P_PLL2_Q => stm32mp1_read_pll_freq _PLL2 _DIV_Q s
  | Some P_PLL2_R => stm32mp1_read_pll_freq _PLL2 _DIV_R s
  | Some P_PLL3_P => stm32mp1_read_pll_freq _PLL3 _DIV_P s
  | Some P_PLL3_Q => stm32mp1_read_pll_freq _PLL3 _DIV_Q s
  | Some P_PLL3_R => stm32mp1_read_pll_freq _PLL3 _DIV_R s
  | Some P_PLL4_P => stm32mp1_read_pll_freq _PLL4 _DIV_P s
  | Some P_PLL4_Q => stm32mp1_read_pll_freq _PLL4 _DIV_Q s
  | Some P_PLL4_R => stm32mp1_read_pll_freq _PLL4 _DIV_R s
  | Some P_USB_PHY_48 => osc_frequency _USB_PHY_48 s
  | Some P_I2S_CKIN => 0
  | None => 0
  end.

(** [parent_rate] is a [long]; the product with the [uint32_t] prescaler
    is computed on 32 bits, and the result is a [long] again. *)
Definition get_timer_rate (parent_rate : Z) (apb_bus : Z) : M Z :=
  regs <-
    (if apb_bus =? 1 then
       apbxdiv <- rd RCC_APB1DIVR ;;
       timgxpre <- rd RCC_TIMG1PRER ;;
       ret (Z.land apbxdiv RCC_APBXDIV_MASK,
            Z.land timgxpre RCC_TIMGXPRER_TIMGXPRE)
     else if apb_bus =? 2 then
       apbxdiv <- rd RCC_APB2DIVR ;;
       timgxpre <- rd RCC_TIMG2PRER ;;
       ret (Z.land apbxdiv RCC_APBXDIV_MASK,
            Z.land timgxpre RCC_TIMGXPRER_TIMGXPRE)
     else panic) ;;
  let '(apbxdiv, timgxpre) := regs in
  if apbxdiv =? 0 then ret parent_rate
  else ret (s32 (u32 (u32 (parent_rate * u32 (timgxpre + 1)) * 2))).

(** [p] has the unsigned type of the enumeration: the value -1 of
    [__clk_get_parent] is stored as [u32 (-1)], and [p < 0] compares an
    unsigned value. *)
Definition clk_stm32_get_rate (id : Z) : M Z :=
  p <- __clk_get_parent id ;;
  let p := u32 p in
  if p <? 0 then ret 0
  else
    rate <- gets (__clk_get_parent_rate p) ;;
    rate <- (if (id >=? TIM2_K) && (id <=? TIM14_K)
             then r <- get_timer_rate (s32 rate) 1 ;; ret (u32 r)
             else ret rate) ;;
    rate <- (if (id >=? TIM1_K) && (id <=? TIM17_K)
             then r <- get_timer_rate (s32 rate) 2 ;; ret (u32 r)
             else ret rate) ;;
    ret rate.

(** *** Operating point manager *)

Definition freq_at (ps : pll_settings) (idx : nat) : Z := nth idx (freq ps) 0.
Definition frac_at (ps : pll_settings) (idx : nat) : Z := nth idx (frac ps) 0.
Definition cfg_row (ps : pll_settings) (idx : nat) : list Z :=
  nth idx (cfg ps) [].
Definition cfg_at (ps : pll_settings) (idx k : nat) : Z :=
  pllcfg_at (cfg_row ps idx) k.

(** [pll1_settings.cfg[idx][k] = v] and [pll1_settings.frac[idx] = v]. *)
Definition set_cfg (idx k : nat) (v : Z) (ps : pll_settings) : pll_settings :=
  {| valid_id := valid_id ps; freq := freq ps; volt := volt ps;
     cfg := <[idx := <[k := v]> (cfg_row ps idx)]> (cfg ps);
     frac := frac ps |}.

Definition set_frac (idx : nat) (v : Z) (ps : pll_settings) : pll_settings :=
  {| valid_id := valid_id ps; freq := freq ps; volt := volt ps;
     cfg := cfg ps; frac := <[idx := v]> (frac ps) |}.

(** The locals that the search loops of [clk_compute_pll1_settings]
    update: [best_diff] and the settings written so far. *)
Definition search : Type := (Z * pll_settings)%type.

(** [for (i = 2; i != 0; i--)], entered with [frac]. *)
Fixpoint frac_loop (i : nat) (idx : nat)
    (output_freq post_divm divm divn divp frac : Z)
    (best_diff : Z) (ps : pll_settings) : flow search pll_settings :=
  match i with
  | O => Next (best_diff, ps)
  | S i' =>
      if frac >? FRAC_MAX then Next (best_diff, ps)
      else
        let vco :=
          u64 (u32 (post_divm * (divn + 1))
               + u64 (post_divm * u64 frac) / FRAC_MAX) in
        if (vco <? VCO_MIN / 2) || (vco >? VCO_MAX / 2)
        then frac_loop i' idx output_freq post_divm divm divn divp
               (s32 (frac + 1)) best_diff ps
        else
          let freq := vco / u64 (divp + 1) in
          let diff :=
            if output_freq <? freq then u32 (freq - output_freq)
            else u32 (output_freq - freq) in
          if diff <? best_diff then
            let ps' :=
              set_frac idx (u32 frac)
                (set_cfg idx PLLCFG_P (u32 divp)
                   (set_cfg idx PLLCFG_N (u32 divn)
                      (set_cfg idx PLLCFG_M (u32 divm) ps))) in
            if diff =? 0 then Return ps'
            else frac_loop i' idx output_freq post_divm divm divn divp
                   (s32 (frac + 1)) diff ps'
          else frac_loop i' idx output_freq post_divm divm divn divp
                 (s32 (frac + 1)) best_diff ps
  end.

(** [for (divp = DIVP_MIN; divp <= DIVP_MAX; divp++)]: [n] iterations are
    left, the next one is for [divp]. *)
Fixpoint divp_loop (n : nat) (idx : nat)
    (input_freq output_freq post_divm divm divp : Z)
    (best_diff : Z) (ps : pll_settings) : flow search pll_settings :=
  match n with
  | O => Next (best_diff, ps)
  | S n' =>
      let freq := u64 (u64 (output_freq * u64 (divm + 1)) * u64 (divp + 1)) in
      let divn := s32 (u64 (freq / input_freq - 1)) in
      if (divn <? DIVN_MIN) || (divn >? DIVN_MAX)
      then divp_loop n' idx input_freq output_freq post_divm divm
             (divp + 1) best_diff ps
      else
        let frac :=
          s32 (u64 (u64 (freq * FRAC_MAX) / input_freq
                    - u64 (s32 ((divn + 1) * FRAC_MAX)))) in
        match frac_loop 2 idx output_freq post_divm divm divn divp frac
                best_diff ps with
        | Return ps' => Return ps'
        | Next (best_diff', ps') =>
            divp_loop n' idx input_freq output_freq post_divm divm
              (divp + 1) best_diff' ps'
        end
  end.

(** [for (divm = DIVM_MAX; divm >= DIVM_MIN; divm--)]: [n] iterations are
    left, the next one is for [divm = n - 1]. *)
Fixpoint divm_loop (n : nat) (idx : nat) (input_freq output_freq : Z)
    (best_diff : Z) (ps : pll_settings) : flow search pll_settings :=
  match n with
  | O => Next (best_diff, ps)
  | S n' =>
      let divm := Z.of_nat n' in
      let post_divm := input_freq / u32 (divm + 1) in
      if (post_divm <? POST_DIVM_MIN) || (post_divm >? POST_DIVM_MAX)
      then divm_loop n' idx input_freq output_freq best_diff ps
      else
        match divp_loop (Z.to_nat (DIVP_MAX - DIVP_MIN + 1)) idx
                input_freq output_freq post_divm divm DIVP_MIN
                best_diff ps with
        | Return ps' => Return ps'
        | Next (best_diff', ps') =>
            divm_loop n' idx input_freq output_freq best_diff' ps'
        end
  end.

Definition clk_compute_pll1_settings (input_freq : Z) (idx : nat) : M Z :=
  fun s =>
    let ps := pll1_settings s in
    let output_freq := u32 (freq_at ps idx * 1000) in
    let ps :=
      set_cfg idx PLLCFG_O (u32 (PQR 1 0 0))
        (set_cfg idx PLLCFG_R 0 (set_cfg idx PLLCFG_Q 0 ps)) in
    match divm_loop (Z.to_nat (DIVM_MAX - DIVM_MIN + 1)) idx
            input_freq output_freq UINT_MAX ps with
    | Return ps' => Done 0 (set_pll1_settings ps' s)
    | Next (best_diff, ps') =>
        if best_diff =? UINT_MAX
        then Done (-1) (set_pll1_settings (set_cfg idx PLLCFG_O 0 ps') s)
        else Done 0 (set_pll1_settings ps' s)
    end.

Definition stm32mp1_clk_pll1_settings_are_valid (s : clk_state) : bool :=
  valid_id (pll1_settings s) =? PLL1_SETTINGS_VALID_ID.

Definition stm32mp1_set_clksrc (clksrc : Z) : M Z :=
  let address := Z.shiftr clksrc 4 in
  wr (io_clrsetbits32 address RCC_SELR_SRC_MASK
        (Z.land clksrc RCC_SELR_SRC_MASK)) ;;;
  ok <- wait_flag address RCC_SELR_SRCRDY ;;
  if negb ok then ret (-1) else ret 0.

Definition stm32mp1_set_clkdiv (clkdiv : Z) (address : Z) : M Z :=
  wr (io_clrsetbits32 address RCC_DIVR_DIV_MASK
        (Z.land clkdiv RCC_DIVR_DIV_MASK)) ;;;
  ok <- wait_flag address RCC_DIVR_DIVRDY ;;
  if negb ok then ret (-1) else ret 0.

(** [None] is a non-zero return value; [Some r] is the return value 0
    with [r] stored in [*result]. *)
Definition is_pll_config_on_the_fly (p : pll_id) (pllcfg : list Z)
    (fracv : Z) (s : clk_state) : option Z :=
  let pll := pll_ref p in
  match pll_compute_pllxcfgr1 pll pllcfg s with
  | None => None
  | Some value =>
      if negb (io_read32 (pllxcfgr1 pll) (rcc_regs s) =? value)
      then Some (-1)
      else
        let fracr := u32 (Z.shiftl fracv RCC_PLLNFRACR_FRACV_SHIFT) in
        let fracr := Z.lor fracr RCC_PLLNFRACR_FRACLE in
        let value := pll_compute_pllxcfgr2 pllcfg in
        if (io_read32 (pllxfracr pll) (rcc_regs s) =? fracr)
           && (io_read32 (pllxcfgr2 pll) (rcc_regs s) =? value)
        then Some 1
        else Some 0
  end.

(** The remainder by a null [freq_khz] is undefined in C; the model
    halts there. *)
Definition stm32mp1_get_mpu_div (freq_khz : Z) : M Z :=
  rate <- gets (__clk_get_parent_rate _PLL1_P) ;;
  let freq_pll1_p := rate / 1000 in
  if freq_khz =? 0 then panic
  else if negb (freq_pll1_p mod freq_khz =? 0) then ret (-1)
  else
    let div := freq_pll1_p / freq_khz in
    if div =? 1 then ret 0
    else if div =? 2 then ret 1
    else if div =? 4 then ret 2
    else if div =? 8 then ret 3
    else if div =? 16 then ret 4
    else ret (-1).

(** The first index below [PLAT_MAX_OPP_NB] whose frequency is [freq_khz],
    [PLAT_MAX_OPP_NB] if there is none: [n] slots are left, the next one
    is [idx]. *)
Fixpoint find_opp (n : nat) (idx : nat) (freq_khz : Z)
    (ps : pll_settings) : nat :=
  match n with
  | O => idx
  | S n' =>
      if freq_at ps idx =? freq_khz then idx
      else find_opp n' (S idx) freq_khz ps
  end.

(** [ret = c; if (ret) return ret;] *)
Definition try (c : M Z) (k : M Z) : M Z :=
  r <- c ;; if negb (r =? 0) then ret r else k.

Definition pll1_config_from_opp_khz (freq_khz : Z) : M Z :=
  idx <- gets (fun s => find_opp PLAT_MAX_OPP_NB 0 freq_khz (pll1_settings s)) ;;
  if (idx =? PLAT_MAX_OPP_NB)%nat then ret (-1)
  else
    div <- stm32mp1_get_mpu_div freq_khz ;;
    if div =? 0 then stm32mp1_set_clksrc CLK_MPU_PLL1P
    else if negb (div =? -1) then
      r <- stm32mp1_set_clkdiv div RCC_MPCKDIVR ;;
      if r =? 0 then stm32mp1_set_clksrc CLK_MPU_PLL1P_DIV else ret r
    else
      pllcfg <- gets (fun s => cfg_row (pll1_settings s) idx) ;;
      fracv <- gets (fun s => frac_at (pll1_settings s) idx) ;;
      otf <- gets (is_pll_config_on_the_fly _PLL1 pllcfg fracv) ;;
      match otf with
      | None => ret (-1)
      | Some config_on_the_fly =>
          if config_on_the_fly =? 1 then ret 0
          else
            try (if config_on_the_fly =? -1
                 then try (stm32mp1_set_clksrc CLK_MPU_HSI)
                        (try (pll_stop _PLL1) (ret 0))
                 else ret 0)
              (try (pll_config _PLL1 pllcfg fracv)
                 (if config_on_the_fly =? -1
                  then
                    pll_start _PLL1 ;;;
                    try (pll_output _PLL1 (pllcfg_at pllcfg PLLCFG_O))
                      (try (stm32mp1_set_clksrc CLK_MPU_PLL1P) (ret 0))
                  else ret 0))
      end.

Definition stm32mp1_set_opp_khz (freq_khz : Z) : M Z :=
  cur <- gets current_opp_khz ;;
  if freq_khz =? cur then ret 0
  else
    valid <- gets stm32mp1_clk_pll1_settings_are_valid ;;
    if negb valid then ret (-1)
    else
      v <- rd RCC_MPCKSELR ;;
      let mpu_src := Z.land v RCC_SELR_SRC_MASK in
      if negb (mpu_src =? RCC_MPCKSELR_PLL)
         && negb (mpu_src =? RCC_MPCKSELR_PLL_MPUDIV)
      then ret (-1)
      else
        r <- pll1_config_from_opp_khz freq_khz ;;
        if negb (r =? 0) then
          cur <- gets current_opp_khz ;;
          r' <- pll1_config_from_opp_khz cur ;;
          if negb (r' =? 0) then panic else ret (-1)
        else
          modify (set_current_opp_khz freq_khz) ;;;
          ret 0.

(** The loop of [stm32mp1_round_opp_khz]: [n] slots are left, the next
    one is [i]. *)
Fixpoint round_opp_loop (n : nat) (i : nat) (freq_khz round_opp : Z)
    (ps : pll_settings) : Z :=
  match n with
  | O => round_opp
  | S n' =>
      round_opp_loop n' (S i) freq_khz
        (if (freq_at ps i <=? freq_khz) && (freq_at ps i >? round_opp)
         then freq_at ps i else round_opp)
        ps
  end.

(** The result is the return value and the value left in [*freq_khz]. *)
Definition stm32mp1_round_opp_khz (freq_khz : Z) : M (Z * Z) :=
  valid <- gets stm32mp1_clk_pll1_settings_are_valid ;;
  if negb valid then
    cur <- gets current_opp_khz ;;
    ret (0, cur)
  else
    ps <- gets pll1_settings ;;
    ret (0, round_opp_loop PLAT_MAX_OPP_NB 0 freq_khz 0 ps).

(** *** Power context: the resume sequence *)

Definition restore_pll34_state : M unit :=
  ctx <- gets soc_stop_ctx ;;
  (if negb (Z.land (pll4cr ctx) RCC_PLLNCR_PLLON =? 0)
   then pll_start _PLL4 else ret tt) ;;;
  (if negb (Z.land (pll3cr ctx) RCC_PLLNCR_PLLON =? 0)
   then
     pll_start _PLL3 ;;;
     r <- pll_output _PLL3 (Z.shiftr (pll3cr ctx) RCC_PLLNCR_DIVEN_SHIFT) ;;
     if negb (r =? 0) then panic else ret tt
   else ret tt) ;;;
  (if negb (Z.land (pll4cr ctx) RCC_PLLNCR_PLLON =? 0)
   then
     r <- pll_output _PLL4 (Z.shiftr (pll4cr ctx) RCC_PLLNCR_DIVEN_SHIFT) ;;
     if negb (r =? 0) then panic else ret tt
   else ret tt).

(** The two loops of [restore_mux_cfg], over the entries that are left. *)
Fixpoint restore_mux0 (l : list backup_mux) (r : gmap Z Z) : gmap Z Z :=
  match l with
  | [] => r
  | c :: l' =>
      restore_mux0 l'
        (io_clrsetbits32 (mux_offset c)
           (GENMASK_32 (mux_bit_len c - 1) 0) (mux_value c) r)
  end.

Fixpoint restore_mux4 (l : list backup_mux) (r : gmap Z Z) : gmap Z Z :=
  match l with
  | [] => r
  | c :: l' =>
      restore_mux4 l'
        (io_clrsetbits32 (mux_offset c)
           (GENMASK_32 (4 + mux_bit_len c - 1) 4) (mux_value c) r)
  end.

Definition restore_mux_cfg : M unit :=
  m0 <- gets backup_mux0_cfg ;;
  wr (restore_mux0 m0) ;;;
  m4 <- gets backup_mux4_cfg ;;
  wr (restore_mux4 m4).

Fixpoint restore_sc (l : list backup_clock) (r : gmap Z Z) : gmap Z Z :=
  match l with
  | [] => r
  | c :: l' =>
      restore_sc l'
        (io_write32 (bk_offset c + RCC_MP_ENCLRR_OFFSET)
           (not32 (bk_value c))
           (io_write32 (bk_offset c) (bk_value c) r))
  end.

Definition restore_sc_cfg : M unit :=
  l <- gets backup_clock_sc_cfg ;; wr (restore_sc l).

Fixpoint restore_regular (l : list backup_clock) (r : gmap Z Z) : gmap Z Z :=
  match l with
  | [] => r
  | c :: l' => restore_regular l' (io_write32 (bk_offset c) (bk_value c) r)
  end.

Definition restore_regular_cfg : M unit :=
  l <- gets backup_clock_cfg ;; wr (restore_regular l).

Definition ker_mask : Z :=
  Z.lor (Z.lor RCC_OCENR_HSIKERON RCC_OCENR_CSIKERON) RCC_OCENR_HSEKERON.

Definition disable_kernel_clocks : M unit :=
  wr (io_write32 RCC_OCENCLRR ker_mask).

(** One turn of the loop of [stm32_clock_resume]. *)
Definition resume_gate (idx : Z) : M unit :=
  let gate := gate_ref idx in
  if gate_is_non_secure gate then ret tt
  else
    c <- gets (fun s => refcount s idx) ;;
    if negb (c =? 0) then wr (__clk_enable gate)
    else wr (__clk_disable gate).

(** [for (idx = ...; idx < NB_GATES; idx++)]: [n] gates are left, the
    next one is [idx]. *)
Fixpoint resume_gates (n : nat) (idx : Z) : M unit :=
  match n with
  | O => ret tt
  | S n' => resume_gate idx ;;; resume_gates n' (idx + 1)
  end.

(** What [stm32_clock_resume] replays from the saved context. *)
Definition resume_restore : M unit :=
  restore_pll34_state ;;;
  restore_mux_cfg ;;;
  restore_sc_cfg ;;;
  restore_regular_cfg.

Definition stm32_clock_resume : M unit :=
  resume_restore ;;;
  resume_gates NB_GATES 0 ;;;
  disable_kernel_clocks.


(** *** Sequences of calls and table conditions used in the statements *)

(** [n] calls of [c] in a row. *)
Fixpoint repeat_m (n : nat) (c : M unit) : M unit :=
  match n with
  | O => ret tt
  | S n' => c ;;; repeat_m n' c
  end.

(** The gate's register is decoded by the RCC the way its [set_clr]
    field says, and its enable bit is one of the 32 bits. *)
Definition gate_hw_ok (g : clk_gate) : Prop :=
  0 <= gate_bit g < 32 /\
  (gate_set_clr g <> 0 ->
   rcc_set_register (gate_offset g) = true /\
   rcc_set_register (gate_offset g + RCC_MP_ENCLRR_OFFSET) = false) /\
  (gate_set_clr g = 0 ->
   rcc_set_register (gate_offset g) = false /\
   rcc_set_register (gate_offset g - RCC_MP_ENCLRR_OFFSET) = false).

(** The id maps to the gate at index [i], whose reference counter
    exists. *)
Definition gated_at (id : Z) (i : Z) (s : clk_state) : Prop :=
  clock_is_always_on id = false /\
  stm32mp1_clk_get_gated_id id = i /\
  0 <= i /\
  (Z.to_nat i < length (gate_refcounts s))%nat.

(** Two gates drive the same bit of the same register. *)
Definition same_bit (g g' : clk_gate) : bool :=
  (gate_offset g' =? gate_offset g) && (gate_bit g' =? gate_bit g).

Definition enable_n (id : Z) (n : nat) : M unit :=
  repeat_m n (clk_stm32_enable id ;;; ret tt).

Definition disable_n (id : Z) (n : nat) : M unit :=
  repeat_m n (clk_stm32_disable id).

(** The state between calls: the counter is [c], and a counter above
    zero goes with a gate that is on. *)
Definition counted (id i c : Z) (s : clk_state) : Prop :=
  gated_at id i s /\ refcount s i = c /\
  (0 < c -> __clk_is_enabled (gate_ref i) (rcc_regs s) = true).

(** The frequency that [stm32mp1_round_opp_khz] leaves in [*freq_khz]. *)
Definition round_opp_result (s : clk_state) (freq_khz : Z) : Z :=
  match stm32mp1_round_opp_khz freq_khz s with
  | Done (_, f) _ => f
  | Panic => freq_khz
  end.

(** The fields that [stm32mp1_pll_get_fvco] decodes from the registers
    of a PLL. *)
Definition pll_divm (pll : clk_pll) (s : clk_state) : Z :=
  Z.shiftr (Z.land (io_read32 (pllxcfgr1 pll) (rcc_regs s))
              RCC_PLLNCFGR1_DIVM_MASK) RCC_PLLNCFGR1_DIVM_SHIFT.

Definition pll_divn (pll : clk_pll) (s : clk_state) : Z :=
  Z.land (io_read32 (pllxcfgr1 pll) (rcc_regs s)) RCC_PLLNCFGR1_DIVN_MASK.

Definition pll_fracv (pll : clk_pll) (s : clk_state) : Z :=
  Z.shiftr (Z.land (io_read32 (pllxfracr pll) (rcc_regs s))
              RCC_PLLNFRACR_FRACV_MASK) RCC_PLLNFRACR_FRACV_SHIFT.

Definition pll_fracle (pll : clk_pll) (s : clk_state) : bool :=
  negb (Z.land (io_read32 (pllxfracr pll) (rcc_regs s))
          RCC_PLLNFRACR_FRACLE =? 0).

(** The timer multiplier rule in the words of the design: with the APB
    prescaler read from [divr] engaged, the rate is multiplied by the
    timer prescaler read from [prer], plus one, times two. *)
Definition timer_rule (divr prer rate : Z) (s : clk_state) : Z :=
  if Z.land (io_read32 divr (rcc_regs s)) RCC_APBXDIV_MASK =? 0 then rate
  else rate
       * (Z.land (io_read32 prer (rcc_regs s)) RCC_TIMGXPRER_TIMGXPRE + 1)
       * 2.

(** The variables of the driver other than the registers and the
    answers of the hardware. *)
Definition driver_vars (s : clk_state) :=
  (stm32mp1_osc s, gate_refcounts s, pll1_settings s, current_opp_khz s).

(** A computation that touches the hardware only. *)
Definition hw_only {A} (c : M A) : Prop :=
  forall s a s', c s = Done a s' -> driver_vars s' = driver_vars s.

(** The gate table fits the RCC: every gate satisfies [gate_hw_ok], no
    gate lives in the register of the kernel clock enables, and no two
    gates drive the same bit. *)
Definition gates_wf : Prop :=
  (forall g, In g stm32mp1_clk_gate ->
     gate_hw_ok g /\ reg_target RCC_OCENCLRR <> gate_offset g) /\
  (forall i j g g',
     stm32mp1_clk_gate !! i = Some g -> stm32mp1_clk_gate !! j = Some g' ->
     i <> j -> same_bit g g' = false).

(** *** The divider search, in the words of the design *)

(** A divider set: M, N, P and the fractional value. *)
Record candidate : Type := {
  c_divm : Z;
  c_divn : Z;
  c_divp : Z;
  c_frac : Z
}.

(** The reference after the M divider, the VCO (before the implicit
    division by 2) and the absolute error of the output for a divider
    set. *)
Definition post_divm_of (input_freq divm : Z) : Z := input_freq / (divm + 1).

Definition vco_of (input_freq : Z) (c : candidate) : Z :=
  post_divm_of input_freq (c_divm c) * (c_divn c + 1)
  + post_divm_of input_freq (c_divm c) * c_frac c / FRAC_MAX.

Definition freq_error (input_freq output_freq : Z) (c : candidate) : Z :=
  Z.abs (vco_of input_freq c / (c_divp c + 1) - output_freq).

Definition vco_in_window (input_freq : Z) (c : candidate) : bool :=
  (VCO_MIN / 2 <=? vco_of input_freq c) && (vco_of input_freq c <=? VCO_MAX / 2).

(** N and the first fractional value, derived from the target. *)
Definition divn_of (input_freq output_freq divm divp : Z) : Z :=
  output_freq * (divm + 1) * (divp + 1) / input_freq - 1.

Definition frac_of (input_freq output_freq divm divp : Z) : Z :=
  output_freq * (divm + 1) * (divp + 1) * FRAC_MAX / input_freq
  - (divn_of input_freq output_freq divm divp + 1) * FRAC_MAX.

(** M from 63 down to 0, P from 0 up to 127. *)
Definition divm_values : list Z := map Z.of_nat (rev (seq 0 64)).
Definition divp_values : list Z := map Z.of_nat (seq 0 128).

(** The valid candidates for one M and one P: N must be legal, then the
    two fractional values of the refinement, each kept when its VCO is
    in the window. *)
Definition candidates_mp (input_freq output_freq divm divp : Z)
    : list candidate :=
  let n := divn_of input_freq output_freq divm divp in
  let f := frac_of input_freq output_freq divm divp in
  if (DIVN_MIN <=? n) && (n <=? DIVN_MAX) then
    List.filter (vco_in_window input_freq)
      [ {| c_divm := divm; c_divn := n; c_divp := divp; c_frac := f |};
        {| c_divm := divm; c_divn := n; c_divp := divp; c_frac := f + 1 |} ]
  else [].

(** The valid candidates for one M, kept when the reference after M is
    in the 8-16 MHz window. *)
Definition candidates_m (input_freq output_freq divm : Z) : list candidate :=
  if (POST_DIVM_MIN <=? post_divm_of input_freq divm)
     && (post_divm_of input_freq divm <=? POST_DIVM_MAX)
  then flat_map (candidates_mp input_freq output_freq divm) divp_values
  else [].

(** All the valid candidates, in the order of the search. *)
Definition candidates (input_freq output_freq : Z) : list candidate :=
  flat_map (candidates_m input_freq output_freq) divm_values.

(** [c] is the earliest candidate of [l] with the least error: every
    candidate before it has a greater error, none after it has a
    smaller one. *)
Definition is_first_best (err : candidate -> Z) (l : list candidate)
    (c : candidate) : Prop :=
  exists pre post,
    l = pre ++ c :: post /\
    (forall x, In x pre -> err c < err x) /\
    (forall x, In x post -> err c <= err x).

(** The four stores that record a candidate for the entry [idx]. *)
Definition store_candidate (idx : nat) (c : candidate) (ps : pll_settings)
    : pll_settings :=
  set_frac idx (c_frac c)
    (set_cfg idx PLLCFG_P (c_divp c)
       (set_cfg idx PLLCFG_N (c_divn c)
          (set_cfg idx PLLCFG_M (c_divm c) ps))).

(** The search over a list of valid candidates: a candidate is recorded
    when its error is below the best so far, and an error of 0 ends the
    search. *)
Fixpoint scan (idx : nat) (input_freq output_freq : Z) (l : list candidate)
    (best_diff : Z) (ps : pll_settings) : flow search pll_settings :=
  match l with
  | [] => Next (best_diff, ps)
  | c :: l' =>
      let diff := freq_error input_freq output_freq c in
      if diff <? best_diff then
        if diff =? 0 then Return (store_candidate idx c ps)
        else scan idx input_freq output_freq l' diff (store_candidate idx c ps)
      else scan idx input_freq output_freq l' best_diff ps
  end.

(** The entry [idx] before the search: Q and R at 0, the P output
    enabled. *)
Definition search_start (idx : nat) (ps : pll_settings) : pll_settings :=
  set_cfg idx PLLCFG_O (u32 (PQR 1 0 0))
    (set_cfg idx PLLCFG_R 0 (set_cfg idx PLLCFG_Q 0 ps)).

End Driver.

(** ** The rest of the driver: settings bookkeeping, suspend, stop context *)

(** More of the headers that are not part of the sources: two registers
    of the RCC and a field ([drivers/stm32mp1_rcc.h]), the two reference
    selections of PLL1 ([dt-bindings/clock/stm32mp1-clksrc.h]), the
    rounded division of [util.h] and the suspend operation of
    [kernel/pm.h]. *)
Class rcc_map_more : Type := {
  RCC_TZCR : Z; RCC_TZCR_MCKPROT : Z;
  RCC_MP_RSTSCLRR : Z;
  CLK_PLL12_HSI : Z; CLK_PLL12_HSE : Z;
  UDIV_ROUND_NEAREST : Z -> Z -> Z;
  PM_OP_SUSPEND : Z
}.

(** The values of the secure monitor interface ([stm32mp1_smc.h]) and the
    checked multiplication of [util.h]: [MUL_OVERFLOW a b] is whether the
    macro reports an overflow, and the value it stores. *)
Class sip_svc : Type := {
  STM32_SIP_SVC_OK : Z; STM32_SIP_SVC_FAILED : Z;
  STM32_SIP_SVC_INVALID_PARAMS : Z;
  STM32_SIP_SVC_RCC_OPP_SET : Z; STM32_SIP_SVC_RCC_OPP_ROUND : Z;
  MUL_OVERFLOW : Z -> Z -> bool * Z
}.

Definition set_soc_stop_ctx (c : soc_stop_context) (s : clk_state)
    : clk_state :=
  {| rcc_regs := rcc_regs s; hw_ready := hw_ready s;
     stm32mp1_osc := stm32mp1_osc s;
     gate_refcounts := gate_refcounts s; pll1_settings := pll1_settings s;
     current_opp_khz := current_opp_khz s; soc_stop_ctx := c;
     backup_mux0_cfg := backup_mux0_cfg s;
     backup_mux4_cfg := backup_mux4_cfg s;
     backup_clock_sc_cfg := backup_clock_sc_cfg s;
     backup_clock_cfg := backup_clock_cfg s |}.

Definition set_backup_mux0_cfg (l : list backup_mux) (s : clk_state)
    : clk_state :=
  {| rcc_regs := rcc_regs s; hw_ready := hw_ready s;
     stm32mp1_osc := stm32mp1_osc s;
     gate_refcounts := gate_refcounts s; pll1_settings := pll1_settings s;
     current_opp_khz := current_opp_khz s; soc_stop_ctx := soc_stop_ctx s;
     backup_mux0_cfg := l;
     backup_mux4_cfg := backup_mux4_cfg s;
     backup_clock_sc_cfg := backup_clock_sc_cfg s;
     backup_clock_cfg := backup_clock_cfg s |}.

Definition set_backup_mux4_cfg (l : list backup_mux) (s : clk_state)
    : clk_state :=
  {| rcc_regs := rcc_regs s; hw_ready := hw_ready s;
     stm32mp1_osc := stm32mp1_osc s;
     gate_refcounts := gate_refcounts s; pll1_settings := pll1_settings s;
     current_opp_khz := current_opp_khz s; soc_stop_ctx := soc_stop_ctx s;
     backup_mux0_cfg := backup_mux0_cfg s;
     backup_mux4_cfg := l;
     backup_clock_sc_cfg := backup_clock_sc_cfg s;
     backup_clock_cfg := backup_clock_cfg s |}.

Definition set_backup_clock_sc_cfg (l : list backup_clock) (s : clk_state)
    : clk_state :=
  {| rcc_regs := rcc_regs s; hw_ready := hw_ready s;
     stm32mp1_osc := stm32mp1_osc s;
     gate_refcounts := gate_refcounts s; pll1_settings := pll1_settings s;
     current_opp_khz := current_opp_khz s; soc_stop_ctx := soc_stop_ctx s;
     backup_mux0_cfg := backup_mux0_cfg s;
     backup_mux4_cfg := backup_mux4_cfg s;
     backup_clock_sc_cfg := l;
     backup_clock_cfg := backup_clock_cfg s |}.

Definition set_backup_clock_cfg (l : list backup_clock) (s : clk_state)
    : clk_state :=
  {| rcc_regs := rcc_regs s; hw_ready := hw_ready s;
     stm32mp1_osc := stm32mp1_osc s;
     gate_refcounts := gate_refcounts s; pll1_settings := pll1_settings s;
     current_opp_khz := current_opp_khz s; soc_stop_ctx := soc_stop_ctx s;
     backup_mux0_cfg := backup_mux0_cfg s;
     backup_mux4_cfg := backup_mux4_cfg s;
     backup_clock_sc_cfg := backup_clock_sc_cfg s;
     backup_clock_cfg := l |}.

Section DriverMore.
Context {ids : clk_ids} {rmap : rcc_map} {plat : clk_platform}
        {more : rcc_map_more}.

(** *** PLL1 settings of the operating points *)

(** [memcpy] of one row of [pll1_settings.cfg] onto another. *)
Definition copy_cfg_row (dst src : nat) (ps : pll_settings) : pll_settings :=
  {| valid_id := valid_id ps; freq := freq ps; volt := volt ps;
     cfg := <[dst := cfg_row ps src]> (cfg ps);
     frac := frac ps |}.

Definition clk_get_pll1_settings (clksrc : Z) (index : nat) : M Z :=
  ps <- gets pll1_settings ;;
  let i := find_opp PLAT_MAX_OPP_NB 0 (freq_at ps index) ps in
  valid <- gets stm32mp1_clk_pll1_settings_are_valid ;;
  if ((i =? PLAT_MAX_OPP_NB)%nat && negb valid)
     || ((i <? PLAT_MAX_OPP_NB)%nat && (cfg_at ps i PLLCFG_O =? 0))
  then
    input_freq <-
      (if clksrc =? CLK_PLL12_HSI then clk_stm32_get_rate CK_HSI
       else if clksrc =? CLK_PLL12_HSE then clk_stm32_get_rate CK_HSE
       else panic) ;;
    clk_compute_pll1_settings input_freq index
  else if (i <? PLAT_MAX_OPP_NB)%nat then
    if negb (cfg_at ps i PLLCFG_O =? 0) then ret 0
    else
      modify (fun s =>
                set_pll1_settings
                  (set_frac index (frac_at (pll1_settings s) i)
                     (copy_cfg_row index i (pll1_settings s))) s) ;;;
      ret 0
  else ret (-1).

(** The result is the index [i], or -1. *)
Definition clk_save_current_pll1_settings (buck1_voltage : Z) : M Z :=
  let pll := pll_ref _PLL1 in
  rate <- clk_stm32_get_rate CK_MPU ;;
  let freq := u32 (UDIV_ROUND_NEAREST rate 1000) in
  ps <- gets pll1_settings ;;
  let i := find_opp PLAT_MAX_OPP_NB 0 freq ps in
  if (i =? PLAT_MAX_OPP_NB)%nat
     || (negb (nth i (volt ps) 0 =? buck1_voltage)
         && negb (buck1_voltage =? 0))
  then ret (-1)
  else
    cfgr1 <- rd (pllxcfgr1 pll) ;;
    cfgr2 <- rd (pllxcfgr2 pll) ;;
    cr <- rd (pllxcr pll) ;;
    fracr <- rd (pllxfracr pll) ;;
    modify (fun s =>
      set_pll1_settings
        (set_frac i
           (Z.shiftr (Z.land fracr RCC_PLLNFRACR_FRACV_MASK)
              RCC_PLLNFRACR_FRACV_SHIFT)
        (set_cfg i PLLCFG_O (Z.shiftr cr RCC_PLLNCR_DIVEN_SHIFT)
        (set_cfg i PLLCFG_R
           (Z.shiftr (Z.land cfgr2 RCC_PLLNCFGR2_DIVR_MASK)
              RCC_PLLNCFGR2_DIVR_SHIFT)
        (set_cfg i PLLCFG_Q
           (Z.shiftr (Z.land cfgr2 RCC_PLLNCFGR2_DIVQ_MASK)
              RCC_PLLNCFGR2_DIVQ_SHIFT)
        (set_cfg i PLLCFG_P
           (Z.shiftr (Z.land cfgr2 RCC_PLLNCFGR2_DIVP_MASK)
              RCC_PLLNCFGR2_DIVP_SHIFT)
        (set_cfg i PLLCFG_N
           (Z.shiftr (Z.land cfgr1 RCC_PLLNCFGR1_DIVN_MASK)
              RCC_PLLNCFGR1_DIVN_SHIFT)
        (set_cfg i PLLCFG_M
           (Z.shiftr (Z.land cfgr1 RCC_PLLNCFGR1_DIVM_MASK)
              RCC_PLLNCFGR1_DIVM_SHIFT)
           (pll1_settings s)))))))) s) ;;;
    ret (Z.of_nat i).

Definition stm32mp1_clk_get_pll1_current_clksrc : M Z :=
  value <- rd (rckxselr (pll_ref _PLL1)) ;;
  let src := Z.land value RCC_SELR_REFCLK_SRC_MASK in
  if src =? 0 then ret CLK_PLL12_HSI
  else if src =? 1 then ret CLK_PLL12_HSE
  else panic.

Definition save_current_opp : M unit :=
  rate <- clk_stm32_get_rate CK_MPU ;;
  let freq_khz := u32 (UDIV_ROUND_NEAREST rate 1000) in
  if freq_khz >? UINT32_MAX then panic
  else modify (set_current_opp_khz (u32 freq_khz)).

(** *** Stop context *)

Definition save_pll34_state : M unit :=
  v3 <- rd RCC_PLL3CR ;;
  modify (fun s =>
    set_soc_stop_ctx
      {| pll3cr := v3; pll4cr := pll4cr (soc_stop_ctx s);
         mssckselr := mssckselr (soc_stop_ctx s);
         mcudivr := mcudivr (soc_stop_ctx s) |} s) ;;;
  v4 <- rd RCC_PLL4CR ;;
  modify (fun s =>
    set_soc_stop_ctx
      {| pll3cr := pll3cr (soc_stop_ctx s); pll4cr := v4;
         mssckselr := mssckselr (soc_stop_ctx s);
         mcudivr := mcudivr (soc_stop_ctx s) |} s).

Definition save_mcu_subsys_clocks : M unit :=
  sel <- rd RCC_MSSCKSELR ;;
  modify (fun s =>
    set_soc_stop_ctx
      {| pll3cr := pll3cr (soc_stop_ctx s);
         pll4cr := pll4cr (soc_stop_ctx s);
         mssckselr := sel;
         mcudivr := mcudivr (soc_stop_ctx s) |} s) ;;;
  div <- rd RCC_MCUDIVR ;;
  modify (fun s =>
    set_soc_stop_ctx
      {| pll3cr := pll3cr (soc_stop_ctx s);
         pll4cr := pll4cr (soc_stop_ctx s);
         mssckselr := mssckselr (soc_stop_ctx s);
         mcudivr := Z.land div RCC_MCUDIV_MASK |} s).

Definition restore_mcu_subsys_clocks : M unit :=
  ctx <- gets soc_stop_ctx ;;
  wr (io_write32 RCC_MSSCKSELR (mssckselr ctx)) ;;;
  r <- stm32mp1_set_clkdiv (mcudivr ctx) RCC_MCUDIVR ;;
  if negb (r =? 0) then panic else ret tt.

(** *** Suspend: the backups *)

(** The two loops of [backup_mux_cfg], over the entries that are left;
    the value is stored in a [uint8_t]. *)
Fixpoint backup_mux0 (l : list backup_mux) (r : gmap Z Z)
    : list backup_mux :=
  match l with
  | [] => []
  | c :: l' =>
      {| mux_offset := mux_offset c;
         mux_value :=
           u8 (Z.land (io_read32 (mux_offset c) r)
                 (GENMASK_32 (mux_bit_len c - 1) 0));
         mux_bit_len := mux_bit_len c |} :: backup_mux0 l' r
  end.

Fixpoint backup_mux4 (l : list backup_mux) (r : gmap Z Z)
    : list backup_mux :=
  match l with
  | [] => []
  | c :: l' =>
      {| mux_offset := mux_offset c;
         mux_value :=
           u8 (Z.land (io_read32 (mux_offset c) r)
                 (GENMASK_32 (4 + mux_bit_len c - 1) 4));
         mux_bit_len := mux_bit_len c |} :: backup_mux4 l' r
  end.

Definition backup_mux_cfg : M unit :=
  modify (fun s =>
    set_backup_mux0_cfg (backup_mux0 (backup_mux0_cfg s) (rcc_regs s)) s) ;;;
  modify (fun s =>
    set_backup_mux4_cfg (backup_mux4 (backup_mux4_cfg s) (rcc_regs s)) s).

(** The loop of [backup_sc_cfg], which is also the loop of
    [backup_regular_cfg]. *)
Fixpoint backup_clocks (l : list backup_clock) (r : gmap Z Z)
    : list backup_clock :=
  match l with
  | [] => []
  | c :: l' =>
      {| bk_offset := bk_offset c;
         bk_value := io_read32 (bk_offset c) r |} :: backup_clocks l' r
  end.

Definition backup_sc_cfg : M unit :=
  modify (fun s =>
    set_backup_clock_sc_cfg
      (backup_clocks (backup_clock_sc_cfg s) (rcc_regs s)) s).

Definition backup_regular_cfg : M unit :=
  modify (fun s =>
    set_backup_clock_cfg
      (backup_clocks (backup_clock_cfg s) (rcc_regs s)) s).

Definition enable_kernel_clocks : M unit :=
  v <- rd RCC_OCENSETR ;;
  let reg := u32 (Z.shiftl v 1) in
  wr (io_write32 RCC_OCENSETR (Z.land reg ker_mask)).

Definition clear_rcc_reset_status : M unit :=
  wr (io_write32 RCC_MP_RSTSCLRR 0).

Definition stm32mp1_clk_save_context_for_stop : M unit :=
  enable_kernel_clocks ;;;
  save_mcu_subsys_clocks ;;;
  save_pll34_state.

Definition stm32mp1_clk_restore_context_for_stop : M unit :=
  restore_pll34_state ;;;
  restore_mcu_subsys_clocks ;;;
  disable_kernel_clocks.

Definition stm32mp1_clk_mcuss_protect (enable : bool) : M unit :=
  if enable then wr (io_setbits32 RCC_TZCR RCC_TZCR_MCKPROT)
  else wr (io_clrbits32 RCC_TZCR RCC_TZCR_MCKPROT).

Definition stm32_clock_suspend : M unit :=
  backup_regular_cfg ;;;
  backup_sc_cfg ;;;
  backup_mux_cfg ;;;
  save_pll34_state ;;;
  enable_kernel_clocks ;;;
  clear_rcc_reset_status.

Definition stm32_clock_pm (op : Z) : M Z :=
  (if op =? PM_OP_SUSPEND then stm32_clock_suspend
   else stm32_clock_resume) ;;;
  ret TEE_SUCCESS.

(** *** Conditions on the register map used in the statements *)

(** A register that a write replaces as a whole. *)
Definition plain_register (off : Z) : Prop :=
  rcc_set_register off = false /\
  rcc_set_register (off - RCC_MP_ENCLRR_OFFSET) = false.

(** The SET half of a SET/CLEAR pair. *)
Definition set_clear_register (off : Z) : Prop :=
  rcc_set_register off = true /\
  rcc_set_register (off + RCC_MP_ENCLRR_OFFSET) = false.

(** The registers that hold the dividers of a PLL are plain registers,
    all different, and none of them is the reference selector. *)
Definition pll_registers_ok (p : pll_id) : Prop :=
  let pll := pll_ref p in
  plain_register (pllxcfgr1 pll) /\ plain_register (pllxcfgr2 pll) /\
  plain_register (pllxfracr pll) /\
  pllxcfgr1 pll <> pllxcfgr2 pll /\ pllxcfgr1 pll <> pllxfracr pll /\
  pllxcfgr2 pll <> pllxfracr pll /\
  reg_target (rckxselr pll) <> pllxcfgr1 pll /\
  reg_target (rckxselr pll) <> pllxcfgr2 pll /\
  reg_target (rckxselr pll) <> pllxfracr pll.

(** The masks of the two mux backups. *)
Definition mux0_mask (c : backup_mux) : Z :=
  GENMASK_32 (mux_bit_len c - 1) 0.
Definition mux4_mask (c : backup_mux) : Z :=
  GENMASK_32 (4 + mux_bit_len c - 1) 4.

(** The bit [n] of the register at [off] belongs to a field saved by
    one of the mux backups. *)
Definition mux_saved (l0 l4 : list backup_mux) (off n : Z) : Prop :=
  (exists c, In c l0 /\ mux_offset c = off
             /\ Z.testbit (mux0_mask c) n = true) \/
  (exists c, In c l4 /\ mux_offset c = off
             /\ Z.testbit (mux4_mask c) n = true).

(** The mux backups fit the RCC: plain registers, each listed once in
    its table; the saved field fits the [uint8_t] that holds it. *)
Definition mux_tables_ok (l0 l4 : list backup_mux) : Prop :=
  NoDup (map mux_offset l0) /\ NoDup (map mux_offset l4) /\
  (forall c, In c l0 ->
     plain_register (mux_offset c) /\ 0 <= mux0_mask c < 256) /\
  (forall c, In c l4 ->
     plain_register (mux_offset c) /\ 0 <= mux4_mask c < 256).

(** The kernel clock enables are a SET/CLEAR pair. *)
Definition ocen_ok : Prop :=
  set_clear_register RCC_OCENSETR /\
  RCC_OCENCLRR = RCC_OCENSETR + RCC_MP_ENCLRR_OFFSET.

(** The value of the register at [off]. *)
Definition reg_value (off : Z) (s : clk_state) : Z :=
  io_read32 off (rcc_regs s).

(** What the driver keeps in memory across a low power state. *)
Definition saved_context (s : clk_state) :=
  (soc_stop_ctx s, backup_mux0_cfg s, backup_mux4_cfg s,
   backup_clock_sc_cfg s, backup_clock_cfg s).

(** A computation that leaves that memory as it is. *)
Definition keeps_context {A} (c : M A) : Prop :=
  forall s a s', c s = Done a s' -> saved_context s' = saved_context s.

End DriverMore.

(** ** The operating point service of the secure monitor *)

Section OppService.
Context {ids : clk_ids} {rmap : rcc_map} {plat : clk_platform}
        {svc : sip_svc}.

(** The result is the return value and the value left in [*res]. *)
Definition rcc_opp_scv_handler (x1 x2 res : Z) : M (Z * Z) :=
  let cmd := x1 in
  let opp := x2 / 1000 in
  if cmd =? STM32_SIP_SVC_RCC_OPP_SET then
    r <- stm32mp1_set_opp_khz opp ;;
    if negb (r =? 0) then ret (STM32_SIP_SVC_FAILED, res)
    else ret (STM32_SIP_SVC_OK, res)
  else if cmd =? STM32_SIP_SVC_RCC_OPP_ROUND then
    r <- stm32mp1_round_opp_khz opp ;;
    let '(rc, opp) := r in
    if negb (rc =? 0) then ret (STM32_SIP_SVC_FAILED, res)
    else
      let '(ovf, v) := MUL_OVERFLOW opp 1000 in
      if ovf then ret (STM32_SIP_SVC_FAILED, v)
      else ret (STM32_SIP_SVC_OK, v)
  else ret (STM32_SIP_SVC_INVALID_PARAMS, res).

(** What [util.h] says of the macro: the overflow is reported when the
    product does not fit [uint32_t], and the product is stored
    truncated. *)
Definition mul_overflow_u32 : Prop :=
  forall a b, MUL_OVERFLOW a b = (negb (a * b <? 2 ^ 32), u32 (a * b)).

End OppService.

(** ** Low power modes of the platform ([power_config.c]) *)

(** SoC modes and power domains ([dt-bindings/power/stm32mp1-power.h]),
    PSCI modes ([stm32mp_pm.h]) and the build switch of the CRYP
    peripheral. *)
Class pm_ids : Type := {
  STM32_PM_CSLEEP_RUN : Z;
  STM32_PM_CSTOP_ALLOW_STOP : Z;
  STM32_PM_CSTOP_ALLOW_LP_STOP : Z;
  STM32_PM_CSTOP_ALLOW_LPLV_STOP : Z;
  STM32_PM_CSTOP_ALLOW_STANDBY_DDR_SR : Z;
  STM32_PM_CSTOP_ALLOW_STANDBY_DDR_OFF : Z;
  STM32_PM_SHUTDOWN : Z;
  STM32_PM_MAX_SOC_MODE : Z;
  STM32MP1_PD_CORE_RET : Z;
  STM32MP1_PD_CORE : Z;
  STM32MP1_PD_MAX_PM_DOMAIN : nat;
  PSCI_MODE_SYSTEM_SUSPEND : Z;
  PSCI_MODE_SYSTEM_OFF : Z;
  CFG_STM32_CRYP : bool
}.

(** The static variables of [power_config.c]. *)
Record pm_state : Type := {
  deepest_suspend_mode : Z;
  system_off_mode : Z;
  stm32mp1_supported_soc_modes : list Z;
  stm32mp1_pm_dom : list bool
}.

Section PowerConfig.
Context {pm : pm_ids}.

(** [None] is [panic ()]. *)
Definition need_to_backup_cpu_context (soc_mode : Z) : option bool :=
  if soc_mode =? STM32_PM_CSTOP_ALLOW_STANDBY_DDR_SR then Some true
  else if (soc_mode =? STM32_PM_CSLEEP_RUN)
          || (soc_mode =? STM32_PM_CSTOP_ALLOW_STOP)
          || (soc_mode =? STM32_PM_CSTOP_ALLOW_LP_STOP)
          || (soc_mode =? STM32_PM_CSTOP_ALLOW_LPLV_STOP)
          || (soc_mode =? STM32_PM_CSTOP_ALLOW_STANDBY_DDR_OFF)
          || (soc_mode =? STM32_PM_SHUTDOWN)
  then Some false
  else None.

Definition need_to_backup_stop_context (soc_mode : Z) : bool :=
  (soc_mode =? STM32_PM_CSTOP_ALLOW_STOP)
  || (soc_mode =? STM32_PM_CSTOP_ALLOW_LP_STOP)
  || (soc_mode =? STM32_PM_CSTOP_ALLOW_LPLV_STOP).

(** [while (res && (id > mode)) { id--; res &= stm32mp1_pm_dom[id]; }] *)
Fixpoint pm_domain_loop (id : nat) (mode : Z) (res : bool)
    (dom : list bool) : bool :=
  match id with
  | O => res
  | S id' =>
      if res && (Z.of_nat id >? mode)
      then pm_domain_loop id' mode (res && nth id' dom false) dom
      else res
  end.

Definition get_pm_domain_state (mode : Z) (st : pm_state) : bool :=
  pm_domain_loop STM32MP1_PD_MAX_PM_DOMAIN mode true (stm32mp1_pm_dom st).

(** The result is the return value and the next state. *)
Definition stm32mp1_set_pm_domain_state (domain : Z) (status : bool)
    (st : pm_state) : Z * pm_state :=
  if domain >=? Z.of_nat STM32MP1_PD_MAX_PM_DOMAIN then (-1, st)
  else
    (0, {| deepest_suspend_mode := deepest_suspend_mode st;
           system_off_mode := system_off_mode st;
           stm32mp1_supported_soc_modes := stm32mp1_supported_soc_modes st;
           stm32mp1_pm_dom :=
             <[Z.to_nat domain := status]> (stm32mp1_pm_dom st) |}).

(** [None] is the failure of the [assert]. *)
Definition is_supported_mode (soc_mode : Z) (st : pm_state) : option bool :=
  if soc_mode <? STM32_PM_MAX_SOC_MODE
  then Some (nth (Z.to_nat soc_mode) (stm32mp1_supported_soc_modes st) 0
             =? 1)
  else None.

(** [(mode == m) && (!dom || !is_supported_mode (mode))]: the domain
    test comes first, and the mode test is not evaluated when it
    settles the condition. *)
Definition falls_back (mode m : Z) (dom : bool) (st : pm_state)
    : option bool :=
  if negb (mode =? m) then Some false
  else if negb dom then Some true
  else match is_supported_mode mode st with
       | Some b => Some (negb b)
       | None => None
       end.

Definition stm32mp1_get_lp_soc_mode (psci_mode : Z) (st : pm_state)
    : option Z :=
  if psci_mode =? PSCI_MODE_SYSTEM_OFF then Some (system_off_mode st)
  else
    let mode := deepest_suspend_mode st in
    match falls_back mode STM32_PM_CSTOP_ALLOW_STANDBY_DDR_SR
            (get_pm_domain_state STM32MP1_PD_CORE_RET st) st with
    | None => None
    | Some b1 =>
        let mode := if b1 then STM32_PM_CSTOP_ALLOW_LPLV_STOP else mode in
        match falls_back mode STM32_PM_CSTOP_ALLOW_LPLV_STOP
                (get_pm_domain_state STM32MP1_PD_CORE st) st with
        | None => None
        | Some b2 =>
            let mode := if b2 then STM32_PM_CSTOP_ALLOW_LP_STOP else mode in
            match falls_back mode STM32_PM_CSTOP_ALLOW_LP_STOP true st with
            | None => None
            | Some b3 =>
                let mode :=
                  if b3 then STM32_PM_CSTOP_ALLOW_STOP else mode in
                match falls_back mode STM32_PM_CSTOP_ALLOW_STOP true st with
                | None => None
                | Some b4 =>
                    Some (if b4 then STM32_PM_CSLEEP_RUN else mode)
                end
            end
        end
    end.

Definition stm32mp1_set_lp_deepest_soc_mode (psci_mode soc_mode : Z)
    (st : pm_state) : Z * pm_state :=
  if soc_mode >=? STM32_PM_MAX_SOC_MODE then (-1, st)
  else
    let st1 :=
      if psci_mode =? PSCI_MODE_SYSTEM_SUSPEND then
        {| deepest_suspend_mode :=
             if negb CFG_STM32_CRYP
                && (soc_mode =? STM32_PM_CSTOP_ALLOW_STANDBY_DDR_SR)
             then STM32_PM_CSTOP_ALLOW_LPLV_STOP else soc_mode;
           system_off_mode := system_off_mode st;
           stm32mp1_supported_soc_modes := stm32mp1_supported_soc_modes st;
           stm32mp1_pm_dom := stm32mp1_pm_dom st |}
      else st in
    let st2 :=
      if psci_mode =? PSCI_MODE_SYSTEM_OFF then
        {| deepest_suspend_mode := deepest_suspend_mode st1;
           system_off_mode := soc_mode;
           stm32mp1_supported_soc_modes := stm32mp1_supported_soc_modes st1;
           stm32mp1_pm_dom := stm32mp1_pm_dom st1 |}
      else st1 in
    (0, st2).

(** The four stop and standby modes that the fallback chain of
    [stm32mp1_get_lp_soc_mode] tests, the run mode, and the condition
    that the header gives them different values. *)
Definition stop_modes : list Z :=
  [ STM32_PM_CSTOP_ALLOW_STANDBY_DDR_SR; STM32_PM_CSTOP_ALLOW_LPLV_STOP;
    STM32_PM_CSTOP_ALLOW_LP_STOP; STM32_PM_CSTOP_ALLOW_STOP ].

Definition modes_distinct : Prop :=
  NoDup (STM32_PM_CSLEEP_RUN :: stop_modes).

Definition supported (m : Z) (st : pm_state) : Prop :=
  nth (Z.to_nat m) (stm32mp1_supported_soc_modes st) 0 = 1.

End PowerConfig.

(** ** A platform for the examples

    The values of the STM32MP15 headers for the constants the driver takes
    from them, and the entries of the gate table that every build
    configuration has. *)

Module Board.

Definition ids : clk_ids :=
  {| CK_HSE := 0; CK_CSI := 1; CK_LSI := 2; CK_LSE := 3; CK_HSI := 4;
     CK_HSE_DIV2 := 5;
     PLL1_P := 180; PLL1_Q := 181; PLL1_R := 182;
     PLL2_P := 183; PLL2_Q := 184; PLL2_R := 185;
     PLL3_P := 186; PLL3_Q := 187; PLL3_R := 188;
     PLL4_P := 189; PLL4_Q := 190; PLL4_R := 191;
     CK_PER := 193; CK_MPU := 194; CK_AXI := 195; CK_MCU := 196;
     TIM2_K := 197; TIM14_K := 205; TIM1_K := 206; TIM17_K := 210 |}.

Definition rmap : rcc_map :=
  {| RCC_OCENSETR := 0x0C; RCC_OCENCLRR := 0x10;
     RCC_MPCKSELR := 0x20; RCC_ASSCKSELR := 0x24; RCC_MSSCKSELR := 0x48;
     RCC_CPERCKSELR := 0xD0;
     RCC_MPCKDIVR := 0x2C; RCC_AXIDIVR := 0x30; RCC_MCUDIVR := 0x830;
     RCC_APB1DIVR := 0x834; RCC_APB2DIVR := 0x838; RCC_APB3DIVR := 0x83C;
     RCC_APB4DIVR := 0x3C; RCC_APB5DIVR := 0x40;
     RCC_TIMG1PRER := 0x828; RCC_TIMG2PRER := 0x82C;
     RCC_RCK12SELR := 0x28; RCC_RCK3SELR := 0x820; RCC_RCK4SELR := 0x824;
     RCC_PLL1CR := 0x80; RCC_PLL1CFGR1 := 0x84; RCC_PLL1CFGR2 := 0x88;
     RCC_PLL1FRACR := 0x8C; RCC_PLL1CSGR := 0x90;
     RCC_PLL2CR := 0x94; RCC_PLL2CFGR1 := 0x98; RCC_PLL2CFGR2 := 0x9C;
     RCC_PLL2FRACR := 0xA0; RCC_PLL2CSGR := 0xA4;
     RCC_PLL3CR := 0x880; RCC_PLL3CFGR1 := 0x884; RCC_PLL3CFGR2 := 0x888;
     RCC_PLL3FRACR := 0x88C; RCC_PLL3CSGR := 0x890;
     RCC_PLL4CR := 0x894; RCC_PLL4CFGR1 := 0x898; RCC_PLL4CFGR2 := 0x89C;
     RCC_PLL4FRACR := 0x8A0; RCC_PLL4CSGR := 0x8A4;
     RCC_MP_ENCLRR_OFFSET := 4;
     RCC_SELR_SRC_MASK := 0x7; RCC_SELR_REFCLK_SRC_MASK := 0x3;
     RCC_SELR_SRCRDY := 0x80000000;
     RCC_DIVR_DIV_MASK := 0x3F; RCC_DIVR_DIVRDY := 0x80000000;
     RCC_MPUDIV_MASK := 0x7; RCC_AXIDIV_MASK := 0x7;
     RCC_APBXDIV_MASK := 0x7; RCC_MCUDIV_MASK := 0xF;
     RCC_TIMGXPRER_TIMGXPRE := 0x1;
     RCC_PLLNCR_PLLON := 0x1; RCC_PLLNCR_PLLRDY := 0x2;
     RCC_PLLNCR_DIVPEN := 0x10; RCC_PLLNCR_DIVQEN := 0x20;
     RCC_PLLNCR_DIVREN := 0x40; RCC_PLLNCR_DIVEN_SHIFT := 4;
     RCC_PLLNCFGR1_DIVM_MASK := 0x3F0000; RCC_PLLNCFGR1_DIVM_SHIFT := 16;
     RCC_PLLNCFGR1_DIVN_MASK := 0x1FF; RCC_PLLNCFGR1_DIVN_SHIFT := 0;
     RCC_PLLNCFGR1_IFRGE_MASK := 0x3000000; RCC_PLLNCFGR1_IFRGE_SHIFT := 24;
     RCC_PLLNCFGR2_DIVP_MASK := 0x7F; RCC_PLLNCFGR2_DIVP_SHIFT := 0;
     RCC_PLLNCFGR2_DIVQ_MASK := 0x7F00; RCC_PLLNCFGR2_DIVQ_SHIFT := 8;
     RCC_PLLNCFGR2_DIVR_MASK := 0x7F0000; RCC_PLLNCFGR2_DIVR_SHIFT := 16;
     RCC_PLLNCFGR2_DIVX_MASK := 0x7F;
     RCC_PLLNFRACR_FRACV_MASK := 0xFFF8; RCC_PLLNFRACR_FRACV_SHIFT := 3;
     RCC_PLLNFRACR_FRACLE := 0x10000;
     RCC_MPCKSELR_HSI := 0; RCC_MPCKSELR_HSE := 1; RCC_MPCKSELR_PLL := 2;
     RCC_MPCKSELR_PLL_MPUDIV := 3;
     RCC_ASSCKSELR_HSI := 0; RCC_ASSCKSELR_HSE := 1; RCC_ASSCKSELR_PLL := 2;
     RCC_MSSCKSELR_HSI := 0; RCC_MSSCKSELR_HSE := 1; RCC_MSSCKSELR_CSI := 2;
     RCC_MSSCKSELR_PLL := 3;
     RCC_CPERCKSELR_HSI := 0; RCC_CPERCKSELR_HSE := 2;
     RCC_CPERCKSELR_CSI := 1;
     RCC_OCENR_HSIKERON := 0x2; RCC_OCENR_CSIKERON := 0x20;
     RCC_OCENR_HSEKERON := 0x200;
     CLK_MPU_HSI := 0x200;
     PQR := fun p q r =>
              Z.lor (Z.lor (Z.land p 1) (Z.shiftl (Z.land q 1) 1))
                (Z.shiftl (Z.land r 1) 2);
     GENMASK_32 := fun h l => 2 ^ (h + 1) - 2 ^ l |}.

(** Register offsets and clock identifiers of the gate table. *)
Definition RCC_DDRITFCR : Z := 0xD8.
Definition RCC_BDCR : Z := 0x140.
Definition RCC_MP_APB5ENSETR : Z := 0x208.
Definition RCC_MP_AHB5ENSETR : Z := 0x210.
Definition RCC_MP_TZAHB6ENSETR : Z := 0x220.
Definition RCC_MP_APB1ENSETR : Z := 0xA00.
Definition RCC_MP_APB2ENSETR : Z := 0xA08.
Definition RCC_MP_APB3ENSETR : Z := 0xA10.
Definition RCC_MP_APB4ENSETR : Z := 0x200.
Definition RCC_DBGCFGR : Z := 0x80C.

Definition _CLK_FIXED (sec off bit id parent : Z) : clk_gate :=
  {| gate_offset := off; gate_bit := bit; gate_clock_id := id;
     gate_set_clr := 0; gate_secure := sec; gate_sel := _UNKNOWN_SEL;
     gate_fixed := parent |}.
Definition _CLK_SELEC (sec off bit id sel : Z) : clk_gate :=
  {| gate_offset := off; gate_bit := bit; gate_clock_id := id;
     gate_set_clr := 0; gate_secure := sec; gate_sel := sel;
     gate_fixed := _UNKNOWN_ID |}.
Definition _CLK_SC_FIXED (sec off bit id parent : Z) : clk_gate :=
  {| gate_offset := off; gate_bit := bit; gate_clock_id := id;
     gate_set_clr := 1; gate_secure := sec; gate_sel := _UNKNOWN_SEL;
     gate_fixed := parent |}.
Definition _CLK_SC_SELEC (sec off bit id sel : Z) : clk_gate :=
  {| gate_offset := off; gate_bit := bit; gate_clock_id := id;
     gate_set_clr := 1; gate_secure := sec; gate_sel := sel;
     gate_fixed := _UNKNOWN_ID |}.

Definition _STGEN_SEL : Z := 0.
Definition _I2C46_SEL : Z := 1.
Definition _SPI6_SEL : Z := 2.
Definition _USART1_SEL : Z := 3.
Definition _RNG1_SEL : Z := 4.
Definition _AXISS_SEL : Z := 11.
Definition _MCUSS_SEL : Z := 12.
Definition _RTC_SEL : Z := 15.
Definition _MPU_SEL : Z := 16.

Definition TZPC : Z := 67.
Definition TIM12_K : Z := 203.
Definition TIM15_K : Z := 208.

Definition gates : list clk_gate :=
  [ _CLK_FIXED SEC RCC_DDRITFCR 0 220 _ACLK;
    _CLK_FIXED SEC RCC_DDRITFCR 1 221 _ACLK;
    _CLK_FIXED SEC RCC_DDRITFCR 2 222 _ACLK;
    _CLK_FIXED SEC RCC_DDRITFCR 3 223 _ACLK;
    _CLK_FIXED SEC RCC_DDRITFCR 4 224 _PLL2_R;
    _CLK_FIXED SEC RCC_DDRITFCR 5 225 _PLL2_R;
    _CLK_FIXED SEC RCC_DDRITFCR 6 226 _PCLK4;
    _CLK_FIXED SEC RCC_DDRITFCR 7 227 _PCLK4;
    _CLK_FIXED SEC RCC_DDRITFCR 8 228 _ACLK;
    _CLK_FIXED SEC RCC_DDRITFCR 9 229 _PCLK4;
    _CLK_FIXED SEC RCC_DDRITFCR 10 230 _PCLK4;
    _CLK_SC_SELEC SEC RCC_MP_APB5ENSETR 0 135 _SPI6_SEL;
    _CLK_SC_SELEC SEC RCC_MP_APB5ENSETR 2 140 _I2C46_SEL;
    _CLK_SC_SELEC SEC RCC_MP_APB5ENSETR 3 142 _I2C46_SEL;
    _CLK_SC_SELEC SEC RCC_MP_APB5ENSETR 4 148 _USART1_SEL;
    _CLK_SC_FIXED SEC RCC_MP_APB5ENSETR 8 65 _PCLK5;
    _CLK_SC_FIXED SEC RCC_MP_APB5ENSETR 11 66 _PCLK5;
    _CLK_SC_FIXED SEC RCC_MP_APB5ENSETR 12 113 _PCLK5;
    _CLK_SC_FIXED SEC RCC_MP_APB5ENSETR 13 TZPC _PCLK5;
    _CLK_SC_FIXED SEC RCC_MP_APB5ENSETR 15 68 _PCLK5;
    _CLK_SC_FIXED SEC RCC_MP_APB5ENSETR 16 69 _PCLK5;
    _CLK_SC_SELEC SEC RCC_MP_APB5ENSETR 20 128 _STGEN_SEL;
    _CLK_SC_FIXED SEC RCC_MP_AHB5ENSETR 0 95 _PCLK5;
    _CLK_SC_FIXED SEC RCC_MP_AHB5ENSETR 4 96 _PCLK5;
    _CLK_SC_FIXED SEC RCC_MP_AHB5ENSETR 5 97 _PCLK5;
    _CLK_SC_SELEC SEC RCC_MP_AHB5ENSETR 6 124 _RNG1_SEL;
    _CLK_SC_FIXED SEC RCC_MP_AHB5ENSETR 8 99 _PCLK5;
    _CLK_SC_FIXED SEC RCC_MP_TZAHB6ENSETR 0 100 _PCLK5;
    _CLK_SELEC SEC RCC_BDCR 20 192 _RTC_SEL;
    _CLK_SC_FIXED N_S RCC_MP_APB1ENSETR 6 TIM12_K _PCLK1;
    _CLK_SC_FIXED N_S RCC_MP_APB2ENSETR 2 TIM15_K _PCLK2;
    _CLK_SC_FIXED N_S RCC_MP_APB3ENSETR 11 51 _UNKNOWN_ID;
    _CLK_SC_SELEC N_S RCC_MP_APB4ENSETR 8 231 _UNKNOWN_SEL;
    _CLK_SC_SELEC N_S RCC_MP_APB4ENSETR 15 58 _UNKNOWN_SEL;
    _CLK_SELEC N_S RCC_DBGCFGR 8 214 _UNKNOWN_SEL ].

Definition sels : list clk_sel :=
  [ {| sel_offset := 0xD4; sel_src := 0; sel_msk := 0x3;
       sel_parent := [_HSI_KER; _HSE_KER] |};
    {| sel_offset := 0xC0; sel_src := 0; sel_msk := 0x7;
       sel_parent := [_PCLK5; _PLL3_Q; _HSI_KER; _CSI_KER] |};
    {| sel_offset := 0xC4; sel_src := 0; sel_msk := 0x7;
       sel_parent :=
         [_PCLK5; _PLL4_Q; _HSI_KER; _CSI_KER; _HSE_KER; _PLL3_Q] |};
    {| sel_offset := 0xC8; sel_src := 0; sel_msk := 0x7;
       sel_parent :=
         [_PCLK5; _PLL3_Q; _HSI_KER; _CSI_KER; _PLL4_Q; _HSE_KER] |};
    {| sel_offset := 0xCC; sel_src := 0; sel_msk := 0x3;
       sel_parent := [_CSI; _PLL4_R; _LSE; _LSI] |};
    no_sel; no_sel; no_sel; no_sel; no_sel; no_sel;
    {| sel_offset := 0x24; sel_src := 0; sel_msk := 0x3;
       sel_parent := [_HSI; _HSE; _PLL2_P] |};
    {| sel_offset := 0x48; sel_src := 0; sel_msk := 0x3;
       sel_parent := [_HSI; _HSE; _CSI; _PLL3_P] |};
    no_sel; no_sel;
    {| sel_offset := RCC_BDCR; sel_src := 0; sel_msk := 0x3;
       sel_parent := [_UNKNOWN_ID; _LSE; _LSI; _HSE] |};
    {| sel_offset := 0x20; sel_src := 0; sel_msk := 0x3;
       sel_parent := [_HSI; _HSE; _PLL1_P; _PLL1_P] |} ].

(** The SET halves of the SET/CLEAR register pairs. *)
Definition set_registers : list Z :=
  [ 0x0C; 0x200; 0x208; 0x210; 0x218; 0x220;
    0xA00; 0xA08; 0xA10; 0xA18; 0xA20; 0xA28; 0xA30; 0xA38 ].

Definition is_set_register (off : Z) : bool :=
  existsb (Z.eqb off) set_registers.

(** The platform with a secure RCC interface, and the same platform with
    an RCC interface left to the non-secure world. *)
Definition plat : clk_platform :=
  {| stm32mp1_clk_gate := gates; stm32mp1_clk_sel := sels;
     PLAT_MAX_OPP_NB := 2; stm32_rcc_is_secure := true;
     rcc_set_register := is_set_register |}.

Definition plat_ns : clk_platform :=
  {| stm32mp1_clk_gate := gates; stm32mp1_clk_sel := sels;
     PLAT_MAX_OPP_NB := 2; stm32_rcc_is_secure := false;
     rcc_set_register := is_set_register |}.

Definition no_settings : pll_settings :=
  {| valid_id := 0; freq := [0; 0]; volt := [0; 0];
     cfg := [[0; 0; 0; 0; 0; 0]; [0; 0; 0; 0; 0; 0]]; frac := [0; 0] |}.

(** A state after reset: no register set, no gate referenced, HSI at
    64 MHz, HSE at 24 MHz, CSI at 4 MHz, LSI at 32 kHz, LSE at
    32.768 kHz. *)
Definition st0 : clk_state :=
  {| rcc_regs := ∅;
     hw_ready := [];
     stm32mp1_osc := [64000000; 24000000; 4000000; 32000; 32768; 0; 0];
     gate_refcounts := replicate (length gates) 0;
     pll1_settings := no_settings;
     current_opp_khz := 0;
     soc_stop_ctx := {| pll3cr := 0; pll4cr := 0; mssckselr := 0;
                        mcudivr := 0 |};
     backup_mux0_cfg := [];
     backup_mux4_cfg := [];
     backup_clock_sc_cfg :=
       [ {| bk_offset := RCC_MP_APB1ENSETR; bk_value := 0 |};
         {| bk_offset := RCC_MP_APB2ENSETR; bk_value := 0 |};
         {| bk_offset := RCC_MP_APB3ENSETR; bk_value := 0 |};
         {| bk_offset := RCC_MP_APB4ENSETR; bk_value := 0 |};
         {| bk_offset := RCC_MP_APB5ENSETR; bk_value := 0 |};
         {| bk_offset := RCC_MP_AHB5ENSETR; bk_value := 0 |} ];
     backup_clock_cfg := [] |}.

(** Two operating points, 650 MHz at 1.2 V and 800 MHz at 1.35 V, whose
    PLL1 settings are computed; the CPU runs at 650 MHz. *)
Definition opp_settings : pll_settings :=
  {| valid_id := PLL1_SETTINGS_VALID_ID;
     freq := [650000; 800000]; volt := [1200; 1350];
     cfg := [[2; 80; 0; 0; 0; 1]; [2; 99; 0; 0; 0; 1]];
     frac := [2048; 0] |}.

Definition st_opp : clk_state :=
  set_current_opp_khz 650000 (set_pll1_settings opp_settings st0).

(** PLL2 fed by an HSE crystal of [hse] Hz, with the dividers [divm] and
    [divn] in PLL2CFGR1 and the fractional register [fracr]. *)
Definition st_pll2 (hse divm divn fracr : Z) : clk_state :=
  {| rcc_regs :=
       <[0x28 := 1]> (<[0x98 := Z.lor (Z.shiftl divm 16) divn]>
                        (<[0xA0 := fracr]> ∅));
     hw_ready := [];
     stm32mp1_osc := [64000000; hse; 4000000; 32000; 32768; 0; 0];
     gate_refcounts := replicate (length gates) 0;
     pll1_settings := no_settings;
     current_opp_khz := 0;
     soc_stop_ctx := soc_stop_ctx st0;
     backup_mux0_cfg := [];
     backup_mux4_cfg := [];
     backup_clock_sc_cfg := [];
     backup_clock_cfg := [] |}.

(** The MCU domain on HSI, APB1 divided by 2, and the timer prescaler
    of group 1 with the value [timg1pre]. *)
Definition st_apb1 (timg1pre : Z) : clk_state :=
  set_rcc_regs (<[0x834 := 1]> (<[0x828 := timg1pre]> ∅)) st0.

(** The CPU on PLL1 at 650 MHz: HSE is the reference of PLL1, DIVM = 2,
    DIVN = 80, fraction 2048 enabled, DIVP = 0, the MPU clock source
    is the PLL; [ready] is what the hardware will answer to the coming
    waits. *)
Definition st_650 (ready : list bool) : clk_state :=
  set_hw_ready ready
    (set_rcc_regs
       (<[0x20 := 2]>
          (<[0x28 := 1]>
             (<[0x84 := Z.lor (Z.shiftl 2 16) 80]>
                (<[0x8C := Z.lor 0x10000 (Z.shiftl 2048 3)]>
                   (<[0x80 := 0x13]> ∅)))))
       st_opp).

(** A context saved while the enable bit of TZPC (bit 13 of
    RCC_MP_APB5ENSETR) was set, with counters that hold [counts]. *)
Definition st_suspended (counts : list Z) : clk_state :=
  {| rcc_regs := ∅;
     hw_ready := [];
     stm32mp1_osc := stm32mp1_osc st0;
     gate_refcounts := counts;
     pll1_settings := no_settings;
     current_opp_khz := 0;
     soc_stop_ctx := soc_stop_ctx st0;
     backup_mux0_cfg := [];
     backup_mux4_cfg := [];
     backup_clock_sc_cfg :=
       [ {| bk_offset := RCC_MP_APB1ENSETR; bk_value := 0x40 |};
         {| bk_offset := RCC_MP_APB5ENSETR; bk_value := 0x2000 |} ];
     backup_clock_cfg := [] |}.

(** The OPP table read from the device tree, before any computation. *)
Definition opp_table_only : pll_settings :=
  {| valid_id := 0;
     freq := [650000; 800000]; volt := [1200; 1350];
     cfg := [[0; 0; 0; 0; 0; 0]; [0; 0; 0; 0; 0; 0]];
     frac := [0; 0] |}.

Definition st_table : clk_state := set_pll1_settings opp_table_only st0.

(** The other constants of the headers. *)
Definition more : rcc_map_more :=
  {| RCC_TZCR := 0x0; RCC_TZCR_MCKPROT := 0x2;
     RCC_MP_RSTSCLRR := 0x408;
     CLK_PLL12_HSI := 0x280; CLK_PLL12_HSE := 0x281;
     UDIV_ROUND_NEAREST := fun x y => (x + y / 2) / y;
     PM_OP_SUSPEND := 0 |}.

Definition svc : sip_svc :=
  {| STM32_SIP_SVC_OK := 0x0; STM32_SIP_SVC_FAILED := 0xFFFFFFFE;
     STM32_SIP_SVC_INVALID_PARAMS := 0xFFFFFFFD;
     STM32_SIP_SVC_RCC_OPP_SET := 0x0; STM32_SIP_SVC_RCC_OPP_ROUND := 0x1;
     MUL_OVERFLOW := fun a b => (negb (a * b <? 2 ^ 32), u32 (a * b)) |}.

Definition pm : pm_ids :=
  {| STM32_PM_CSLEEP_RUN := 0;
     STM32_PM_CSTOP_ALLOW_STOP := 1;
     STM32_PM_CSTOP_ALLOW_LP_STOP := 2;
     STM32_PM_CSTOP_ALLOW_LPLV_STOP := 3;
     STM32_PM_CSTOP_ALLOW_STANDBY_DDR_SR := 4;
     STM32_PM_CSTOP_ALLOW_STANDBY_DDR_OFF := 5;
     STM32_PM_SHUTDOWN := 6;
     STM32_PM_MAX_SOC_MODE := 7;
     STM32MP1_PD_CORE_RET := 1;
     STM32MP1_PD_CORE := 2;
     STM32MP1_PD_MAX_PM_DOMAIN := 3;
     PSCI_MODE_SYSTEM_SUSPEND := 0;
     PSCI_MODE_SYSTEM_OFF := 1;
     CFG_STM32_CRYP := true |}.

(** Two slots of the OPP table with the same frequency, of which the
    first one is computed. *)
Definition twin_settings : pll_settings :=
  {| valid_id := 0;
     freq := [650000; 650000]; volt := [1200; 1200];
     cfg := [[2; 80; 0; 0; 0; 1]; [0; 0; 0; 0; 0; 0]];
     frac := [2048; 0] |}.

Definition st_twin : clk_state := set_pll1_settings twin_settings st0.

(** A running system: three timers of APB1 on, MCO1 configured, the
    I2C46 and USB selectors set; with some entries of the four backup
    tables. *)
Definition RCC_MCO1CFGR : Z := 0x800.
Definition RCC_I2C46CKSELR : Z := 0xC0.
Definition RCC_USBCKSELR : Z := 0x91C.

Definition st_run : clk_state :=
  {| rcc_regs :=
       <[RCC_MP_APB1ENSETR := 0x43]>
         (<[RCC_MCO1CFGR := 0x1010]>
            (<[RCC_I2C46CKSELR := 0x2]>
               (<[RCC_USBCKSELR := 0x11]> (<[0x0C := 0x101]> ∅))));
     hw_ready := [];
     stm32mp1_osc := stm32mp1_osc st0;
     gate_refcounts := replicate (length gates) 0;
     pll1_settings := no_settings;
     current_opp_khz := 0;
     soc_stop_ctx := soc_stop_ctx st0;
     backup_mux0_cfg :=
       [ {| mux_offset := RCC_I2C46CKSELR; mux_value := 0;
            mux_bit_len := 3 |};
         {| mux_offset := RCC_USBCKSELR; mux_value := 0;
            mux_bit_len := 2 |} ];
     backup_mux4_cfg :=
       [ {| mux_offset := RCC_USBCKSELR; mux_value := 0;
            mux_bit_len := 1 |} ];
     backup_clock_sc_cfg :=
       [ {| bk_offset := RCC_MP_APB1ENSETR; bk_value := 0 |};
         {| bk_offset := RCC_MP_APB2ENSETR; bk_value := 0 |};
         {| bk_offset := RCC_MP_APB5ENSETR; bk_value := 0 |} ];
     backup_clock_cfg :=
       [ {| bk_offset := RCC_MCO1CFGR; bk_value := 0 |};
         {| bk_offset := 0x880; bk_value := 0 |};
         {| bk_offset := 0x894; bk_value := 0 |};
         {| bk_offset := 0x830; bk_value := 0 |};
         {| bk_offset := 0x48; bk_value := 0 |} ] |}.

(** The hardware has lost its registers; the memory of the driver is
    kept. *)
Definition power_lost (s : clk_state) : clk_state := set_rcc_regs ∅ s.

(** The running system with the MCU subsystem on PLL3 and divided by 4:
    [RCC_MSSCKSELR] at 0x48 and [RCC_MCUDIVR] at 0x830. *)
Definition st_mcu : clk_state :=
  set_rcc_regs
    (<[0x48 := 3]> (<[0x830 := 0x80000002]> (rcc_regs st_run)))
    st_run.

End Board.

(** * Properties *)

(** ** Machine integers and bits *)

Lemma u32_range (x : Z) : 0 <= u32 x < 2 ^ 32.
Proof. unfold u32. apply Z.mod_pos_bound. lia. Qed.

Lemma u32_small (x : Z) : 0 <= x < 2 ^ 32 -> u32 x = x.
Proof. intros H. unfold u32. apply Z.mod_small. exact H. Qed.

Lemma u64_small (x : Z) : 0 <= x < 2 ^ 64 -> u64 x = x.
Proof. intros H. unfold u64. apply Z.mod_small. exact H. Qed.

Lemma u32_idem (x : Z) : u32 (u32 x) = u32 x.
Proof. apply u32_small, u32_range. Qed.

Lemma s32_small (x : Z) : - 2 ^ 31 <= x < 2 ^ 31 -> s32 x = x.
Proof.
  intros H. unfold s32.
  destruct (Z.ltb_spec (x mod 2 ^ 32) (2 ^ 31)) as [Hlt | Hge].
  - destruct (Z.neg_nonneg_cases x) as [Hneg | Hpos].
    + rewrite <- (Z.mod_add x 1 (2 ^ 32)) in Hlt by lia.
      rewrite Z.mod_small in Hlt by lia. lia.
    + rewrite Z.mod_small by lia. reflexivity.
  - destruct (Z.neg_nonneg_cases x) as [Hneg | Hpos].
    + rewrite <- (Z.mod_add x 1 (2 ^ 32)) by lia.
      rewrite Z.mod_small by lia. lia.
    + rewrite Z.mod_small in Hge by lia. lia.
Qed.

Lemma u32_s32 (x : Z) : u32 (s32 x) = u32 x.
Proof.
  unfold s32, u32.
  destruct (Z.ltb_spec (x mod 2 ^ 32) (2 ^ 31)).
  - apply Z.mod_mod. lia.
  - replace (x mod 2 ^ 32 - 2 ^ 32) with (x mod 2 ^ 32 + (-1) * 2 ^ 32) by lia.
    rewrite Z.mod_add by lia. apply Z.mod_mod. lia.
Qed.

Lemma u32_testbit (x b : Z) : 0 <= b < 32 -> Z.testbit (u32 x) b = Z.testbit x b.
Proof. intros H. unfold u32. apply Z.mod_pow2_bits_low. lia. Qed.

Lemma BIT_pow2 (b : Z) : 0 <= b < 32 -> BIT b = 2 ^ b.
Proof.
  intros H. unfold BIT. rewrite Z.shiftl_1_l. apply u32_small.
  split; [apply Z.pow_nonneg; lia | apply Z.pow_lt_mono_r; lia].
Qed.

Lemma land_BIT_eqb (x b : Z) :
  0 <= b < 32 -> (Z.land x (BIT b) =? 0) = negb (Z.testbit x b).
Proof.
  intros H. rewrite BIT_pow2 by exact H.
  destruct (Z.testbit x b) eqn:Hb; simpl.
  - apply Z.eqb_neq. intros H0.
    assert (Ht : Z.testbit (Z.land x (2 ^ b)) b = true).
    { rewrite Z.land_spec, Hb, Z.pow2_bits_true by lia. reflexivity. }
    rewrite H0, Z.bits_0 in Ht. discriminate.
  - apply Z.eqb_eq. apply Z.bits_inj'. intros n Hn.
    rewrite Z.land_spec, Z.bits_0, Z.pow2_bits_eqb by lia.
    destruct (Z.eqb_spec b n) as [-> | Hne].
    + rewrite Hb. reflexivity.
    + apply andb_false_r.
Qed.

Lemma not32_testbit (x b : Z) :
  0 <= b < 32 -> Z.testbit (not32 x) b = negb (Z.testbit x b).
Proof.
  intros H. unfold not32. rewrite u32_testbit by exact H.
  apply Z.lnot_spec. lia.
Qed.

Lemma BIT_testbit (b n : Z) :
  0 <= b < 32 -> 0 <= n -> Z.testbit (BIT b) n = (b =? n).
Proof. intros H Hn. rewrite BIT_pow2 by exact H. apply Z.pow2_bits_eqb. lia. Qed.

(** ** Gate controller *)

Section GateFacts.
Context {ids : clk_ids} {rmap : rcc_map} {plat : clk_platform}.

Lemma nth_insert_eq (l : list Z) (i : nat) (v d : Z) :
  (i < length l)%nat -> nth i (<[i := v]> l) d = v.
Proof.
  intros H. rewrite nth_lookup, list_lookup_insert_eq by exact H.
  reflexivity.
Qed.

Lemma refcount_set_refcount (s : clk_state) (i v : Z) :
  (Z.to_nat i < length (gate_refcounts s))%nat ->
  refcount (set_refcount i v s) i = v.
Proof. intros H. unfold refcount, set_refcount. simpl. apply nth_insert_eq, H. Qed.

Lemma set_refcount_length (s : clk_state) (i v : Z) :
  length (gate_refcounts (set_refcount i v s)) = length (gate_refcounts s).
Proof. unfold set_refcount. simpl. apply length_insert. Qed.

(** The index found for an id is the index of a table entry with that
    id, the first one. *)
Lemma gated_id_from_spec (gates : list clk_gate) (k id i : Z) :
  0 <= k ->
  gated_id_from gates k id = i -> 0 <= i ->
  k <= i /\
  exists g, gates !! Z.to_nat (i - k) = Some g /\ gate_clock_id g = id.
Proof.
  revert k. induction gates as [| g gates IH]; intros k Hk Hi Hpos; simpl in Hi.
  - lia.
  - destruct (Z.eqb_spec (gate_clock_id g) id) as [Heq | Hne].
    + subst i. split; [lia |]. exists g. rewrite Z.sub_diag. auto.
    + destruct (IH (k + 1) ltac:(lia) Hi Hpos) as (Hle & g' & Hg' & Hid).
      split; [lia |]. exists g'. split; [| exact Hid].
      replace (Z.to_nat (i - k)) with (S (Z.to_nat (i - (k + 1)))) by lia.
      exact Hg'.
Qed.

Lemma gated_id_spec (id i : Z) :
  stm32mp1_clk_get_gated_id id = i -> 0 <= i ->
  stm32mp1_clk_gate !! Z.to_nat i = Some (gate_ref i) /\
  gate_clock_id (gate_ref i) = id.
Proof.
  intros Hi Hpos.
  destruct (gated_id_from_spec _ 0 id i ltac:(lia) Hi Hpos) as (_ & g & Hg & Hid).
  rewrite Z.sub_0_r in Hg.
  assert (gate_ref i = g) as ->.
  { unfold gate_ref. rewrite nth_lookup, Hg. reflexivity. }
  auto.
Qed.

Lemma gated_id_from_none (gates : list clk_gate) (k id : Z) :
  0 <= k ->
  (forall g, In g gates -> gate_clock_id g <> id) ->
  gated_id_from gates k id = -1.
Proof.
  revert k. induction gates as [| g gates IH]; intros k Hk Hno; simpl.
  - reflexivity.
  - destruct (Z.eqb_spec (gate_clock_id g) id) as [Heq | Hne].
    + exfalso. apply (Hno g); [left; reflexivity | exact Heq].
    + apply IH; [lia |]. intros g' Hin. apply Hno. right. exact Hin.
Qed.

(** *** What the two register writes do to the register file *)

Lemma reg_target_gate (g : clk_gate) :
  gate_hw_ok g -> reg_target (gate_offset g) = gate_offset g.
Proof.
  intros (_ & Hsc & Hpl). unfold reg_target.
  destruct (Z.eq_dec (gate_set_clr g) 0) as [H0 | H0].
  - destruct (Hpl H0) as [-> ->]. reflexivity.
  - destruct (Hsc H0) as [-> _]. reflexivity.
Qed.

Lemma io_read32_gate (g : clk_gate) (r : gmap Z Z) :
  gate_hw_ok g ->
  io_read32 (gate_offset g) r = u32 (default 0 (r !! gate_offset g)).
Proof. intros H. unfold io_read32. rewrite reg_target_gate by exact H. reflexivity. Qed.

Lemma clk_enable_shape (g : clk_gate) (r : gmap Z Z) :
  gate_hw_ok g ->
  exists V,
    __clk_enable g r = <[gate_offset g := V]> r /\
    forall n, 0 <= n < 32 ->
      Z.testbit V n
      = Z.testbit (default 0 (r !! gate_offset g)) n || (gate_bit g =? n).
Proof.
  intros Hok. pose proof Hok as (Hb & Hsc & Hpl).
  unfold __clk_enable.
  destruct (Z.eqb_spec (gate_set_clr g) 0) as [H0 | H0]; simpl.
  - destruct (Hpl H0) as [Hs1 Hs2].
    unfold io_setbits32, io_write32. rewrite Hs1, Hs2.
    eexists. split; [reflexivity |]. intros n Hn.
    rewrite u32_testbit, Z.lor_spec, io_read32_gate, u32_testbit by auto.
    rewrite BIT_testbit by lia. reflexivity.
  - destruct (Hsc H0) as [Hs1 _].
    unfold io_write32. rewrite Hs1.
    eexists. split; [reflexivity |]. intros n Hn.
    rewrite Z.lor_spec, io_read32_gate, !u32_testbit by auto.
    rewrite BIT_testbit by lia. reflexivity.
Qed.

Lemma clk_disable_shape (g : clk_gate) (r : gmap Z Z) :
  gate_hw_ok g ->
  exists V,
    __clk_disable g r = <[gate_offset g := V]> r /\
    forall n, 0 <= n < 32 ->
      Z.testbit V n
      = Z.testbit (default 0 (r !! gate_offset g)) n
        && negb (gate_bit g =? n).
Proof.
  intros Hok. pose proof Hok as (Hb & Hsc & Hpl).
  unfold __clk_disable.
  destruct (Z.eqb_spec (gate_set_clr g) 0) as [H0 | H0]; simpl.
  - destruct (Hpl H0) as [Hs1 Hs2].
    unfold io_clrbits32, io_write32. rewrite Hs1, Hs2.
    eexists. split; [reflexivity |]. intros n Hn.
    rewrite u32_testbit, Z.land_spec, io_read32_gate, u32_testbit by auto.
    rewrite not32_testbit, BIT_testbit by lia. reflexivity.
  - destruct (Hsc H0) as [Hs1 Hs2].
    unfold io_write32. rewrite Hs2.
    replace (gate_offset g + RCC_MP_ENCLRR_OFFSET - RCC_MP_ENCLRR_OFFSET)
      with (gate_offset g) by lia.
    rewrite Hs1.
    eexists. split; [reflexivity |]. intros n Hn.
    rewrite Z.land_spec. unfold io_read32, reg_target. rewrite Hs2.
    replace (gate_offset g + RCC_MP_ENCLRR_OFFSET - RCC_MP_ENCLRR_OFFSET)
      with (gate_offset g) by lia.
    rewrite Hs1, u32_testbit, not32_testbit, BIT_testbit by lia.
    reflexivity.
Qed.

(** The gate [g'] reads the bit [gate_bit g'] of its register. *)
Lemma clk_is_enabled_testbit (g' : clk_gate) (r : gmap Z Z) :
  gate_hw_ok g' ->
  __clk_is_enabled g' r
  = Z.testbit (default 0 (r !! gate_offset g')) (gate_bit g').
Proof.
  intros Hok. pose proof Hok as (Hb & _).
  unfold __clk_is_enabled.
  rewrite land_BIT_eqb, negb_involutive, io_read32_gate, u32_testbit by auto.
  reflexivity.
Qed.

Lemma is_enabled_after_enable (g g' : clk_gate) (r : gmap Z Z) :
  gate_hw_ok g -> gate_hw_ok g' ->
  __clk_is_enabled g' (__clk_enable g r)
  = if same_bit g g' then true else __clk_is_enabled g' r.
Proof.
  intros Hok Hok'. pose proof Hok' as (Hb' & _).
  destruct (clk_enable_shape g r Hok) as (V & -> & HV).
  rewrite !clk_is_enabled_testbit by exact Hok'. unfold same_bit.
  destruct (Z.eqb_spec (gate_offset g') (gate_offset g)) as [Ho | Ho]; simpl.
  - rewrite Ho, lookup_insert_eq. simpl. rewrite HV by exact Hb'.
    rewrite (Z.eqb_sym (gate_bit g')).
    destruct (gate_bit g =? gate_bit g'); [apply orb_true_r | apply orb_false_r].
  - rewrite lookup_insert_ne by congruence. reflexivity.
Qed.

Lemma is_enabled_after_disable (g g' : clk_gate) (r : gmap Z Z) :
  gate_hw_ok g -> gate_hw_ok g' ->
  __clk_is_enabled g' (__clk_disable g r)
  = if same_bit g g' then false else __clk_is_enabled g' r.
Proof.
  intros Hok Hok'. pose proof Hok' as (Hb' & _).
  destruct (clk_disable_shape g r Hok) as (V & -> & HV).
  rewrite !clk_is_enabled_testbit by exact Hok'. unfold same_bit.
  destruct (Z.eqb_spec (gate_offset g') (gate_offset g)) as [Ho | Ho]; simpl.
  - rewrite Ho, lookup_insert_eq. simpl. rewrite HV by exact Hb'.
    rewrite (Z.eqb_sym (gate_bit g')).
    destruct (gate_bit g =? gate_bit g'); [apply andb_false_r | apply andb_true_r].
  - rewrite lookup_insert_ne by congruence. reflexivity.
Qed.

Lemma same_bit_refl (g : clk_gate) : same_bit g g = true.
Proof. unfold same_bit. rewrite !Z.eqb_refl. reflexivity. Qed.

End GateFacts.

Section GateController.
Context {ids : clk_ids} {rmap : rcc_map} {plat : clk_platform}.

Lemma is_enabled_gated (id i : Z) (s : clk_state) :
  gated_at id i s ->
  clk_stm32_is_enabled id s
  = Done (__clk_is_enabled (gate_ref i) (rcc_regs s)) s.
Proof.
  intros (Hao & Hi & Hpos & _). unfold clk_stm32_is_enabled.
  rewrite Hao, Hi. destruct (Z.ltb_spec i 0); [lia | reflexivity].
Qed.

Lemma enable_secure_step (id i : Z) (s : clk_state) :
  gated_at id i s ->
  gate_is_non_secure (gate_ref i) = false ->
  clk_stm32_enable id s
  = Done TEE_SUCCESS
      (set_refcount i (u32 (refcount s i + 1))
         (if refcount s i =? 0
          then set_rcc_regs (__clk_enable (gate_ref i) (rcc_regs s)) s
          else s)).
Proof.
  intros (Hao & Hi & Hpos & _) Hsec. unfold clk_stm32_enable.
  rewrite Hao, Hi, Hsec. destruct (Z.ltb_spec i 0); [lia |].
  unfold bind, gets, modify, wr, ret.
  destruct (refcount s i =? 0) eqn:Hc; simpl; reflexivity.
Qed.

Lemma disable_secure_step (id i : Z) (s : clk_state) :
  gated_at id i s ->
  gate_is_non_secure (gate_ref i) = false ->
  refcount s i <> 0 ->
  clk_stm32_disable id s
  = Done tt
      (let s' := set_refcount i (u32 (refcount s i - 1)) s in
       if u32 (refcount s i - 1) =? 0
       then set_rcc_regs (__clk_disable (gate_ref i) (rcc_regs s')) s'
       else s').
Proof.
  intros (Hao & Hi & Hpos & Hlen) Hsec Hc. unfold clk_stm32_disable.
  rewrite Hao, Hi, Hsec. destruct (Z.ltb_spec i 0); [lia |].
  unfold bind, gets, modify, wr, ret, assert.
  destruct (Z.eqb_spec (refcount s i) 0); [contradiction |]. simpl.
  rewrite refcount_set_refcount by exact Hlen.
  destruct (u32 (refcount s i - 1) =? 0); reflexivity.
Qed.

Lemma disable_secure_underflow (id i : Z) (s : clk_state) :
  gated_at id i s ->
  gate_is_non_secure (gate_ref i) = false ->
  refcount s i = 0 ->
  clk_stm32_disable id s = Panic.
Proof.
  intros (Hao & Hi & Hpos & Hlen) Hsec Hc. unfold clk_stm32_disable.
  rewrite Hao, Hi, Hsec. destruct (Z.ltb_spec i 0); [lia |].
  unfold bind, gets, assert. rewrite Hc. reflexivity.
Qed.

Lemma enable_n_counted (id i : Z) (n : nat) :
  gate_is_non_secure (gate_ref i) = false ->
  gate_hw_ok (gate_ref i) ->
  forall (c : Z) (s : clk_state),
    0 <= c -> c + Z.of_nat n <= UINT_MAX ->
    counted id i c s ->
    exists s', enable_n id n s = Done tt s' /\ counted id i (c + Z.of_nat n) s'.
Proof.
  intros Hsec Hok. induction n as [| n IH]; intros c s Hc Hmax Hinv.
  - exists s. split; [reflexivity |]. rewrite Z.add_0_r. exact Hinv.
  - destruct Hinv as (Hg & Hrc & Hen).
    unfold enable_n. simpl. unfold bind at 1 2.
    rewrite (enable_secure_step id i s Hg Hsec). unfold ret.
    fold (enable_n id n).
    set (s1 := set_refcount i _ _).
    assert (Hinv1 : counted id i (c + 1) s1).
    { pose proof Hg as (Hao & Hi & Hpos & Hlen).
      assert (Hlen1 : (Z.to_nat i < length (gate_refcounts s1))%nat).
      { subst s1. rewrite set_refcount_length.
        destruct (refcount s i =? 0); exact Hlen. }
      split; [repeat split; assumption |]. split.
      - subst s1. rewrite refcount_set_refcount
          by (destruct (refcount s i =? 0); exact Hlen).
        rewrite Hrc. apply u32_small. unfold UINT_MAX in Hmax. lia.
      - intros _. subst s1. simpl. rewrite Hrc.
        destruct (Z.eqb_spec c 0) as [H0 | H0]; simpl.
        + rewrite is_enabled_after_enable, same_bit_refl by exact Hok.
          reflexivity.
        + apply Hen. lia. }
    destruct (IH (c + 1) s1 ltac:(lia) ltac:(lia) Hinv1) as (s' & Hrun & Hinv').
    exists s'. split; [exact Hrun |].
    replace (c + Z.of_nat (S n)) with (c + 1 + Z.of_nat n) by lia.
    exact Hinv'.
Qed.

Lemma disable_n_counted (id i : Z) (k : nat) :
  gate_is_non_secure (gate_ref i) = false ->
  gate_hw_ok (gate_ref i) ->
  forall (c : Z) (s : clk_state),
    Z.of_nat k <= c -> c <= UINT_MAX ->
    counted id i c s ->
    exists s',
      disable_n id k s = Done tt s' /\
      counted id i (c - Z.of_nat k) s' /\
      ((0 < k)%nat -> c - Z.of_nat k = 0 ->
       __clk_is_enabled (gate_ref i) (rcc_regs s') = false).
Proof.
  intros Hsec Hok. induction k as [| k IH]; intros c s Hk Hmax Hinv.
  - exists s. split; [reflexivity |]. rewrite Z.sub_0_r.
    split; [exact Hinv | lia].
  - destruct Hinv as (Hg & Hrc & Hen).
    pose proof Hg as (Hao & Hi & Hpos & Hlen).
    unfold disable_n. simpl. unfold bind at 1.
    rewrite (disable_secure_step id i s Hg Hsec) by lia.
    fold (disable_n id k). rewrite Hrc.
    assert (Hu : u32 (c - 1) = c - 1).
    { apply u32_small. unfold UINT_MAX in Hmax. lia. }
    rewrite Hu. cbv zeta.
    set (s1 := if c - 1 =? 0 then _ else _).
    assert (Hlen1 : (Z.to_nat i < length (gate_refcounts s1))%nat).
    { subst s1. destruct (c - 1 =? 0); simpl; rewrite length_insert; exact Hlen. }
    assert (Hrc1 : refcount s1 i = c - 1).
    { subst s1. destruct (c - 1 =? 0); unfold refcount; simpl;
        apply nth_insert_eq; exact Hlen. }
    assert (Hen1 : __clk_is_enabled (gate_ref i) (rcc_regs s1)
                   = negb (c - 1 =? 0)).
    { subst s1. destruct (Z.eqb_spec (c - 1) 0) as [H0 | H0]; simpl.
      - rewrite is_enabled_after_disable, same_bit_refl by exact Hok.
        reflexivity.
      - apply Hen. lia. }
    assert (Hinv1 : counted id i (c - 1) s1).
    { split; [repeat split; assumption |]. split; [exact Hrc1 |].
      intros Hc1. rewrite Hen1.
      destruct (Z.eqb_spec (c - 1) 0); [lia | reflexivity]. }
    destruct (IH (c - 1) s1 ltac:(lia) ltac:(lia) Hinv1)
      as (s' & Hrun & Hinv' & Hoff).
    exists s'. split; [exact Hrun |].
    replace (c - Z.of_nat (S k)) with (c - 1 - Z.of_nat k) by lia.
    split; [exact Hinv' |].
    intros _ Hz. destruct k as [| k'].
    + simpl in Hrun. injection Hrun as <-. rewrite Hen1.
      destruct (Z.eqb_spec (c - 1) 0); [reflexivity | lia].
    + apply Hoff; [lia | exact Hz].
Qed.

End GateController.

Section GateClaims.
Context {ids : clk_ids} {rmap : rcc_map} {plat : clk_platform}.

Lemma clock_is_always_on_iff (id : Z) :
  clock_is_always_on id = true <->
  id <= CK_HSE_DIV2 \/ PLL1_P <= id <= PLL3_R \/
  id = CK_AXI \/ id = CK_MPU \/ id = CK_MCU.
Proof.
  unfold clock_is_always_on.
  repeat match goal with
    | |- context [?a <=? ?b] =>
        let E := fresh "E" in destruct (Z.leb_spec a b) as [E | E]
    | |- context [?a =? ?b] =>
        let E := fresh "E" in destruct (Z.eqb_spec a b) as [E | E]
    end; simpl; split; intros ?; try reflexivity; try discriminate; lia.
Qed.

(** C5.  A clock of the permanently-on set (an id up to the threshold
    [CK_HSE_DIV2], a PLL output from [PLL1_P] to [PLL3_R], the AXI, MPU
    and MCU clocks) is never gated: [enable] returns success, [disable]
    returns, [is_enabled] answers true, and each leaves the whole
    state, reference counters and registers included, as it was,
    whatever the gate table holds. *)
Theorem always_on_clock_is_never_gated (id : Z) (s : clk_state) :
  id <= CK_HSE_DIV2 \/ PLL1_P <= id <= PLL3_R \/
  id = CK_AXI \/ id = CK_MPU \/ id = CK_MCU ->
  clk_stm32_enable id s = Done TEE_SUCCESS s /\
  clk_stm32_disable id s = Done tt s /\
  clk_stm32_is_enabled id s = Done true s.
Proof.
  intros H. apply clock_is_always_on_iff in H.
  unfold clk_stm32_enable, clk_stm32_disable, clk_stm32_is_enabled.
  rewrite H. repeat split.
Qed.

(** C6, as amended.  For an id that is not always on and has no entry in
    the gate table, [enable] and [disable] halt the system, and
    [is_enabled] answers false and changes nothing. *)
Theorem unknown_clock_id (id : Z) (s : clk_state) :
  clock_is_always_on id = false ->
  (forall g, In g stm32mp1_clk_gate -> gate_clock_id g <> id) ->
  clk_stm32_enable id s = Panic /\
  clk_stm32_disable id s = Panic /\
  clk_stm32_is_enabled id s = Done false s.
Proof.
  intros Hao Hno.
  assert (Hi : stm32mp1_clk_get_gated_id id = -1)
    by (apply gated_id_from_none; [lia | exact Hno]).
  unfold clk_stm32_enable, clk_stm32_disable, clk_stm32_is_enabled.
  rewrite Hao, Hi. repeat split.
Qed.

(** C7.  For a gate of the non-secure class, and for every gate when the
    RCC interface is non-secure, [enable] performs the register write
    that raises the enable bit, whatever the reference counters hold,
    and leaves them as they were; [disable] returns with the state as it
    was. *)
Theorem non_secure_gate_is_not_counted (id i : Z) (s : clk_state) :
  clock_is_always_on id = false ->
  stm32mp1_clk_get_gated_id id = i -> 0 <= i ->
  gate_secure (gate_ref i) = N_S \/ stm32_rcc_is_secure = false ->
  let s' := set_rcc_regs (__clk_enable (gate_ref i) (rcc_regs s)) s in
  clk_stm32_enable id s = Done TEE_SUCCESS s' /\
  gate_refcounts s' = gate_refcounts s /\
  (forall c, clk_stm32_enable id (set_gate_refcounts c s)
             = Done TEE_SUCCESS (set_gate_refcounts c s')) /\
  (gate_hw_ok (gate_ref i) ->
   __clk_is_enabled (gate_ref i) (rcc_regs s') = true) /\
  clk_stm32_disable id s = Done tt s.
Proof.
  intros Hao Hi Hpos Hns s'.
  assert (Hnsec : gate_is_non_secure (gate_ref i) = true).
  { unfold gate_is_non_secure. destruct Hns as [-> | ->].
    - reflexivity.
    - apply orb_true_r. }
  unfold clk_stm32_enable, clk_stm32_disable.
  rewrite Hao, Hi, Hnsec. destruct (Z.ltb_spec i 0); [lia |].
  repeat split.
  intros Hok. subst s'. simpl.
  rewrite is_enabled_after_enable, same_bit_refl by exact Hok. reflexivity.
Qed.

(** C1.  For an id that maps to a gate of the secure class while the RCC
    interface is secure: [enable] increments the gate's counter and
    writes the enable bit only when the counter was 0; [disable]
    decrements the counter and writes the clear only when the counter
    reaches 0; [disable] with a counter at 0 halts the system; and from
    a counter at 0, after [N] calls of [enable] (the counter has 32
    bits, [N] is below 2^32) and [k] calls of [disable], [k <= N], the
    counter is [N - k] and [is_enabled] answers true exactly when
    [k < N], the next [disable] after the [N]-th halting the system. *)
Theorem secure_gate_refcounting (id i : Z) (s : clk_state) :
  gated_at id i s ->
  gate_secure (gate_ref i) <> N_S -> stm32_rcc_is_secure = true ->
  gate_hw_ok (gate_ref i) ->
  clk_stm32_enable id s
  = Done TEE_SUCCESS
      (set_refcount i (u32 (refcount s i + 1))
         (if refcount s i =? 0
          then set_rcc_regs (__clk_enable (gate_ref i) (rcc_regs s)) s
          else s)) /\
  (refcount s i <> 0 ->
   clk_stm32_disable id s
   = Done tt
       (let s' := set_refcount i (u32 (refcount s i - 1)) s in
        if u32 (refcount s i - 1) =? 0
        then set_rcc_regs (__clk_disable (gate_ref i) (rcc_regs s')) s'
        else s')) /\
  (refcount s i = 0 -> clk_stm32_disable id s = Panic) /\
  (refcount s i = 0 ->
   forall N k : nat,
     (0 < N)%nat -> Z.of_nat N <= UINT_MAX -> (k <= N)%nat ->
     exists s',
       (enable_n id N ;;; disable_n id k) s = Done tt s' /\
       refcount s' i = Z.of_nat N - Z.of_nat k /\
       clk_stm32_is_enabled id s' = Done (k <? N)%nat s' /\
       (k = N -> clk_stm32_disable id s' = Panic)).
Proof.
  intros Hg Hcls Hrcc Hok.
  assert (Hsec : gate_is_non_secure (gate_ref i) = false).
  { unfold gate_is_non_secure. rewrite Hrcc.
    destruct (Z.eqb_spec (gate_secure (gate_ref i)) N_S); [contradiction |].
    reflexivity. }
  split; [apply enable_secure_step; assumption |].
  split; [apply disable_secure_step; assumption |].
  split; [apply disable_secure_underflow; assumption |].
  intros Hc N k HN Hmax Hk.
  assert (Hinv : counted id i 0 s) by (split; [exact Hg | split; [exact Hc | lia]]).
  destruct (enable_n_counted id i N Hsec Hok 0 s ltac:(lia) ltac:(lia) Hinv)
    as (s1 & Hrun1 & Hinv1).
  destruct (disable_n_counted id i k Hsec Hok (0 + Z.of_nat N) s1
              ltac:(lia) ltac:(lia) Hinv1)
    as (s2 & Hrun2 & (Hg2 & Hrc2 & Hen2) & Hoff2).
  exists s2. unfold bind. rewrite Hrun1, Hrun2.
  split; [reflexivity |]. split; [lia |]. split.
  - rewrite (is_enabled_gated id i s2 Hg2). f_equal.
    destruct (Nat.ltb_spec k N) as [Hlt | Hge].
    + apply Hen2. lia.
    + apply Hoff2; lia.
  - intros ->. apply (disable_secure_underflow id i); [assumption.. | lia].
Qed.

End GateClaims.

Section GateExamples.
Local Existing Instances Board.ids Board.rmap Board.plat.

Lemma always_on_clock_is_never_gated_witness :
  (194 <= CK_HSE_DIV2 \/ PLL1_P <= 194 <= PLL3_R \/
   194 = CK_AXI \/ 194 = CK_MPU \/ 194 = CK_MCU) /\
  (clk_stm32_enable 194 Board.st0 = Done TEE_SUCCESS Board.st0 /\
   clk_stm32_disable 194 Board.st0 = Done tt Board.st0 /\
   clk_stm32_is_enabled 194 Board.st0 = Done true Board.st0).
Proof.
  assert (H : 194 <= CK_HSE_DIV2 \/ PLL1_P <= 194 <= PLL3_R \/
              194 = CK_AXI \/ 194 = CK_MPU \/ 194 = CK_MCU)
    by (right; right; right; left; reflexivity).
  split; [exact H |].
  exact (always_on_clock_is_never_gated 194 Board.st0 H).
Defined.

(** C6 as it is stated fails: for the id 250, which is not always on
    and which no gate of the table carries, [is_enabled] does not halt
    the system, it answers false. *)
Lemma is_enabled_unknown_id_does_not_abort :
  clock_is_always_on 250 = false /\
  stm32mp1_clk_get_gated_id 250 = -1 /\
  clk_stm32_is_enabled 250 Board.st0 <> Panic /\
  clk_stm32_is_enabled 250 Board.st0 = Done false Board.st0.
Proof. repeat split. discriminate. Qed.

Lemma unknown_clock_id_witness :
  clock_is_always_on 250 = false /\
  (forall g, In g stm32mp1_clk_gate -> gate_clock_id g <> 250) /\
  (clk_stm32_enable 250 Board.st0 = Panic /\
   clk_stm32_disable 250 Board.st0 = Panic /\
   clk_stm32_is_enabled 250 Board.st0 = Done false Board.st0).
Proof.
  assert (Hno : forall g, In g stm32mp1_clk_gate -> gate_clock_id g <> 250).
  { intros g Hin. simpl in Hin.
    repeat (destruct Hin as [<- | Hin]; [discriminate |]). contradiction. }
  assert (Hao : clock_is_always_on 250 = false) by reflexivity.
  split; [exact Hao |]. split; [exact Hno |].
  exact (unknown_clock_id 250 Board.st0 Hao Hno).
Defined.

(** TIM12_K is the gate 29 of the table, of the non-secure class. *)
Lemma non_secure_gate_is_not_counted_witness :
  clock_is_always_on Board.TIM12_K = false /\
  stm32mp1_clk_get_gated_id Board.TIM12_K = 29 /\
  (gate_secure (gate_ref 29) = N_S \/ stm32_rcc_is_secure = false) /\
  clk_stm32_disable Board.TIM12_K Board.st0 = Done tt Board.st0.
Proof.
  assert (H1 : clock_is_always_on Board.TIM12_K = false) by reflexivity.
  assert (H2 : stm32mp1_clk_get_gated_id Board.TIM12_K = 29) by reflexivity.
  assert (H3 : gate_secure (gate_ref 29) = N_S \/ stm32_rcc_is_secure = false)
    by (left; reflexivity).
  split; [exact H1 |]. split; [exact H2 |]. split; [exact H3 |].
  apply (non_secure_gate_is_not_counted Board.TIM12_K 29 Board.st0
           H1 H2 ltac:(lia) H3).
Defined.

Lemma TZPC_gate_hw_ok : gate_hw_ok (gate_ref 18).
Proof.
  split; [simpl; lia |]. split.
  - intros _. split; reflexivity.
  - intros H. discriminate H.
Defined.

Lemma TZPC_gated_at : gated_at Board.TZPC 18 Board.st0.
Proof.
  split; [reflexivity |]. split; [reflexivity |].
  split; [lia |]. simpl. lia.
Defined.

(** TZPC is the gate 18 of the table, of the secure class: three nested
    [enable] need three [disable]. *)
Lemma secure_gate_refcounting_witness :
  gated_at Board.TZPC 18 Board.st0 /\
  gate_secure (gate_ref 18) <> N_S /\ stm32_rcc_is_secure = true /\
  gate_hw_ok (gate_ref 18) /\
  (refcount Board.st0 18 = 0 ->
   forall N k : nat,
     (0 < N)%nat -> Z.of_nat N <= UINT_MAX -> (k <= N)%nat ->
     exists s',
       (enable_n Board.TZPC N ;;; disable_n Board.TZPC k) Board.st0
       = Done tt s' /\
       refcount s' 18 = Z.of_nat N - Z.of_nat k /\
       clk_stm32_is_enabled Board.TZPC s' = Done (k <? N)%nat s' /\
       (k = N -> clk_stm32_disable Board.TZPC s' = Panic)).
Proof.
  assert (Hcls : gate_secure (gate_ref 18) <> N_S) by discriminate.
  split; [exact TZPC_gated_at |]. split; [exact Hcls |].
  assert (Hrcc : stm32_rcc_is_secure = true) by reflexivity.
  split; [exact Hrcc |]. split; [exact TZPC_gate_hw_ok |].
  apply (secure_gate_refcounting Board.TZPC 18 Board.st0
           TZPC_gated_at Hcls Hrcc TZPC_gate_hw_ok).
Defined.

Example three_enables_two_disables :
  match (enable_n Board.TZPC 3 ;;; disable_n Board.TZPC 2) Board.st0 with
  | Done _ s' =>
      refcount s' 18 = 1 /\
      clk_stm32_is_enabled Board.TZPC s' = Done true s'
  | Panic => False
  end.
Proof. vm_compute. split; reflexivity. Qed.

Example three_enables_three_disables :
  match (enable_n Board.TZPC 3 ;;; disable_n Board.TZPC 3) Board.st0 with
  | Done _ s' =>
      refcount s' 18 = 0 /\
      clk_stm32_is_enabled Board.TZPC s' = Done false s' /\
      clk_stm32_disable Board.TZPC s' = Panic
  | Panic => False
  end.
Proof. vm_compute. repeat split. Qed.

End GateExamples.

(** ** Rounding to an operating point *)

Section RoundOpp.
Context {ids : clk_ids} {rmap : rcc_map} {plat : clk_platform}.

Lemma round_opp_loop_spec (ps : pll_settings) (x : Z) (n : nat) :
  forall (i : nat) (r0 : Z),
    let r := round_opp_loop n i x r0 ps in
    r0 <= r /\
    (r = r0 \/
     exists j, (i <= j < i + n)%nat /\ freq_at ps j = r /\ r <= x) /\
    (forall j, (i <= j < i + n)%nat -> freq_at ps j <= x -> freq_at ps j <= r).
Proof.
  induction n as [| n IH]; intros i r0; simpl.
  - split; [lia |]. split; [left; reflexivity |]. intros j Hj. lia.
  - match goal with
    | |- context [round_opp_loop n (S i) x ?v ps] => set (r1 := v)
    end.
    destruct (IH (S i) r1) as (Hle & Hin & Hmax).
    assert (Hr1 : r0 <= r1 /\ (r1 = r0 \/ freq_at ps i = r1 /\ r1 <= x) /\
                  (freq_at ps i <= x -> freq_at ps i <= r1)).
    { subst r1.
      destruct (Z.leb_spec (freq_at ps i) x), (Z.gtb_spec (freq_at ps i) r0);
        simpl; lia. }
    destruct Hr1 as (Hr0 & Hr1 & Hi).
    split; [lia |]. split.
    + destruct Hin as [-> | (j & Hj & Hf & Hx)].
      * destruct Hr1 as [Hr1 | [Hr1 Hx]]; [left; exact Hr1 |].
        right. exists i. split; [lia | auto].
      * right. exists j. split; [lia | auto].
    + intros j Hj Hx. destruct (Nat.eq_dec j i) as [-> | Hne].
      * specialize (Hi Hx). lia.
      * apply Hmax; [lia | exact Hx].
Qed.

Lemma round_opp_result_valid (s : clk_state) (x : Z) :
  stm32mp1_clk_pll1_settings_are_valid s = true ->
  round_opp_result s x = round_opp_loop PLAT_MAX_OPP_NB 0 x 0 (pll1_settings s).
Proof.
  intros Hv. unfold round_opp_result, stm32mp1_round_opp_khz, bind, gets, ret.
  rewrite Hv. reflexivity.
Qed.

Lemma round_opp_result_invalid (s : clk_state) (x : Z) :
  stm32mp1_clk_pll1_settings_are_valid s = false ->
  round_opp_result s x = current_opp_khz s.
Proof.
  intros Hv. unfold round_opp_result, stm32mp1_round_opp_khz, bind, gets, ret.
  rewrite Hv. reflexivity.
Qed.

(** C9, as amended.  [stm32mp1_round_opp_khz] returns 0, changes
    nothing but [*freq_khz], and leaves there: without a valid OPP
    table, the current frequency; with a valid table of which some
    entry is at most the request, the largest such entry; with a valid
    table whose entries are all above the request, 0.  The rounding is
    idempotent and monotonic. *)
Theorem round_opp_khz_rounds_down (s : clk_state) :
  (forall x,
     stm32mp1_round_opp_khz x s = Done (0, round_opp_result s x) s) /\
  (stm32mp1_clk_pll1_settings_are_valid s = false ->
   forall x, round_opp_result s x = current_opp_khz s) /\
  (stm32mp1_clk_pll1_settings_are_valid s = true ->
   forall x,
     (forall j, (j < PLAT_MAX_OPP_NB)%nat ->
        freq_at (pll1_settings s) j <= x ->
        freq_at (pll1_settings s) j <= round_opp_result s x) /\
     ((exists j, (j < PLAT_MAX_OPP_NB)%nat /\
                 0 <= freq_at (pll1_settings s) j <= x) ->
      round_opp_result s x <= x /\
      exists j, (j < PLAT_MAX_OPP_NB)%nat /\
                freq_at (pll1_settings s) j = round_opp_result s x) /\
     ((forall j, (j < PLAT_MAX_OPP_NB)%nat ->
         x < freq_at (pll1_settings s) j) ->
      round_opp_result s x = 0)) /\
  (forall x, round_opp_result s (round_opp_result s x) = round_opp_result s x) /\
  (forall x1 x2, x1 <= x2 -> round_opp_result s x1 <= round_opp_result s x2).
Proof.
  destruct (stm32mp1_clk_pll1_settings_are_valid s) eqn:Hv.
  - assert (Hspec := fun x => round_opp_loop_spec (pll1_settings s) x
                                PLAT_MAX_OPP_NB 0 0).
    assert (Hres := fun x => round_opp_result_valid s x Hv).
    split; [| split; [discriminate | split; [intros _ x |]]].
    + intros x. unfold round_opp_result, stm32mp1_round_opp_khz, bind, gets, ret.
      rewrite Hv. reflexivity.
    + rewrite Hres. destruct (Hspec x) as (H0 & Hin & Hmax). cbv zeta in *.
      split; [intros j Hj; apply Hmax; lia |]. split.
      * intros (j & Hj & Hf0 & Hfx).
        destruct Hin as [Hz | (j' & Hj' & Hf' & Hx')].
        -- assert (freq_at (pll1_settings s) j
                   <= round_opp_loop PLAT_MAX_OPP_NB 0 x 0 (pll1_settings s))
             by (apply Hmax; lia).
           split; [lia |]. exists j. split; [exact Hj | lia].
        -- split; [exact Hx' |]. exists j'. split; [lia | exact Hf'].
      * intros Hall. destruct Hin as [Hz | (j' & Hj' & Hf' & Hx')];
          [exact Hz |]. specialize (Hall j' ltac:(lia)). lia.
    + split.
      * intros x. rewrite !Hres.
        set (r := round_opp_loop PLAT_MAX_OPP_NB 0 x 0 (pll1_settings s)).
        destruct (Hspec x) as (H0 & Hin & _).
        destruct (Hspec r) as (H0' & Hin' & Hmax').
        cbv zeta in *. fold r in H0, Hin.
        set (r' := round_opp_loop PLAT_MAX_OPP_NB 0 r 0 (pll1_settings s)) in *.
        destruct Hin as [Hz | (j & Hj & Hf & Hx)].
        -- destruct Hin' as [Hz' | (j' & Hj' & Hf' & Hx')]; lia.
        -- assert (freq_at (pll1_settings s) j <= r') by (apply Hmax'; lia).
           destruct Hin' as [Hz' | (j' & Hj' & Hf' & Hx')]; lia.
      * intros x1 x2 Hx. rewrite !Hres.
        destruct (Hspec x1) as (H1 & Hin1 & _).
        destruct (Hspec x2) as (H2 & _ & Hmax2). cbv zeta in *.
        destruct Hin1 as [Hz | (j & Hj & Hf & Hx1)]; [lia |].
        rewrite <- Hf. apply Hmax2; lia.
  - assert (Hres := fun x => round_opp_result_invalid s x Hv).
    split; [| split; [intros _; exact Hres | split; [discriminate |]]].
    + intros x. unfold round_opp_result, stm32mp1_round_opp_khz, bind, gets, ret.
      rewrite Hv. reflexivity.
    + split; [intros x | intros x1 x2 _]; rewrite !Hres; lia.
Qed.

End RoundOpp.

Section RoundOppExamples.
Local Existing Instances Board.ids Board.rmap Board.plat.

Example round_700MHz :
  stm32mp1_round_opp_khz 700000 Board.st_opp = Done (0, 650000) Board.st_opp.
Proof. reflexivity. Qed.

Example round_below_table :
  stm32mp1_round_opp_khz 500000 Board.st_opp = Done (0, 0) Board.st_opp.
Proof. reflexivity. Qed.

(** C9 as it is stated fails: the table of 650 MHz and 800 MHz is
    valid, and the request of 500 MHz is rounded to 0, which is not a
    frequency of the table. *)
Lemma round_below_table_is_no_table_frequency :
  stm32mp1_clk_pll1_settings_are_valid Board.st_opp = true /\
  freq (pll1_settings Board.st_opp) = [650000; 800000] /\
  stm32mp1_round_opp_khz 500000 Board.st_opp = Done (0, 0) Board.st_opp /\
  round_opp_result Board.st_opp 500000 = 0 /\
  ~ (exists j, (j < PLAT_MAX_OPP_NB)%nat /\
               freq_at (pll1_settings Board.st_opp) j
               = round_opp_result Board.st_opp 500000).
Proof.
  split; [reflexivity |]. split; [reflexivity |]. split; [reflexivity |].
  split; [reflexivity |].
  intros (j & Hj & Hf). cbn in Hj.
  destruct j as [| [| j]]; [discriminate Hf | discriminate Hf | lia].
Qed.

Example round_without_table :
  stm32mp1_round_opp_khz 700000 (set_current_opp_khz 650000 Board.st0)
  = Done (0, 650000) (set_current_opp_khz 650000 Board.st0).
Proof. reflexivity. Qed.

Lemma round_opp_khz_rounds_down_witness :
  stm32mp1_clk_pll1_settings_are_valid Board.st_opp = true /\
  (exists j, (j < PLAT_MAX_OPP_NB)%nat /\
             0 <= freq_at (pll1_settings Board.st_opp) j <= 700000) /\
  round_opp_result Board.st_opp 700000 <= 700000 /\
  (exists j, (j < PLAT_MAX_OPP_NB)%nat /\
             freq_at (pll1_settings Board.st_opp) j
             = round_opp_result Board.st_opp 700000).
Proof.
  assert (Hv : stm32mp1_clk_pll1_settings_are_valid Board.st_opp = true)
    by reflexivity.
  assert (He : exists j, (j < PLAT_MAX_OPP_NB)%nat /\
                 0 <= freq_at (pll1_settings Board.st_opp) j <= 700000).
  { exists 0%nat. split; [cbn; lia |]. cbn. lia. }
  split; [exact Hv |]. split; [exact He |].
  destruct (round_opp_khz_rounds_down Board.st_opp) as (_ & _ & H & _).
  destruct (H Hv 700000) as (_ & H' & _). exact (H' He).
Defined.

End RoundOppExamples.

(** ** VCO frequency of a PLL *)

Section PllFvco.
Context {ids : clk_ids} {rmap : rcc_map} {plat : clk_platform}.

Lemma osc_frequency_range (idx : Z) (s : clk_state) :
  0 <= osc_frequency idx s < 2 ^ 32.
Proof.
  unfold osc_frequency. destruct (idx >=? NB_OSC); [lia | apply u32_range].
Qed.

Lemma pll_get_fref_range (pll : clk_pll) (s : clk_state) :
  0 <= stm32mp1_pll_get_fref pll s < 2 ^ 32.
Proof. apply osc_frequency_range. Qed.

(** With the fractional enable flag, the quotient is computed on 64
    bits without loss and only its conversion to [unsigned long] can
    wrap. *)
Lemma pll_get_fvco_fractional (pll : clk_pll) (s : clk_state) :
  pll_fracle pll s = true ->
  0 <= pll_divm pll s <= 63 -> 0 <= pll_divn pll s <= 511 ->
  0 <= pll_fracv pll s <= 8191 ->
  stm32mp1_pll_get_fvco pll s
  = u32 (stm32mp1_pll_get_fref pll s
         * ((pll_divn pll s + 1) * 2 ^ 13 + pll_fracv pll s)
         / ((pll_divm pll s + 1) * 2 ^ 13)).
Proof.
  intros Hle Hm Hn Hf. unfold stm32mp1_pll_get_fvco.
  fold (pll_divm pll s) (pll_divn pll s) (pll_fracv pll s) (pll_fracle pll s).
  rewrite Hle. pose proof (pll_get_fref_range pll s) as Hr.
  rewrite (u64_small (pll_divn pll s + 1)) by lia.
  rewrite (u64_small (pll_divm pll s + 1)) by lia.
  rewrite !Z.shiftl_mul_pow2 by lia.
  rewrite (u64_small ((pll_divn pll s + 1) * 2 ^ 13)) by lia.
  rewrite (u64_small ((pll_divn pll s + 1) * 2 ^ 13 + pll_fracv pll s)) by lia.
  rewrite (u64_small ((pll_divm pll s + 1) * 2 ^ 13)) by lia.
  rewrite u64_small; [reflexivity |].
  split; [apply Z.mul_nonneg_nonneg; lia |].
  apply Z.le_lt_trans with (2 ^ 32 * 2 ^ 23); [| lia].
  apply Z.mul_le_mono_nonneg; lia.
Qed.

(** Without the flag, the product is computed on the 32 bits of
    [unsigned long]. *)
Lemma pll_get_fvco_integer (pll : clk_pll) (s : clk_state) :
  pll_fracle pll s = false ->
  0 <= pll_divm pll s <= 63 -> 0 <= pll_divn pll s <= 511 ->
  stm32mp1_pll_get_fvco pll s
  = u32 (stm32mp1_pll_get_fref pll s * (pll_divn pll s + 1))
    / (pll_divm pll s + 1).
Proof.
  intros Hle Hm Hn. unfold stm32mp1_pll_get_fvco.
  fold (pll_divm pll s) (pll_divn pll s) (pll_fracv pll s) (pll_fracle pll s).
  rewrite Hle. simpl.
  rewrite (u32_small (pll_divn pll s + 1)) by lia.
  rewrite (u32_small (pll_divm pll s + 1)) by lia.
  apply u32_small.
  pose proof (u32_range (stm32mp1_pll_get_fref pll s * (pll_divn pll s + 1))) as Hr.
  split.
  - apply Z.div_pos; lia.
  - apply Z.le_lt_trans with (2 := proj2 Hr).
    apply Z.div_le_upper_bound; [lia |]. nia.
Qed.

(** Exact when the product fits in 32 bits. *)
Lemma pll_get_fvco_integer_exact (pll : clk_pll) (s : clk_state) :
  pll_fracle pll s = false ->
  0 <= pll_divm pll s <= 63 -> 0 <= pll_divn pll s <= 511 ->
  stm32mp1_pll_get_fref pll s * (pll_divn pll s + 1) < 2 ^ 32 ->
  stm32mp1_pll_get_fvco pll s
  = stm32mp1_pll_get_fref pll s * (pll_divn pll s + 1)
    / (pll_divm pll s + 1).
Proof.
  intros Hle Hm Hn Hfit. rewrite pll_get_fvco_integer by assumption.
  pose proof (pll_get_fref_range pll s) as Hr.
  rewrite u32_small by nia. reflexivity.
Qed.

End PllFvco.

Section PllFvcoExamples.
Local Existing Instances Board.ids Board.rmap Board.plat.

(** The example of the design description: 25 MHz, DIVM = 1, DIVN = 49,
    no fraction. *)
Example fvco_25MHz_1_49 :
  stm32mp1_pll_get_fref (pll_ref _PLL2) (Board.st_pll2 25000000 1 49 0)
  = 25000000 /\
  pll_divm (pll_ref _PLL2) (Board.st_pll2 25000000 1 49 0) = 1 /\
  pll_divn (pll_ref _PLL2) (Board.st_pll2 25000000 1 49 0) = 49 /\
  pll_fracle (pll_ref _PLL2) (Board.st_pll2 25000000 1 49 0) = false /\
  stm32mp1_pll_get_fvco (pll_ref _PLL2) (Board.st_pll2 25000000 1 49 0)
  = 625000000.
Proof. vm_compute. repeat split. Qed.

(** The same dividers with the fraction 4096 enabled. *)
Example fvco_25MHz_1_49_half :
  stm32mp1_pll_get_fvco (pll_ref _PLL2)
    (Board.st_pll2 25000000 1 49 (Z.lor 0x10000 (Z.shiftl 4096 3)))
  = 25000000 * (50 * 8192 + 4096) / (2 * 8192).
Proof. vm_compute. reflexivity. Qed.

(** C4.  With a 48 MHz crystal, DIVM = 5, DIVN = 99 and the fraction
    disabled, the VCO runs at 48 MHz * 100 / 6 = 800 MHz, but the product
    48000000 * 100 does not fit the 32 bits of [unsigned long] and
    [stm32mp1_pll_get_fvco] returns 84172117. *)
Theorem pll_get_fvco_integer_path_wraps :
  let s := Board.st_pll2 48000000 5 99 0 in
  let pll := pll_ref _PLL2 in
  stm32mp1_pll_get_fref pll s = 48000000 /\
  pll_divm pll s = 5 /\ pll_divn pll s = 99 /\
  pll_fracle pll s = false /\
  stm32mp1_pll_get_fref pll s * (pll_divn pll s + 1) / (pll_divm pll s + 1)
  = 800000000 /\
  stm32mp1_pll_get_fvco pll s = 84172117.
Proof. vm_compute. repeat split. Qed.

End PllFvcoExamples.

(** ** Rates of the timer clocks *)

Section TimerRate.
Context {ids : clk_ids} {rmap : rcc_map} {plat : clk_platform}.

Lemma clk_get_parent_state (id p : Z) (s s' : clk_state) :
  __clk_get_parent id s = Done p s' -> s' = s.
Proof.
  unfold __clk_get_parent, bind, rd, gets, ret, panic.
  repeat match goal with
    | |- context [if ?b then _ else _] => destruct b
    end; intros H; inversion H; reflexivity.
Qed.

Lemma io_read32_range (off : Z) (r : gmap Z Z) : 0 <= io_read32 off r < 2 ^ 32.
Proof. apply u32_range. Qed.

Lemma div_u32_range (x d : Z) : 0 <= x < 2 ^ 32 -> 0 <= d -> 0 <= x / d < 2 ^ 32.
Proof.
  intros Hx Hd. destruct (Z.eq_dec d 0) as [-> | Hne].
  - rewrite Z.div_0_r. lia.
  - split; [apply Z.div_pos; lia |].
    apply Z.le_lt_trans with x; [| lia].
    apply Z.div_le_upper_bound; [lia | nia].
Qed.

Lemma shiftr_u32_range (x n : Z) :
  0 <= x < 2 ^ 32 -> 0 <= n -> 0 <= Z.shiftr x n < 2 ^ 32.
Proof.
  intros Hx Hn. rewrite Z.shiftr_div_pow2 by exact Hn.
  apply div_u32_range; [exact Hx |]. apply Z.pow_nonneg. lia.
Qed.

Lemma tbl_nonneg (t : list Z) (i : Z) : Forall (fun v => 0 <= v) t -> 0 <= tbl t i.
Proof.
  intros Ht. unfold tbl.
  destruct (nth_in_or_default (Z.to_nat i) t 0) as [Hin | ->]; [| lia].
  rewrite Forall_forall in Ht. apply Ht. apply list_elem_of_In. exact Hin.
Qed.

Lemma apbx_div_nonneg (i : Z) : 0 <= tbl stm32mp1_apbx_div i.
Proof. apply tbl_nonneg. repeat constructor; lia. Qed.

Lemma mcu_div_nonneg (i : Z) : 0 <= tbl stm32mp1_mcu_div i.
Proof. apply tbl_nonneg. repeat constructor; lia. Qed.

Lemma axi_div_nonneg (i : Z) : 0 <= tbl stm32mp1_axi_div i.
Proof. apply tbl_nonneg. repeat constructor; lia. Qed.

Lemma pll_get_fvco_range (pll : clk_pll) (s : clk_state) :
  0 <= stm32mp1_pll_get_fvco pll s < 2 ^ 32.
Proof.
  unfold stm32mp1_pll_get_fvco.
  destruct (negb _); [apply u32_range |]. apply u32_range.
Qed.

Lemma read_pll_freq_range (p : pll_id) (d : div_id) (s : clk_state) :
  0 <= stm32mp1_read_pll_freq p d s < 2 ^ 32.
Proof.
  unfold stm32mp1_read_pll_freq.
  apply div_u32_range; [apply pll_get_fvco_range | apply u32_range].
Qed.

Lemma apbx_shift_range (divr clock : Z) (s : clk_state) :
  0 <= clock < 2 ^ 32 -> 0 <= apbx_shift divr clock s < 2 ^ 32.
Proof.
  intros H. unfold apbx_shift.
  apply shiftr_u32_range; [exact H | apply apbx_div_nonneg].
Qed.

Create HintDb rate_range.

Hint Resolve osc_frequency_range read_pll_freq_range apbx_shift_range
  shiftr_u32_range div_u32_range apbx_div_nonneg mcu_div_nonneg
  axi_div_nonneg : rate_range.
Hint Extern 1 (0 <= _ < _) => lia : rate_range.
Hint Extern 1 (0 <= _) => lia : rate_range.

(** Every resolved rate is an [unsigned long]. *)
Lemma clk_get_parent_rate_range (p : Z) (s : clk_state) :
  0 <= __clk_get_parent_rate p s < 2 ^ 32.
Proof.
  unfold __clk_get_parent_rate.
  destruct (parent_of_Z p) as [q |]; [| lia].
  destruct q;
    repeat match goal with
      | |- context [if ?b then _ else _] => destruct b
      end;
    try lia; auto 6 with rate_range.
Qed.

Lemma u32_timer_product (r t : Z) :
  u32 (s32 (u32 (u32 (s32 r * u32 (t + 1)) * 2))) = u32 (r * (t + 1) * 2).
Proof.
  rewrite u32_s32, u32_idem. unfold u32.
  rewrite Z.mul_mod_idemp_l by lia.
  rewrite <- (Z.mul_assoc (s32 r)), (Z.mul_mod (s32 r)) by lia.
  rewrite <- (Z.mul_assoc r), (Z.mul_mod r _ (2 ^ 32)) by lia.
  fold (u32 (s32 r)) (u32 r). rewrite u32_s32.
  f_equal. f_equal.
  rewrite (Z.mul_mod (_ mod _)), Z.mod_mod by lia.
  rewrite <- Z.mul_mod by lia. reflexivity.
Qed.

Lemma get_timer_rate_apb1 (rate : Z) (s : clk_state) :
  0 <= rate < 2 ^ 32 ->
  (r <- get_timer_rate (s32 rate) 1 ;; ret (u32 r)) s
  = Done (u32 (timer_rule RCC_APB1DIVR RCC_TIMG1PRER rate s)) s.
Proof.
  intros Hr. unfold get_timer_rate, timer_rule, bind, rd, gets, ret. simpl.
  destruct (_ =? 0).
  - rewrite u32_s32. reflexivity.
  - rewrite u32_timer_product. reflexivity.
Qed.

Lemma get_timer_rate_apb2 (rate : Z) (s : clk_state) :
  0 <= rate < 2 ^ 32 ->
  (r <- get_timer_rate (s32 rate) 2 ;; ret (u32 r)) s
  = Done (u32 (timer_rule RCC_APB2DIVR RCC_TIMG2PRER rate s)) s.
Proof.
  intros Hr. unfold get_timer_rate, timer_rule, bind, rd, gets, ret. simpl.
  destruct (_ =? 0).
  - rewrite u32_s32. reflexivity.
  - rewrite u32_timer_product. reflexivity.
Qed.

(** C10, as amended.  For a clock id of a timer range: when the id is
    neither a parent clock nor an entry of the gate table, [get_rate]
    halts the system; when its parent resolves, [get_rate] returns the
    timer rule of its bus (APB1 for [TIM2_K..TIM14_K], APB2 for
    [TIM1_K..TIM17_K]) applied to the parent rate: the rate itself when
    the APB prescaler is not engaged, the rate times (timer prescaler
    + 1) times 2, on 32 bits, when it is. *)
Theorem timer_clock_rate (id : Z) (s : clk_state) :
  TIM14_K < TIM1_K ->
  TIM2_K <= id <= TIM14_K \/ TIM1_K <= id <= TIM17_K ->
  (clock_id2parent_id id = _UNKNOWN_ID ->
   stm32mp1_clk_get_gated_id id < 0 ->
   clk_stm32_get_rate id s = Panic) /\
  (forall p,
     __clk_get_parent id s = Done p s ->
     let rate := __clk_get_parent_rate (u32 p) s in
     0 <= rate < 2 ^ 32 /\
     (TIM2_K <= id <= TIM14_K ->
      clk_stm32_get_rate id s
      = Done (u32 (timer_rule RCC_APB1DIVR RCC_TIMG1PRER rate s)) s) /\
     (TIM1_K <= id <= TIM17_K ->
      clk_stm32_get_rate id s
      = Done (u32 (timer_rule RCC_APB2DIVR RCC_TIMG2PRER rate s)) s) /\
     (forall divr prer,
        timer_rule divr prer rate s < 2 ^ 32 ->
        u32 (timer_rule divr prer rate s) = timer_rule divr prer rate s /\
        (Z.land (io_read32 divr (rcc_regs s)) RCC_APBXDIV_MASK = 0 ->
         timer_rule divr prer rate s = rate))).
Proof.
  intros Hdisj Hrange. split.
  - intros Hpar Hgate. unfold clk_stm32_get_rate, __clk_get_parent, bind.
    rewrite Hpar. simpl.
    destruct (Z.ltb_spec (stm32mp1_clk_get_gated_id id) 0); [reflexivity | lia].
  - intros p Hp rate.
    pose proof (clk_get_parent_rate_range (u32 p) s) as Hr. fold rate in Hr.
    split; [exact Hr |].
    assert (Hneg : (u32 p <? 0) = false)
      by (apply Z.ltb_ge; apply u32_range).
    split; [| split].
    + intros H1. unfold clk_stm32_get_rate, bind at 1. rewrite Hp.
      cbv zeta. rewrite Hneg. unfold bind at 1, gets at 1. fold rate.
      destruct (Z.geb_spec id TIM2_K); [| lia].
      destruct (Z.leb_spec id TIM14_K); [| lia]. simpl.
      unfold bind at 1. rewrite (get_timer_rate_apb1 rate s Hr).
      destruct (Z.geb_spec id TIM1_K); [lia |]. reflexivity.
    + intros H2. unfold clk_stm32_get_rate, bind at 1. rewrite Hp.
      cbv zeta. rewrite Hneg. unfold bind at 1, gets at 1. fold rate.
      destruct (Z.geb_spec id TIM2_K), (Z.leb_spec id TIM14_K); try lia;
        simpl; unfold bind at 1, ret at 1;
        destruct (Z.geb_spec id TIM1_K); try lia;
        destruct (Z.leb_spec id TIM17_K); try lia; simpl;
        unfold bind at 1; rewrite (get_timer_rate_apb2 rate s Hr);
        reflexivity.
    + intros divr prer Hfit. split.
      * apply u32_small. split; [| exact Hfit].
        unfold timer_rule. destruct (_ =? 0); [lia |].
        pose proof (Z.land_nonneg (io_read32 prer (rcc_regs s))
                      RCC_TIMGXPRER_TIMGXPRE) as [_ Hl].
        pose proof (io_read32_range prer (rcc_regs s)).
        specialize (Hl ltac:(left; lia)). nia.
      * intros H0. unfold timer_rule. rewrite H0. reflexivity.
Qed.

End TimerRate.

Section TimerRateExamples.
Local Existing Instances Board.ids Board.rmap Board.plat.

(** C10 as it is stated fails: TIM2_K (197) is in the range of the APB1
    timers and has no entry in the gate table; its parent does not
    resolve and [get_rate] halts the system instead of returning a
    rate. *)
Lemma timer_id_without_gate_aborts :
  TIM2_K <= 197 <= TIM14_K /\
  clk_stm32_get_rate 197 Board.st0 = Panic /\
  ~ (exists rate, clk_stm32_get_rate 197 Board.st0 = Done rate Board.st0).
Proof.
  split; [cbn; lia |]. split; [reflexivity |].
  intros (rate & H). discriminate H.
Qed.

(** TIM12_K hangs on PCLK1: HSI at 64 MHz, divided by 2 on APB1, then
    multiplied by 2 (timer prescaler 0) or by 4 (timer prescaler 1). *)
Example tim12_rate_pre0 :
  clk_stm32_get_rate Board.TIM12_K (Board.st_apb1 0)
  = Done 64000000 (Board.st_apb1 0).
Proof. vm_compute. reflexivity. Qed.

Example tim12_rate_pre1 :
  clk_stm32_get_rate Board.TIM12_K (Board.st_apb1 1)
  = Done 128000000 (Board.st_apb1 1).
Proof. vm_compute. reflexivity. Qed.

Example tim12_rate_no_apb_div :
  clk_stm32_get_rate Board.TIM12_K Board.st0 = Done 64000000 Board.st0.
Proof. vm_compute. reflexivity. Qed.

Lemma timer_clock_rate_witness :
  TIM14_K < TIM1_K /\
  (TIM2_K <= Board.TIM12_K <= TIM14_K \/ TIM1_K <= Board.TIM12_K <= TIM17_K) /\
  __clk_get_parent Board.TIM12_K (Board.st_apb1 1)
  = Done _PCLK1 (Board.st_apb1 1) /\
  clk_stm32_get_rate Board.TIM12_K (Board.st_apb1 1)
  = Done (u32 (timer_rule RCC_APB1DIVR RCC_TIMG1PRER
                 (__clk_get_parent_rate (u32 _PCLK1) (Board.st_apb1 1))
                 (Board.st_apb1 1)))
      (Board.st_apb1 1).
Proof.
  assert (H1 : TIM14_K < TIM1_K) by (cbn; lia).
  assert (H2 : TIM2_K <= Board.TIM12_K <= TIM14_K)
    by (unfold Board.TIM12_K; cbn; lia).
  assert (H3 : __clk_get_parent Board.TIM12_K (Board.st_apb1 1)
               = Done _PCLK1 (Board.st_apb1 1)) by reflexivity.
  split; [exact H1 |]. split; [left; exact H2 |]. split; [exact H3 |].
  destruct (timer_clock_rate Board.TIM12_K (Board.st_apb1 1) H1 (or_introl H2))
    as (_ & H).
  destruct (H _PCLK1 H3) as (_ & Hapb1 & _). exact (Hapb1 H2).
Defined.

End TimerRateExamples.

(** ** Computations that touch the hardware only *)

Section HwOnly.
Context {ids : clk_ids} {rmap : rcc_map} {plat : clk_platform}.

Lemma hw_only_ret {A} (a : A) : hw_only (ret a).
Proof. intros s a' s' H. inversion H. reflexivity. Qed.

Lemma hw_only_panic {A} : hw_only (@panic A).
Proof. intros s a s' H. discriminate H. Qed.

Lemma hw_only_gets {A} (f : clk_state -> A) : hw_only (gets f).
Proof. intros s a s' H. inversion H. reflexivity. Qed.

Lemma hw_only_rd (off : Z) : hw_only (rd off).
Proof. apply hw_only_gets. Qed.

Lemma hw_only_wr (f : gmap Z Z -> gmap Z Z) : hw_only (wr f).
Proof. intros s a s' H. inversion H. reflexivity. Qed.

Lemma hw_only_wait_flag (off mask : Z) : hw_only (wait_flag off mask).
Proof.
  intros s a s' H. unfold wait_flag in H.
  destruct (hw_ready s) as [| [|] h]; inversion H; reflexivity.
Qed.

Lemma hw_only_bind {A B} (c : M A) (k : A -> M B) :
  hw_only c -> (forall a, hw_only (k a)) -> hw_only (bind c k).
Proof.
  intros Hc Hk s b s' H. unfold bind in H.
  destruct (c s) as [a s1 |] eqn:Hcs; [| discriminate].
  rewrite (Hk a s1 b s' H). exact (Hc s a s1 Hcs).
Qed.

Lemma hw_only_if {A} (b : bool) (c1 c2 : M A) :
  hw_only c1 -> hw_only c2 -> hw_only (if b then c1 else c2).
Proof. destruct b; auto. Qed.

Lemma hw_only_try (c k : M Z) : hw_only c -> hw_only k -> hw_only (try c k).
Proof.
  intros Hc Hk. unfold try. apply hw_only_bind; [exact Hc |].
  intros r. apply hw_only_if; [apply hw_only_ret | exact Hk].
Qed.

End HwOnly.

Create HintDb hw_only.
#[global] Hint Resolve hw_only_ret hw_only_panic hw_only_gets hw_only_rd
  hw_only_wr hw_only_wait_flag hw_only_bind hw_only_if hw_only_try : hw_only.

Ltac hw_only_tac :=
  repeat first
    [ apply hw_only_bind | apply hw_only_if | apply hw_only_try
    | apply hw_only_ret | apply hw_only_panic | apply hw_only_gets
    | apply hw_only_rd | apply hw_only_wr | apply hw_only_wait_flag
    | intro ].

(** ** Switch of the CPU operating point *)

Section SetOpp.
Context {ids : clk_ids} {rmap : rcc_map} {plat : clk_platform}.

Lemma hw_only_set_clksrc (clksrc : Z) : hw_only (stm32mp1_set_clksrc clksrc).
Proof. unfold stm32mp1_set_clksrc. hw_only_tac. Qed.

Lemma hw_only_set_clkdiv (clkdiv address : Z) :
  hw_only (stm32mp1_set_clkdiv clkdiv address).
Proof. unfold stm32mp1_set_clkdiv. hw_only_tac. Qed.

Lemma hw_only_pll_start (p : pll_id) : hw_only (pll_start p).
Proof. unfold pll_start. hw_only_tac. Qed.

Lemma hw_only_pll_stop (p : pll_id) : hw_only (pll_stop p).
Proof. unfold pll_stop. hw_only_tac. Qed.

Lemma hw_only_pll_output (p : pll_id) (output : Z) : hw_only (pll_output p output).
Proof. unfold pll_output. hw_only_tac. Qed.

Lemma hw_only_pll_config (p : pll_id) (pllcfg : list Z) (fracv : Z) :
  hw_only (pll_config p pllcfg fracv).
Proof.
  unfold pll_config. apply hw_only_bind; [apply hw_only_gets |].
  intros [v |]; unfold pll_config_output; hw_only_tac.
Qed.

Lemma hw_only_get_mpu_div (freq_khz : Z) : hw_only (stm32mp1_get_mpu_div freq_khz).
Proof. unfold stm32mp1_get_mpu_div. hw_only_tac. Qed.

Hint Resolve hw_only_set_clksrc hw_only_set_clkdiv hw_only_pll_start
  hw_only_pll_stop hw_only_pll_output hw_only_pll_config
  hw_only_get_mpu_div : hw_only.

(** The configuration procedure writes registers and waits for the
    hardware; it leaves the OPP table and the current operating point as
    they are. *)
Lemma hw_only_pll1_config_from_opp_khz (freq_khz : Z) :
  hw_only (pll1_config_from_opp_khz freq_khz).
Proof.
  unfold pll1_config_from_opp_khz.
  apply hw_only_bind; [apply hw_only_gets |]. intros idx.
  apply hw_only_if; [apply hw_only_ret |].
  apply hw_only_bind; [apply hw_only_get_mpu_div |]. intros div.
  apply hw_only_if; [apply hw_only_set_clksrc |].
  apply hw_only_if.
  - apply hw_only_bind; [apply hw_only_set_clkdiv |]. intros r.
    apply hw_only_if; [apply hw_only_set_clksrc | apply hw_only_ret].
  - apply hw_only_bind; [apply hw_only_gets |]. intros pllcfg.
    apply hw_only_bind; [apply hw_only_gets |]. intros fracv.
    apply hw_only_bind; [apply hw_only_gets |]. intros [otf |];
      [| apply hw_only_ret].
    apply hw_only_if; [apply hw_only_ret |].
    auto 12 with hw_only.
Qed.

(** The control flow of [stm32mp1_set_opp_khz], step by step. *)
Lemma set_opp_khz_unfold (freq_khz : Z) (s : clk_state) :
  stm32mp1_set_opp_khz freq_khz s
  = if freq_khz =? current_opp_khz s then Done 0 s
    else if negb (stm32mp1_clk_pll1_settings_are_valid s) then Done (-1) s
    else if negb (selr_src RCC_MPCKSELR s =? RCC_MPCKSELR_PLL)
            && negb (selr_src RCC_MPCKSELR s =? RCC_MPCKSELR_PLL_MPUDIV)
    then Done (-1) s
    else
      match pll1_config_from_opp_khz freq_khz s with
      | Done r s1 =>
          if negb (r =? 0) then
            match pll1_config_from_opp_khz (current_opp_khz s1) s1 with
            | Done r' s2 => if negb (r' =? 0) then Panic else Done (-1) s2
            | Panic => Panic
            end
          else Done 0 (set_current_opp_khz freq_khz s1)
      | Panic => Panic
      end.
Proof.
  unfold stm32mp1_set_opp_khz, bind, gets, rd, ret, modify, panic, selr_src.
  destruct (freq_khz =? current_opp_khz s); [reflexivity |].
  destruct (stm32mp1_clk_pll1_settings_are_valid s); [| reflexivity]. simpl.
  destruct (negb _ && negb _); [reflexivity |].
  destruct (pll1_config_from_opp_khz freq_khz s) as [r s1 |]; [| reflexivity].
  destruct (negb (r =? 0)); [| reflexivity].
  destruct (pll1_config_from_opp_khz (current_opp_khz s1) s1) as [r' s2 |];
    [| reflexivity].
  destruct (negb (r' =? 0)); reflexivity.
Qed.

(** C3.  [stm32mp1_set_opp_khz]: at the current operating point it
    returns 0 and leaves the state, registers included, as it is; with
    no valid table, or with a CPU clock source that is not PLL1, it
    returns -1 and leaves the state as it is; otherwise it runs the
    configuration procedure for the target, and on its failure runs
    the same procedure for the current operating point, returning -1
    when that one succeeds and halting the system when it fails too.
    On success the target becomes the current operating point. *)
Theorem set_opp_khz_contract (freq_khz : Z) (s : clk_state) :
  (freq_khz = current_opp_khz s ->
   stm32mp1_set_opp_khz freq_khz s = Done 0 s) /\
  (freq_khz <> current_opp_khz s ->
   stm32mp1_clk_pll1_settings_are_valid s = false ->
   stm32mp1_set_opp_khz freq_khz s = Done (-1) s) /\
  (freq_khz <> current_opp_khz s ->
   selr_src RCC_MPCKSELR s <> RCC_MPCKSELR_PLL ->
   selr_src RCC_MPCKSELR s <> RCC_MPCKSELR_PLL_MPUDIV ->
   stm32mp1_set_opp_khz freq_khz s = Done (-1) s) /\
  (freq_khz <> current_opp_khz s ->
   stm32mp1_clk_pll1_settings_are_valid s = true ->
   selr_src RCC_MPCKSELR s = RCC_MPCKSELR_PLL \/
   selr_src RCC_MPCKSELR s = RCC_MPCKSELR_PLL_MPUDIV ->
   forall r s1,
     pll1_config_from_opp_khz freq_khz s = Done r s1 ->
     (r = 0 ->
      stm32mp1_set_opp_khz freq_khz s
      = Done 0 (set_current_opp_khz freq_khz s1)) /\
     (r <> 0 ->
      match pll1_config_from_opp_khz (current_opp_khz s) s1 with
      | Done r' s2 =>
          current_opp_khz s2 = current_opp_khz s /\
          stm32mp1_set_opp_khz freq_khz s
          = if r' =? 0 then Done (-1) s2 else Panic
      | Panic => stm32mp1_set_opp_khz freq_khz s = Panic
      end)).
Proof.
  rewrite set_opp_khz_unfold. split; [| split; [| split]].
  - intros ->. rewrite Z.eqb_refl. reflexivity.
  - intros Hne Hv. destruct (Z.eqb_spec freq_khz (current_opp_khz s));
      [contradiction |]. rewrite Hv. reflexivity.
  - intros Hne H1 H2. destruct (Z.eqb_spec freq_khz (current_opp_khz s));
      [contradiction |].
    destruct (stm32mp1_clk_pll1_settings_are_valid s); [| reflexivity]. simpl.
    destruct (Z.eqb_spec (selr_src RCC_MPCKSELR s) RCC_MPCKSELR_PLL);
      [contradiction |].
    destruct (Z.eqb_spec (selr_src RCC_MPCKSELR s) RCC_MPCKSELR_PLL_MPUDIV);
      [contradiction |]. reflexivity.
  - intros Hne Hv Hsrc r s1 Hcfg.
    destruct (Z.eqb_spec freq_khz (current_opp_khz s)); [contradiction |].
    rewrite Hv. simpl.
    assert (Hgo : negb (selr_src RCC_MPCKSELR s =? RCC_MPCKSELR_PLL)
                  && negb (selr_src RCC_MPCKSELR s =? RCC_MPCKSELR_PLL_MPUDIV)
                  = false).
    { destruct Hsrc as [-> | ->]; rewrite Z.eqb_refl; simpl;
        [reflexivity | apply andb_false_r]. }
    rewrite Hgo, Hcfg.
    assert (Hcur : current_opp_khz s1 = current_opp_khz s).
    { pose proof (hw_only_pll1_config_from_opp_khz freq_khz s r s1 Hcfg) as Hf.
      unfold driver_vars in Hf. congruence. }
    split.
    + intros ->. reflexivity.
    + intros Hr. destruct (Z.eqb_spec r 0); [contradiction |]. simpl.
      rewrite Hcur.
      destruct (pll1_config_from_opp_khz (current_opp_khz s) s1)
        as [r' s2 |] eqn:Hback; [| reflexivity].
      split.
      * pose proof (hw_only_pll1_config_from_opp_khz _ s1 r' s2 Hback) as Hf.
        unfold driver_vars in Hf. congruence.
      * destruct (r' =? 0); reflexivity.
Qed.

End SetOpp.

Section SetOppExamples.
Local Existing Instances Board.ids Board.rmap Board.plat.

(** The CPU runs on PLL1 at 650 MHz. *)
Example st_650_rate :
  clk_stm32_get_rate CK_MPU (Board.st_650 []) = Done 650000000 (Board.st_650 []).
Proof. vm_compute. reflexivity. Qed.

Example set_opp_same_frequency :
  stm32mp1_set_opp_khz 650000 (Board.st_650 [true])
  = Done 0 (Board.st_650 [true]).
Proof. vm_compute. reflexivity. Qed.

(** The switch to 800 MHz needs new DIVN: the CPU goes to HSI, PLL1 is
    stopped, programmed, started again, and the CPU goes back to it. *)
Example set_opp_800MHz :
  match stm32mp1_set_opp_khz 800000 (Board.st_650 [true; true; true; true]) with
  | Done r s' =>
      r = 0 /\ current_opp_khz s' = 800000 /\
      clk_stm32_get_rate CK_MPU s' = Done 800000000 s'
  | Panic => False
  end.
Proof. vm_compute. repeat split. Qed.

(** The switch of the CPU to HSI times out; the procedure for 650 MHz
    then succeeds, and the call returns -1 at 650 MHz. *)
Example set_opp_800MHz_fails_restore_succeeds :
  match stm32mp1_set_opp_khz 800000 (Board.st_650 [false; true]) with
  | Done r s' => r = -1 /\ current_opp_khz s' = 650000
  | Panic => False
  end.
Proof. vm_compute. repeat split. Qed.

(** Both time out: the system halts. *)
Example set_opp_800MHz_fails_restore_fails :
  stm32mp1_set_opp_khz 800000 (Board.st_650 [false; false]) = Panic.
Proof. vm_compute. reflexivity. Qed.

Lemma set_opp_khz_contract_witness :
  800000 <> current_opp_khz (Board.st_650 [false; true]) /\
  stm32mp1_clk_pll1_settings_are_valid (Board.st_650 [false; true]) = true /\
  selr_src RCC_MPCKSELR (Board.st_650 [false; true]) = RCC_MPCKSELR_PLL /\
  (exists s1,
     pll1_config_from_opp_khz 800000 (Board.st_650 [false; true])
     = Done (-1) s1 /\
     match pll1_config_from_opp_khz
             (current_opp_khz (Board.st_650 [false; true])) s1 with
     | Done r' s2 =>
         current_opp_khz s2 = current_opp_khz (Board.st_650 [false; true]) /\
         stm32mp1_set_opp_khz 800000 (Board.st_650 [false; true])
         = if r' =? 0 then Done (-1) s2 else Panic
     | Panic =>
         stm32mp1_set_opp_khz 800000 (Board.st_650 [false; true]) = Panic
     end).
Proof.
  assert (H1 : 800000 <> current_opp_khz (Board.st_650 [false; true]))
    by discriminate.
  assert (H2 : stm32mp1_clk_pll1_settings_are_valid (Board.st_650 [false; true])
               = true) by reflexivity.
  assert (H3 : selr_src RCC_MPCKSELR (Board.st_650 [false; true])
               = RCC_MPCKSELR_PLL) by reflexivity.
  split; [exact H1 |]. split; [exact H2 |]. split; [exact H3 |].
  destruct (pll1_config_from_opp_khz 800000 (Board.st_650 [false; true]))
    as [r s1 |] eqn:Hcfg; [| discriminate Hcfg].
  assert (Hr : r = -1) by (vm_compute in Hcfg; congruence).
  subst r. exists s1. split; [reflexivity |].
  destruct (set_opp_khz_contract 800000 (Board.st_650 [false; true]))
    as (_ & _ & _ & H).
  destruct (H H1 H2 (or_introl H3) (-1) s1 Hcfg) as (_ & Hfail).
  apply Hfail. discriminate.
Defined.

End SetOppExamples.

(** ** Resume: gates after the restoration of the context *)

Section Resume.
Context {ids : clk_ids} {rmap : rcc_map} {plat : clk_platform}.

Lemma hw_only_resume_restore : hw_only resume_restore.
Proof.
  unfold resume_restore, restore_pll34_state, restore_mux_cfg,
    restore_sc_cfg, restore_regular_cfg.
  hw_only_tac; auto with hw_only; apply hw_only_pll_start
    || (apply hw_only_bind; [apply hw_only_pll_start |]; hw_only_tac;
        apply hw_only_pll_output)
    || (apply hw_only_bind; [apply hw_only_pll_output |]; hw_only_tac).
Qed.

(** A write acts on one register. *)
Lemma io_write32_shape (off v : Z) (r : gmap Z Z) :
  exists V, io_write32 off v r = <[reg_target off := V]> r.
Proof.
  unfold io_write32, reg_target.
  destruct (rcc_set_register off); [eexists; reflexivity |].
  destruct (rcc_set_register (off - RCC_MP_ENCLRR_OFFSET));
    eexists; reflexivity.
Qed.

Lemma is_enabled_after_other_write (g : clk_gate) (off v : Z) (r : gmap Z Z) :
  gate_hw_ok g -> reg_target off <> gate_offset g ->
  __clk_is_enabled g (io_write32 off v r) = __clk_is_enabled g r.
Proof.
  intros Hok Hne. destruct (io_write32_shape off v r) as (V & ->).
  rewrite !clk_is_enabled_testbit by exact Hok.
  rewrite lookup_insert_ne by exact Hne. reflexivity.
Qed.

Lemma gate_ref_lookup (j : nat) (g : clk_gate) :
  stm32mp1_clk_gate !! j = Some g -> gate_ref (Z.of_nat j) = g.
Proof.
  intros H. unfold gate_ref. rewrite Nat2Z.id, nth_lookup, H. reflexivity.
Qed.

(** One turn of the loop: the gate [idx], when it is not non-secure,
    ends up on exactly when its counter is not 0; no other gate and no
    variable of the driver changes. *)
Lemma resume_gate_spec (idx : nat) (gi : clk_gate) (s : clk_state) :
  gates_wf ->
  stm32mp1_clk_gate !! idx = Some gi ->
  exists s',
    resume_gate (Z.of_nat idx) s = Done tt s' /\
    driver_vars s' = driver_vars s /\
    forall j g, stm32mp1_clk_gate !! j = Some g ->
      __clk_is_enabled g (rcc_regs s')
      = if (j =? idx)%nat && negb (gate_is_non_secure g)
        then negb (refcount s (Z.of_nat j) =? 0)
        else __clk_is_enabled g (rcc_regs s).
Proof.
  intros (Hok & Hdist) Hgi. unfold resume_gate.
  rewrite (gate_ref_lookup idx gi Hgi).
  assert (Hin : forall j g, stm32mp1_clk_gate !! j = Some g -> gate_hw_ok g).
  { intros j g Hg. apply Hok. apply list_elem_of_In.
    apply list_elem_of_lookup. exists j. exact Hg. }
  destruct (gate_is_non_secure gi) eqn:Hns.
  - exists s. split; [reflexivity |]. split; [reflexivity |].
    intros j g Hg. destruct (Nat.eqb_spec j idx) as [-> | Hne]; [| reflexivity].
    assert (g = gi) by congruence. subst g. rewrite Hns. reflexivity.
  - unfold bind, gets, wr, modify.
    destruct (Z.eqb_spec (refcount s (Z.of_nat idx)) 0) as [H0 | H0]; simpl;
      (eexists; split; [reflexivity |]; split; [reflexivity |]);
      intros j g Hg; simpl;
      [rewrite is_enabled_after_disable by eauto
      | rewrite is_enabled_after_enable by eauto];
      (destruct (Nat.eqb_spec j idx) as [-> | Hne];
       [ assert (g = gi) by congruence; subst g;
         rewrite same_bit_refl, Hns; simpl;
         destruct (Z.eqb_spec (refcount s (Z.of_nat idx)) 0);
           [reflexivity || contradiction | reflexivity || contradiction]
       | rewrite (Hdist idx j gi g Hgi Hg ltac:(congruence)); reflexivity ]).
Qed.

(** The loop over the gates [idx], ..., [idx + n - 1]. *)
Lemma resume_gates_spec (n : nat) :
  gates_wf ->
  forall (idx : nat) (s : clk_state),
    (idx + n <= NB_GATES)%nat ->
    exists s',
      resume_gates n (Z.of_nat idx) s = Done tt s' /\
      driver_vars s' = driver_vars s /\
      forall j g, stm32mp1_clk_gate !! j = Some g ->
        __clk_is_enabled g (rcc_regs s')
        = if ((idx <=? j) && (j <? idx + n))%nat
             && negb (gate_is_non_secure g)
          then negb (refcount s (Z.of_nat j) =? 0)
          else __clk_is_enabled g (rcc_regs s).
Proof.
  intros Hwf. induction n as [| n IH]; intros idx s Hlen.
  - exists s. split; [reflexivity |]. split; [reflexivity |].
    intros j g Hg.
    destruct (Nat.leb_spec idx j), (Nat.ltb_spec j (idx + 0)); simpl;
      try reflexivity; lia.
  - destruct (lookup_lt_is_Some_2 stm32mp1_clk_gate idx) as (gi & Hgi);
      [unfold NB_GATES in Hlen; lia |].
    destruct (resume_gate_spec idx gi s Hwf Hgi) as (s1 & Hrun1 & Hv1 & Hen1).
    destruct (IH (S idx) s1 ltac:(lia)) as (s' & Hrun & Hv & Hen).
    exists s'. split.
    + simpl. unfold bind. rewrite Hrun1.
      replace (Z.of_nat idx + 1) with (Z.of_nat (S idx)) by lia. exact Hrun.
    + split; [congruence |]. intros j g Hg.
      rewrite (Hen j g Hg), (Hen1 j g Hg).
      assert (Hrc : refcount s1 (Z.of_nat j) = refcount s (Z.of_nat j)).
      { unfold refcount. unfold driver_vars in Hv1.
        replace (gate_refcounts s1) with (gate_refcounts s) by congruence.
        reflexivity. }
      rewrite Hrc.
      destruct (Nat.leb_spec (S idx) j), (Nat.ltb_spec j (S idx + n)),
        (Nat.leb_spec idx j), (Nat.ltb_spec j (idx + S n)),
        (Nat.eqb_spec j idx); simpl; try reflexivity; try lia;
        destruct (gate_is_non_secure g); reflexivity.
Qed.

(** C8, as amended.  When [stm32_clock_resume] completes: a gate of the
    secure class, while the RCC interface is secure, is on exactly when
    its reference counter is not 0, whatever the saved context holds;
    a gate of the non-secure class, and every gate when the RCC
    interface is non-secure, is as the replay of the saved context left
    it; the counters are as they were. *)
Theorem resume_syncs_secure_gates (s s' : clk_state) :
  gates_wf ->
  stm32_clock_resume s = Done tt s' ->
  gate_refcounts s' = gate_refcounts s /\
  exists s1,
    resume_restore s = Done tt s1 /\
    forall j g, stm32mp1_clk_gate !! j = Some g ->
      (gate_secure g <> N_S -> stm32_rcc_is_secure = true ->
       __clk_is_enabled g (rcc_regs s')
       = negb (refcount s (Z.of_nat j) =? 0)) /\
      (gate_secure g = N_S \/ stm32_rcc_is_secure = false ->
       __clk_is_enabled g (rcc_regs s') = __clk_is_enabled g (rcc_regs s1)).
Proof.
  intros Hwf Hrun. unfold stm32_clock_resume, bind in Hrun.
  destruct (resume_restore s) as [[] s1 |] eqn:Hrest; [| discriminate].
  destruct (resume_gates_spec NB_GATES Hwf 0%nat s1 ltac:(lia))
    as (s2 & Hloop & Hv2 & Hen2).
  change (Z.of_nat 0) with 0 in Hloop. rewrite Hloop in Hrun.
  unfold disable_kernel_clocks, wr, modify in Hrun.
  injection Hrun as <-.
  pose proof (hw_only_resume_restore s tt s1 Hrest) as Hv1.
  unfold driver_vars in Hv1, Hv2.
  split; [simpl; congruence |].
  exists s1. split; [reflexivity |]. intros j g Hg.
  assert (Hg' : In g stm32mp1_clk_gate).
  { apply list_elem_of_In. apply list_elem_of_lookup. exists j. exact Hg. }
  destruct Hwf as (Hok & _). destruct (Hok g Hg') as (Hgok & Hker).
  assert (Hj : ((0 <=? j) && (j <? 0 + NB_GATES))%nat = true).
  { apply lookup_lt_Some in Hg. unfold NB_GATES.
    destruct (Nat.ltb_spec j (0 + length stm32mp1_clk_gate)); [reflexivity | lia]. }
  assert (Hrc : refcount s1 (Z.of_nat j) = refcount s (Z.of_nat j)).
  { unfold refcount. replace (gate_refcounts s1) with (gate_refcounts s)
      by congruence. reflexivity. }
  simpl. rewrite is_enabled_after_other_write by assumption.
  rewrite (Hen2 j g Hg), Hj, Hrc. simpl. unfold gate_is_non_secure. split.
  - intros Hcls ->. destruct (Z.eqb_spec (gate_secure g) N_S); [contradiction |].
    reflexivity.
  - intros [-> | ->]; [reflexivity |]. rewrite orb_true_r. reflexivity.
Qed.

End Resume.

Section ResumeExamples.
Local Existing Instances Board.ids Board.rmap Board.plat.

Lemma board_gates_wf : gates_wf.
Proof.
  split.
  - intros g Hin. simpl in Hin.
    repeat (destruct Hin as [<- | Hin];
            [ split; [| discriminate];
              split; [simpl; lia |];
              split; intros H; try discriminate H;
                try contradiction; split; reflexivity |]).
    contradiction.
  - intros i j g g' Hi Hj Hne.
    assert (Hli : (i < 35)%nat) by (apply lookup_lt_Some in Hi; exact Hi).
    assert (Hlj : (j < 35)%nat) by (apply lookup_lt_Some in Hj; exact Hj).
    assert (Hall :
      forallb (fun a =>
        forallb (fun b =>
          (a =? b)%nat
          || negb (same_bit (nth a Board.gates no_gate)
                     (nth b Board.gates no_gate)))
          (seq 0 35)) (seq 0 35) = true) by (vm_compute; reflexivity).
    rewrite forallb_forall in Hall.
    specialize (Hall i ltac:(apply in_seq; lia)).
    rewrite forallb_forall in Hall.
    specialize (Hall j ltac:(apply in_seq; lia)).
    change (stm32mp1_clk_gate) with Board.gates in Hi, Hj.
    rewrite (nth_lookup_Some _ _ no_gate _ Hi),
      (nth_lookup_Some _ _ no_gate _ Hj) in Hall.
    destruct (Nat.eqb_spec i j); [contradiction |].
    simpl in Hall. destruct (same_bit g g'); [discriminate | reflexivity].
Defined.

(** The counter of TZPC is 0 and the saved context has its enable bit
    set: after resume the gate is off.  TIM12_K, of the non-secure
    class, is on as saved. *)
Example resume_forces_tzpc_off :
  match stm32_clock_resume (Board.st_suspended (replicate 35 0)) with
  | Done _ s' =>
      __clk_is_enabled (gate_ref 18) (rcc_regs s') = false /\
      __clk_is_enabled (gate_ref 29) (rcc_regs s') = true
  | Panic => False
  end.
Proof. vm_compute. split; reflexivity. Qed.

Lemma resume_syncs_secure_gates_witness :
  gates_wf /\
  (exists s',
     stm32_clock_resume (Board.st_suspended (replicate 35 0)) = Done tt s' /\
     __clk_is_enabled (gate_ref 18) (rcc_regs s')
     = negb (refcount (Board.st_suspended (replicate 35 0)) 18 =? 0)).
Proof.
  split; [exact board_gates_wf |].
  destruct (stm32_clock_resume (Board.st_suspended (replicate 35 0)))
    as [[] s' |] eqn:Hrun; [| discriminate Hrun].
  exists s'. split; [reflexivity |].
  destruct (resume_syncs_secure_gates _ s' board_gates_wf Hrun)
    as (_ & s1 & _ & H).
  assert (Hg : stm32mp1_clk_gate !! 18%nat = Some (gate_ref 18))
    by reflexivity.
  destruct (H 18%nat (gate_ref 18) Hg) as (Hsec & _).
  apply Hsec; [discriminate | reflexivity].
Defined.

End ResumeExamples.

Section ResumeNonSecureRcc.
Local Existing Instances Board.ids Board.rmap Board.plat_ns.

(** C8 as it is stated fails: with an RCC interface that is non-secure,
    TZPC, a gate of the secure class whose counter is 0, is on after
    resume because the saved context has its enable bit set. *)
Lemma resume_non_secure_rcc_follows_snapshot :
  gate_secure (gate_ref 18) = SEC /\
  exists s',
    stm32_clock_resume (Board.st_suspended (replicate 35 0)) = Done tt s' /\
    refcount s' 18 = 0 /\
    __clk_is_enabled (gate_ref 18) (rcc_regs s') = true /\
    __clk_is_enabled (gate_ref 18) (rcc_regs s')
    <> negb (refcount s' 18 =? 0).
Proof.
  split; [reflexivity |].
  destruct (stm32_clock_resume (Board.st_suspended (replicate 35 0)))
    as [[] s' |] eqn:Hrun; [| discriminate Hrun].
  exists s'. split; [reflexivity |].
  vm_compute in Hrun. injection Hrun as <-.
  split; [reflexivity |]. split; [reflexivity |]. discriminate.
Qed.

End ResumeNonSecureRcc.

(** ** The PLL1 divider search *)

Section SearchArith.

Lemma s32_u64 (x : Z) : s32 (u64 x) = s32 x.
Proof.
  unfold s32, u64.
  replace (2 ^ 64) with (2 ^ 32 * 2 ^ 32) by reflexivity.
  rewrite Z.rem_mul_r by lia.
  rewrite (Z.mul_comm (2 ^ 32) (_ mod _)), Z.mod_add, Z.mod_mod by lia.
  reflexivity.
Qed.

Lemma s32_u64_small (x : Z) : - 2 ^ 31 <= x < 2 ^ 31 -> s32 (u64 x) = x.
Proof. intros H. rewrite s32_u64. apply s32_small, H. Qed.

(** The product of the target and the two dividers fits in 64 bits. *)
Lemma target_product_range (out m p : Z) :
  0 <= out < 2 ^ 32 -> 0 <= m <= 63 -> 0 <= p <= 127 ->
  0 <= out * (m + 1) < 2 ^ 38 /\
  0 <= out * (m + 1) * (p + 1) < 2 ^ 45.
Proof.
  intros Ho Hm Hp.
  assert (H1 : 0 <= out * (m + 1) < 2 ^ 38).
  { split; [apply Z.mul_nonneg_nonneg; lia |].
    apply Z.lt_le_trans with (2 ^ 32 * (m + 1)); [| lia].
    apply Z.mul_lt_mono_pos_r; lia. }
  split; [exact H1 |].
  split; [apply Z.mul_nonneg_nonneg; lia |].
  apply Z.lt_le_trans with (2 ^ 38 * (p + 1)); [| lia].
  apply Z.mul_lt_mono_pos_r; lia.
Qed.

(** The N that the code derives is the N of the design. *)
Lemma divn_code (input out m p : Z) :
  8000000 <= input < 2 ^ 32 ->
  0 <= out < 2 ^ 32 -> 0 <= m <= 63 -> 0 <= p <= 127 ->
  s32 (u64 (u64 (u64 (out * u64 (m + 1)) * u64 (p + 1)) / input - 1))
  = divn_of input out m p.
Proof.
  intros Hi Ho Hm Hp.
  destruct (target_product_range out m p Ho Hm Hp) as (H1 & H2).
  rewrite (u64_small (m + 1)), (u64_small (p + 1)) by lia.
  rewrite (u64_small (out * (m + 1))) by lia.
  rewrite (u64_small (out * (m + 1) * (p + 1))) by lia.
  unfold divn_of. apply s32_u64_small.
  assert (0 <= out * (m + 1) * (p + 1) / input < 2 ^ 23).
  { split; [apply Z.div_pos; lia |].
    apply Z.div_lt_upper_bound; lia. }
  lia.
Qed.

(** The first fractional value is below [FRAC_MAX]. *)
Lemma frac_of_range (input out m p : Z) :
  0 < input -> 0 <= out * (m + 1) * (p + 1) ->
  0 <= frac_of input out m p <= 8191.
Proof.
  intros Hi Hf. unfold frac_of, divn_of, FRAC_MAX.
  set (t := out * (m + 1) * (p + 1)) in *.
  pose proof (Z.mod_pos_bound t input Hi) as Hr.
  assert (E : t * 8192 = t / input * 8192 * input + t mod input * 8192).
  { pose proof (Z.div_mod t input ltac:(lia)). lia. }
  rewrite E, Z.div_add_l by lia.
  assert (0 <= t mod input * 8192 / input < 8192).
  { split; [apply Z.div_pos; lia |].
    apply Z.div_lt_upper_bound; lia. }
  lia.
Qed.

Lemma frac_code (input out m p : Z) :
  8000000 <= input < 2 ^ 32 ->
  0 <= out < 2 ^ 32 -> 0 <= m <= 63 -> 0 <= p <= 127 ->
  24 <= divn_of input out m p <= 99 ->
  s32 (u64 (u64 (u64 (u64 (out * u64 (m + 1)) * u64 (p + 1)) * FRAC_MAX)
            / input
            - u64 (s32 ((divn_of input out m p + 1) * FRAC_MAX))))
  = frac_of input out m p.
Proof.
  intros Hi Ho Hm Hp Hn.
  destruct (target_product_range out m p Ho Hm Hp) as (H1 & H2).
  pose proof (frac_of_range input out m p ltac:(lia) ltac:(lia)) as Hf.
  rewrite (u64_small (m + 1)), (u64_small (p + 1)) by lia.
  rewrite (u64_small (out * (m + 1))) by lia.
  rewrite (u64_small (out * (m + 1) * (p + 1))) by lia.
  unfold FRAC_MAX in *.
  rewrite (u64_small (out * (m + 1) * (p + 1) * 8192)) by lia.
  rewrite (s32_small ((divn_of input out m p + 1) * 8192)) by lia.
  rewrite (u64_small ((divn_of input out m p + 1) * 8192)) by lia.
  unfold frac_of, FRAC_MAX in *. apply s32_u64_small. lia.
Qed.

Lemma vco_code (post n f : Z) :
  0 <= post <= 16000000 -> 24 <= n <= 99 -> 0 <= f <= 8192 ->
  u64 (u32 (post * (n + 1)) + u64 (post * u64 f) / FRAC_MAX)
  = post * (n + 1) + post * f / FRAC_MAX.
Proof.
  intros Hp Hn Hf. unfold FRAC_MAX.
  assert (0 <= post * (n + 1) <= 1600000000) by nia.
  assert (0 <= post * f <= 16000000 * 8192) by nia.
  assert (0 <= post * f / 8192 <= 16000000).
  { split; [apply Z.div_pos; lia |].
    apply Z.div_le_upper_bound; lia. }
  rewrite (u64_small f), (u64_small (post * f)) by lia.
  rewrite u32_small, u64_small by lia. reflexivity.
Qed.

Lemma diff_code (out freq : Z) :
  0 <= out < 2 ^ 32 -> 0 <= freq < 2 ^ 32 ->
  (if out <? freq then u32 (freq - out) else u32 (out - freq))
  = Z.abs (freq - out).
Proof.
  intros Ho Hf. destruct (Z.ltb_spec out freq); rewrite u32_small; lia.
Qed.

End SearchArith.

Section SearchScan.
Context {rmap : rcc_map}.

Lemma cfg_row_insert (ps : pll_settings) (idx k : nat) (v : Z) (c : list (list Z)) :
  c = cfg ps ->
  nth idx (<[idx := <[k := v]> (cfg_row ps idx)]> c) []
  = <[k := v]> (cfg_row ps idx).
Proof.
  intros ->. unfold cfg_row. rewrite !nth_lookup.
  destruct (Nat.lt_ge_cases idx (length (cfg ps))) as [Hlt | Hge].
  - rewrite list_lookup_insert_eq by exact Hlt. reflexivity.
  - rewrite list_insert_ge by exact Hge.
    rewrite (lookup_ge_None_2 _ _ Hge). reflexivity.
Qed.

Lemma cfg_row_set_cfg (idx k : nat) (v : Z) (ps : pll_settings) :
  cfg_row (set_cfg idx k v ps) idx = <[k := v]> (cfg_row ps idx).
Proof.
  unfold cfg_row at 1, set_cfg. simpl. apply cfg_row_insert. reflexivity.
Qed.

Lemma store_candidate_eq (idx : nat) (c : candidate) (ps : pll_settings) :
  store_candidate idx c ps
  = {| valid_id := valid_id ps; freq := freq ps; volt := volt ps;
       cfg := <[idx := <[PLLCFG_P := c_divp c]>
                         (<[PLLCFG_N := c_divn c]>
                            (<[PLLCFG_M := c_divm c]> (cfg_row ps idx)))]>
                (cfg ps);
       frac := <[idx := c_frac c]> (frac ps) |}.
Proof.
  unfold store_candidate, set_frac. f_equal.
  unfold set_cfg at 1. cbn [cfg].
  rewrite !cfg_row_set_cfg. unfold set_cfg at 1. cbn [cfg].
  rewrite list_insert_insert_eq. unfold set_cfg. cbn [cfg].
  rewrite list_insert_insert_eq. reflexivity.
Qed.

(** A later record overwrites an earlier one. *)
Lemma store_candidate_twice (idx : nat) (c c0 : candidate) (ps : pll_settings) :
  store_candidate idx c (store_candidate idx c0 ps) = store_candidate idx c ps.
Proof.
  rewrite (store_candidate_eq idx c (store_candidate idx c0 ps)).
  rewrite (store_candidate_eq idx c ps).
  assert (Hrow : cfg_row (store_candidate idx c0 ps) idx
                 = <[PLLCFG_P := c_divp c0]>
                     (<[PLLCFG_N := c_divn c0]>
                        (<[PLLCFG_M := c_divm c0]> (cfg_row ps idx)))).
  { unfold store_candidate, set_frac, cfg_row at 1. cbn [cfg].
    fold (cfg_row (set_cfg idx PLLCFG_P (c_divp c0)
                     (set_cfg idx PLLCFG_N (c_divn c0)
                        (set_cfg idx PLLCFG_M (c_divm c0) ps))) idx).
    rewrite !cfg_row_set_cfg. reflexivity. }
  rewrite Hrow. rewrite (store_candidate_eq idx c0 ps). cbn [cfg frac valid_id freq volt].
  rewrite !list_insert_insert_eq. f_equal. f_equal.
  destruct (cfg_row ps idx) as [| a [| b [| d row]]]; reflexivity.
Qed.

Lemma scan_app (idx : nat) (input out : Z) (l1 l2 : list candidate) :
  forall (bd : Z) (ps : pll_settings),
    scan idx input out (l1 ++ l2) bd ps
    = match scan idx input out l1 bd ps with
      | Return ps' => Return ps'
      | Next (bd', ps') => scan idx input out l2 bd' ps'
      end.
Proof.
  induction l1 as [| c l1 IH]; intros bd ps; simpl.
  - reflexivity.
  - destruct (freq_error input out c <? bd); [| apply IH].
    destruct (freq_error input out c =? 0); [reflexivity | apply IH].
Qed.

(** An exact match below the best so far ends the search at once,
    whatever comes after it. *)
Lemma scan_exact_match_stops (idx : nat) (input out : Z) (c : candidate)
    (post : list candidate) (bd : Z) (ps : pll_settings) :
  freq_error input out c = 0 -> 0 < bd ->
  scan idx input out (c :: post) bd ps = Return (store_candidate idx c ps).
Proof.
  intros H0 Hbd. simpl. rewrite H0.
  destruct (Z.ltb_spec 0 bd); [reflexivity | lia].
Qed.

Lemma is_first_best_head (err : candidate -> Z) (c : candidate) (l : list candidate) :
  (forall x, In x l -> err c <= err x) -> is_first_best err (c :: l) c.
Proof. intros H. exists [], l. split; [reflexivity |]. split; [intros x [] | exact H]. Qed.

Lemma is_first_best_tail (err : candidate -> Z) (c0 c : candidate) (l : list candidate) :
  err c < err c0 -> is_first_best err l c -> is_first_best err (c0 :: l) c.
Proof.
  intros Hlt (pre & post & -> & Hpre & Hpost). exists (c0 :: pre), post.
  split; [reflexivity |]. split; [| exact Hpost].
  intros x [<- | Hx]; [exact Hlt | apply Hpre, Hx].
Qed.

(** What the search leaves: either nothing below the best so far was
    met, or the earliest candidate with the least error is recorded. *)
Lemma scan_first_best (idx : nat) (input out : Z) (l : list candidate) :
  forall (bd : Z) (ps : pll_settings),
    0 < bd ->
    match scan idx input out l bd ps with
    | Return ps' =>
        exists c, is_first_best (freq_error input out) l c /\
                  freq_error input out c = 0 /\
                  ps' = store_candidate idx c ps
    | Next (bd', ps') =>
        (bd' = bd /\ ps' = ps /\
         forall x, In x l -> bd <= freq_error input out x) \/
        (exists c, is_first_best (freq_error input out) l c /\
                   freq_error input out c = bd' /\ 0 < bd' < bd /\
                   ps' = store_candidate idx c ps)
    end.
Proof.
  assert (Hnn : forall c, 0 <= freq_error input out c)
    by (intros c; apply Z.abs_nonneg).
  induction l as [| c0 l IH]; intros bd ps Hbd; simpl.
  - left. split; [reflexivity |]. split; [reflexivity |]. intros x [].
  - destruct (Z.ltb_spec (freq_error input out c0) bd) as [Hlt | Hge].
    + destruct (Z.eqb_spec (freq_error input out c0) 0) as [H0 | H0].
      * exists c0. split; [| split; [exact H0 | reflexivity]].
        apply is_first_best_head. intros x _. rewrite H0. apply Hnn.
      * specialize (IH (freq_error input out c0) (store_candidate idx c0 ps)
                       ltac:(specialize (Hnn c0); lia)).
        destruct (scan idx input out l _ _) as [[bd' ps'] | ps'].
        -- right. destruct IH as [(-> & -> & Hall) | (c & Hfb & He & Hr & ->)].
           ++ exists c0. split; [apply is_first_best_head, Hall |].
              split; [reflexivity |]. split; [specialize (Hnn c0); lia |].
              reflexivity.
           ++ exists c. split; [apply is_first_best_tail; [lia | exact Hfb] |].
              split; [exact He |]. split; [lia |].
              apply store_candidate_twice.
        -- destruct IH as (c & Hfb & He & ->). exists c.
           split; [apply is_first_best_tail;
                   [specialize (Hnn c0); lia | exact Hfb] |].
           split; [exact He | apply store_candidate_twice].
    + specialize (IH bd ps Hbd).
      destruct (scan idx input out l bd ps) as [[bd' ps'] | ps'].
      * destruct IH as [(-> & -> & Hall) | (c & Hfb & He & Hr & ->)].
        -- left. split; [reflexivity |]. split; [reflexivity |].
           intros x [<- | Hx]; [exact Hge | apply Hall, Hx].
        -- right. exists c. split; [apply is_first_best_tail; [lia | exact Hfb] |].
           split; [exact He |]. split; [exact Hr | reflexivity].
      * destruct IH as (c & Hfb & He & ->). exists c.
        split; [apply is_first_best_tail; [lia | exact Hfb] |].
        split; [exact He | reflexivity].
Qed.

End SearchScan.

Section SearchLoops.
Context {rmap : rcc_map}.

Lemma frac_loop_step (i idx : nat) (input out m n p f bd : Z)
    (ps : pll_settings) :
  0 <= out < 2 ^ 32 -> 0 <= m <= 63 -> 0 <= p <= 127 -> 24 <= n <= 99 ->
  0 <= f <= 8192 -> 0 <= post_divm_of input m <= 16000000 ->
  frac_loop (S i) idx out (post_divm_of input m) m n p f bd ps
  = let c := {| c_divm := m; c_divn := n; c_divp := p; c_frac := f |} in
    if vco_in_window input c then
      if freq_error input out c <? bd then
        if freq_error input out c =? 0 then Return (store_candidate idx c ps)
        else frac_loop i idx out (post_divm_of input m) m n p (f + 1)
               (freq_error input out c) (store_candidate idx c ps)
      else frac_loop i idx out (post_divm_of input m) m n p (f + 1) bd ps
    else frac_loop i idx out (post_divm_of input m) m n p (f + 1) bd ps.
Proof.
  intros Ho Hm Hp Hn Hf Hpost. cbn [frac_loop]. cbv zeta.
  destruct (Z.gtb_spec f FRAC_MAX) as [Hgt | _];
    [unfold FRAC_MAX in Hgt; lia |].
  rewrite vco_code by assumption.
  rewrite (s32_small (f + 1)) by lia.
  unfold vco_in_window, freq_error, vco_of, store_candidate.
  cbn [c_divm c_divn c_divp c_frac].
  set (vco := post_divm_of input m * (n + 1)
              + post_divm_of input m * f / FRAC_MAX).
  change (VCO_MIN / 2) with 400000000. change (VCO_MAX / 2) with 800000000.
  destruct (Z.ltb_spec vco 400000000), (Z.gtb_spec vco 800000000),
    (Z.leb_spec 400000000 vco), (Z.leb_spec vco 800000000);
    simpl orb; simpl andb; cbv iota; try reflexivity; try lia.
  assert (Hfreq : 0 <= vco / (p + 1) < 2 ^ 32).
  { split; [apply Z.div_pos; lia |].
    apply Z.div_lt_upper_bound; [lia |]. nia. }
  rewrite (u64_small (p + 1)) by lia.
  rewrite diff_code by assumption.
  rewrite (u32_small m), (u32_small n), (u32_small p), (u32_small f) by lia.
  reflexivity.
Qed.

(** The two turns of the refinement are a search over the two
    fractional values whose VCO is in the window. *)
Lemma frac_loop_scan (idx : nat) (input out m n p f bd : Z)
    (ps : pll_settings) :
  0 <= out < 2 ^ 32 -> 0 <= m <= 63 -> 0 <= p <= 127 -> 24 <= n <= 99 ->
  0 <= f <= 8191 -> 0 <= post_divm_of input m <= 16000000 ->
  frac_loop 2 idx out (post_divm_of input m) m n p f bd ps
  = scan idx input out
      (List.filter (vco_in_window input)
         [ {| c_divm := m; c_divn := n; c_divp := p; c_frac := f |};
           {| c_divm := m; c_divn := n; c_divp := p; c_frac := f + 1 |} ])
      bd ps.
Proof.
  intros Ho Hm Hp Hn Hf Hpost.
  rewrite frac_loop_step by (assumption || lia). cbv zeta.
  rewrite !(frac_loop_step 0) by (assumption || lia). cbv zeta.
  cbn [List.filter frac_loop].
  destruct (vco_in_window input _), (vco_in_window input _); cbn [scan];
    repeat match goal with
      | |- context [if ?b then _ else _] => destruct b
      end; reflexivity.
Qed.

Lemma divp_loop_scan (idx : nat) (input out m bd0 : Z) (ps0 : pll_settings) :
  8000000 <= input < 2 ^ 32 -> 0 <= out < 2 ^ 32 -> 0 <= m <= 63 ->
  0 <= post_divm_of input m <= 16000000 ->
  forall (n p0 : nat) (bd : Z) (ps : pll_settings),
    (p0 + n <= 128)%nat ->
    divp_loop n idx input out (post_divm_of input m) m (Z.of_nat p0) bd ps
    = scan idx input out
        (flat_map (candidates_mp input out m) (map Z.of_nat (seq p0 n)))
        bd ps.
Proof.
  intros Hi Ho Hm Hpost. induction n as [| n IH]; intros p0 bd ps Hlen.
  - reflexivity.
  - cbn [divp_loop seq map flat_map]. cbv zeta.
    rewrite divn_code by (assumption || lia).
    rewrite scan_app. unfold candidates_mp at 1. cbv zeta.
    assert (Hnext : forall bd' ps',
              divp_loop n idx input out (post_divm_of input m) m
                (Z.of_nat p0 + 1) bd' ps'
              = scan idx input out
                  (flat_map (candidates_mp input out m)
                     (map Z.of_nat (seq (S p0) n))) bd' ps').
    { intros bd' ps'.
      replace (Z.of_nat p0 + 1) with (Z.of_nat (S p0)) by lia.
      apply IH. lia. }
    unfold DIVN_MIN, DIVN_MAX.
    destruct (Z.ltb_spec (divn_of input out m (Z.of_nat p0)) 24),
      (Z.gtb_spec (divn_of input out m (Z.of_nat p0)) 99),
      (Z.leb_spec 24 (divn_of input out m (Z.of_nat p0))),
      (Z.leb_spec (divn_of input out m (Z.of_nat p0)) 99);
      simpl orb; simpl andb; cbv iota; try lia;
      try (cbn [scan]; apply Hnext).
    rewrite frac_code by (assumption || lia).
    pose proof (target_product_range out m (Z.of_nat p0) Ho Hm ltac:(lia))
      as (_ & Hprod).
    pose proof (frac_of_range input out m (Z.of_nat p0) ltac:(lia)
                  ltac:(lia)) as Hfr.
    rewrite frac_loop_scan by (assumption || lia).
    destruct (scan idx input out _ bd ps) as [[bd' ps'] | ps'];
      [apply Hnext | reflexivity].
Qed.

Lemma rev_seq_S (n : nat) : rev (seq 0 (S n)) = n :: rev (seq 0 n).
Proof. rewrite seq_S, rev_app_distr. reflexivity. Qed.

Lemma divm_loop_scan (idx : nat) (input out : Z) :
  0 <= input < 2 ^ 32 -> 0 <= out < 2 ^ 32 ->
  forall (n : nat) (bd : Z) (ps : pll_settings),
    (n <= 64)%nat ->
    divm_loop n idx input out bd ps
    = scan idx input out
        (flat_map (candidates_m input out) (map Z.of_nat (rev (seq 0 n))))
        bd ps.
Proof.
  intros Hi Ho. induction n as [| n IH]; intros bd ps Hlen.
  - reflexivity.
  - rewrite rev_seq_S. cbn [divm_loop map flat_map]. cbv zeta.
    rewrite scan_app. unfold candidates_m at 1.
    rewrite (u32_small (Z.of_nat n + 1)) by lia.
    fold (post_divm_of input (Z.of_nat n)).
    unfold POST_DIVM_MIN, POST_DIVM_MAX.
    destruct (Z.ltb_spec (post_divm_of input (Z.of_nat n)) 8000000),
      (Z.gtb_spec (post_divm_of input (Z.of_nat n)) 16000000),
      (Z.leb_spec 8000000 (post_divm_of input (Z.of_nat n))),
      (Z.leb_spec (post_divm_of input (Z.of_nat n)) 16000000);
      simpl orb; simpl andb; cbv iota; try lia;
      try (cbn [scan]; apply IH; lia).
    assert (Hin : 8000000 <= input).
    { unfold post_divm_of in *.
      apply Z.le_trans with (input / (Z.of_nat n + 1)); [lia |].
      apply Z.div_le_upper_bound; [lia | nia]. }
    change (Z.to_nat (DIVP_MAX - DIVP_MIN + 1)) with 128%nat.
    change DIVP_MIN with (Z.of_nat 0).
    rewrite (divp_loop_scan idx input out (Z.of_nat n) bd ps)
      by (assumption || lia).
    fold divp_values.
    destruct (scan idx input out _ bd ps) as [[bd' ps'] | ps'];
      [apply IH; lia | reflexivity].
Qed.

End SearchLoops.

Section SearchClaim.
Context {rmap : rcc_map}.

Lemma in_divm_values (m : Z) : In m divm_values <-> 0 <= m <= 63.
Proof.
  unfold divm_values. rewrite in_map_iff. split.
  - intros (k & <- & Hk). apply in_rev, in_seq in Hk. lia.
  - intros H. exists (Z.to_nat m). split; [lia |].
    apply in_rev. rewrite rev_involutive. apply in_seq. lia.
Qed.

Lemma in_divp_values (p : Z) : In p divp_values <-> 0 <= p <= 127.
Proof.
  unfold divp_values. rewrite in_map_iff. split.
  - intros (k & <- & Hk). apply in_seq in Hk. lia.
  - intros H. exists (Z.to_nat p). split; [lia |]. apply in_seq. lia.
Qed.

(** The search space: every M of 0..63 whose post-M reference is in the
    8-16 MHz window, every P of 0..127 whose derived N is in 24..99, the
    two fractional values of the refinement, kept when the VCO is in
    the 400-800 MHz window. *)
Lemma in_candidates (input out : Z) (c : candidate) :
  In c (candidates input out) <->
  0 <= c_divm c <= 63 /\
  POST_DIVM_MIN <= post_divm_of input (c_divm c) <= POST_DIVM_MAX /\
  0 <= c_divp c <= 127 /\
  c_divn c = divn_of input out (c_divm c) (c_divp c) /\
  DIVN_MIN <= c_divn c <= DIVN_MAX /\
  (c_frac c = frac_of input out (c_divm c) (c_divp c) \/
   c_frac c = frac_of input out (c_divm c) (c_divp c) + 1) /\
  VCO_MIN / 2 <= vco_of input c <= VCO_MAX / 2.
Proof.
  unfold candidates. rewrite in_flat_map. split.
  - intros (m & Hm & Hc). apply in_divm_values in Hm.
    unfold candidates_m in Hc.
    destruct (Z.leb_spec POST_DIVM_MIN (post_divm_of input m)); [| destruct Hc].
    destruct (Z.leb_spec (post_divm_of input m) POST_DIVM_MAX); [| destruct Hc].
    simpl andb in Hc. cbv iota in Hc.
    apply in_flat_map in Hc. destruct Hc as (p & Hp & Hc).
    apply in_divp_values in Hp. unfold candidates_mp in Hc. cbv zeta in Hc.
    destruct (Z.leb_spec DIVN_MIN (divn_of input out m p)); [| destruct Hc].
    destruct (Z.leb_spec (divn_of input out m p) DIVN_MAX); [| destruct Hc].
    simpl andb in Hc. cbv iota in Hc.
    apply filter_In in Hc. destruct Hc as (Hin & Hw).
    unfold vco_in_window in Hw. apply andb_prop in Hw.
    destruct Hw as (Hw1 & Hw2). apply Z.leb_le in Hw1, Hw2.
    destruct Hin as [<- | [<- | []]]; simpl; repeat split; auto; lia.
  - intros (Hm & Hpost & Hp & Hn & Hnr & Hf & Hw).
    exists (c_divm c). split; [apply in_divm_values, Hm |].
    unfold candidates_m.
    destruct (Z.leb_spec POST_DIVM_MIN (post_divm_of input (c_divm c))); [| lia].
    destruct (Z.leb_spec (post_divm_of input (c_divm c)) POST_DIVM_MAX); [| lia].
    simpl andb. cbv iota. apply in_flat_map. exists (c_divp c).
    split; [apply in_divp_values, Hp |].
    unfold candidates_mp. cbv zeta. rewrite <- Hn.
    destruct (Z.leb_spec DIVN_MIN (c_divn c)); [| lia].
    destruct (Z.leb_spec (c_divn c) DIVN_MAX); [| lia].
    simpl andb. cbv iota. apply filter_In. split.
    + destruct c as [m n p f]. simpl in *.
      destruct Hf as [-> | ->]; [left | right; left]; reflexivity.
    + unfold vco_in_window. apply andb_true_intro.
      split; apply Z.leb_le; lia.
Qed.


(** *** What the stores leave in the entry *)

Lemma cfg_row_store_candidate (idx : nat) (c : candidate) (ps : pll_settings) :
  cfg_row (store_candidate idx c ps) idx
  = <[PLLCFG_P := c_divp c]>
      (<[PLLCFG_N := c_divn c]> (<[PLLCFG_M := c_divm c]> (cfg_row ps idx))).
Proof.
  unfold store_candidate, set_frac, cfg_row at 1. cbn [cfg].
  fold (cfg_row (set_cfg idx PLLCFG_P (c_divp c)
                   (set_cfg idx PLLCFG_N (c_divn c)
                      (set_cfg idx PLLCFG_M (c_divm c) ps))) idx).
  rewrite !cfg_row_set_cfg. reflexivity.
Qed.

Lemma cfg_row_search_start (idx : nat) (ps : pll_settings) :
  cfg_row (search_start idx ps) idx
  = <[PLLCFG_O := u32 (PQR 1 0 0)]>
      (<[PLLCFG_R := 0]> (<[PLLCFG_Q := 0]> (cfg_row ps idx))).
Proof. unfold search_start. rewrite !cfg_row_set_cfg. reflexivity. Qed.


Lemma frac_at_set_frac (idx : nat) (v : Z) (ps : pll_settings) :
  (idx < length (frac ps))%nat -> frac_at (set_frac idx v ps) idx = v.
Proof.
  intros H. unfold frac_at, set_frac. cbn [frac].
  rewrite nth_lookup, list_lookup_insert_eq by exact H. reflexivity.
Qed.


(** The entry [idx] after a candidate is recorded on the entry as the
    search starts with it: the row holds M, N, P of the candidate, Q
    and R at 0 and the P output enabled; the fraction is the
    candidate's. *)
Lemma recorded_entry (idx : nat) (c : candidate) (ps : pll_settings) :
  length (cfg_row ps idx) = PLLCFG_NB ->
  (idx < length (frac ps))%nat ->
  let ps' := store_candidate idx c (search_start idx ps) in
  cfg_row ps' idx
  = [c_divm c; c_divn c; c_divp c; 0; 0; u32 (PQR 1 0 0)] /\
  frac_at ps' idx = c_frac c.
Proof.
  intros Hrow Hfrac ps'. subst ps'. split.
  - rewrite cfg_row_store_candidate, cfg_row_search_start.
    destruct (cfg_row ps idx) as [| a [| b [| d [| e [| f [| g [| h row]]]]]]];
      try discriminate Hrow. reflexivity.
  - unfold store_candidate. apply frac_at_set_frac. exact Hfrac.
Qed.




End SearchClaim.

Section SearchExamples.
Local Existing Instances Board.ids Board.rmap Board.plat.

(** 650 MHz from a 24 MHz reference: M = 2, N = 80, P = 0 and the
    fraction 2048 give 650 MHz exactly; they are met first. *)
Example compute_650MHz_from_24MHz :
  match clk_compute_pll1_settings 24000000 0 Board.st_table with
  | Done r s' =>
      r = 0 /\
      cfg_row (pll1_settings s') 0 = [2; 80; 0; 0; 0; 1] /\
      frac_at (pll1_settings s') 0 = 2048
  | Panic => False
  end.
Proof. vm_compute. repeat split. Qed.

Example compute_800MHz_from_24MHz :
  match clk_compute_pll1_settings 24000000 1 Board.st_table with
  | Done r s' =>
      r = 0 /\
      cfg_row (pll1_settings s') 1 = [2; 99; 0; 0; 0; 1] /\
      frac_at (pll1_settings s') 1 = 0
  | Panic => False
  end.
Proof. vm_compute. repeat split. Qed.

(** From a 4 MHz reference no M gives a reference of 8 MHz or more: the
    entry is marked invalid. *)
Example compute_from_4MHz_fails :
  candidates 4000000 650000000 = [] /\
  match clk_compute_pll1_settings 4000000 0 Board.st_table with
  | Done r s' => r = -1 /\ cfg_at (pll1_settings s') 0 PLLCFG_O = 0
  | Panic => False
  end.
Proof. vm_compute. repeat split. Qed.


End SearchExamples.

(** ** Further properties of the gate table and of the gate controller *)

Section GateTable.
Context {ids : clk_ids} {rmap : rcc_map} {plat : clk_platform}.

Lemma gated_id_from_first (gates : list clk_gate) (k id : Z) :
  (gated_id_from gates k id = -1 /\
   forall g, In g gates -> gate_clock_id g <> id) \/
  (exists n g,
     gated_id_from gates k id = k + Z.of_nat n /\
     gates !! n = Some g /\ gate_clock_id g = id /\
     forall m g', (m < n)%nat -> gates !! m = Some g' ->
                  gate_clock_id g' <> id).
Proof.
  revert k. induction gates as [| g gates IH]; intros k; simpl.
  - left. split; [reflexivity |]. intros g [].
  - destruct (Z.eqb_spec (gate_clock_id g) id) as [Heq | Hne].
    + right. exists 0%nat, g. split; [simpl; lia |].
      split; [reflexivity |]. split; [exact Heq |]. intros m g' Hm. lia.
    + destruct (IH (k + 1)) as [(Hr & Hno) | (n & g1 & Hr & Hg1 & Hid & Hbefore)].
      * left. split; [exact Hr |]. intros g' [<- | Hin]; [exact Hne | auto].
      * right. exists (S n), g1. split; [rewrite Hr; lia |].
        split; [exact Hg1 |]. split; [exact Hid |].
        intros m g' Hm Hg'. destruct m as [| m].
        -- simpl in Hg'. injection Hg' as <-. exact Hne.
        -- apply (Hbefore m g'); [lia | exact Hg'].
Qed.

(** X1.  [stm32mp1_clk_get_gated_id] is a first-match search of the gate
    table: it answers -1 exactly when no gate carries the id, and
    otherwise the index of a gate of the table that carries the id, no
    gate before it carrying the id. *)
Theorem gated_id_is_first_match (id : Z) :
  (stm32mp1_clk_get_gated_id id = -1 /\
   forall g, In g stm32mp1_clk_gate -> gate_clock_id g <> id) \/
  (0 <= stm32mp1_clk_get_gated_id id < Z.of_nat NB_GATES /\
   gate_clock_id (gate_ref (stm32mp1_clk_get_gated_id id)) = id /\
   forall j, 0 <= j < stm32mp1_clk_get_gated_id id ->
             gate_clock_id (gate_ref j) <> id).
Proof.
  unfold stm32mp1_clk_get_gated_id.
  destruct (gated_id_from_first stm32mp1_clk_gate 0 id)
    as [H | (n & g & Hr & Hg & Hid & Hbefore)]; [left; exact H | right].
  rewrite Hr, Z.add_0_l. split; [| split].
  - split; [lia |]. apply lookup_lt_Some in Hg. unfold NB_GATES. lia.
  - rewrite (gate_ref_lookup n g Hg). exact Hid.
  - intros j Hj.
    assert (Hlt : (Z.to_nat j < n)%nat) by lia.
    destruct (lookup_lt_is_Some_2 stm32mp1_clk_gate (Z.to_nat j)) as (g' & Hg').
    { apply lookup_lt_Some in Hg. lia. }
    replace j with (Z.of_nat (Z.to_nat j)) by lia.
    rewrite (gate_ref_lookup _ g' Hg'). exact (Hbefore _ g' Hlt Hg').
Qed.

End GateTable.

Lemma lookup_Some_In {A : Type} (l : list A) (i : nat) (x : A) :
  l !! i = Some x -> In x l.
Proof. intros H. apply list_elem_of_In. eapply list_elem_of_lookup_2, H. Qed.

Section GateIsolation.
Context {ids : clk_ids} {rmap : rcc_map} {plat : clk_platform}.

Lemma refcount_set_refcount_ne (s : clk_state) (i j v : Z) :
  0 <= i -> 0 <= j -> i <> j ->
  refcount (set_refcount i v s) j = refcount s j.
Proof.
  intros Hi Hj Hne. unfold refcount, set_refcount. simpl.
  rewrite !nth_lookup, list_lookup_insert_ne by lia. reflexivity.
Qed.

Lemma other_gate_after_enable (i j : nat) (g g' : clk_gate) (r : gmap Z Z) :
  gates_wf ->
  stm32mp1_clk_gate !! i = Some g -> stm32mp1_clk_gate !! j = Some g' ->
  i <> j ->
  __clk_is_enabled g' (__clk_enable g r) = __clk_is_enabled g' r.
Proof.
  intros (Hok & Hdist) Hi Hj Hne.
  rewrite is_enabled_after_enable, (Hdist i j g g' Hi Hj Hne).
  - reflexivity.
  - apply Hok. exact (lookup_Some_In _ _ _ Hi).
  - apply Hok. exact (lookup_Some_In _ _ _ Hj).
Qed.

Lemma other_gate_after_disable (i j : nat) (g g' : clk_gate) (r : gmap Z Z) :
  gates_wf ->
  stm32mp1_clk_gate !! i = Some g -> stm32mp1_clk_gate !! j = Some g' ->
  i <> j ->
  __clk_is_enabled g' (__clk_disable g r) = __clk_is_enabled g' r.
Proof.
  intros (Hok & Hdist) Hi Hj Hne.
  rewrite is_enabled_after_disable, (Hdist i j g g' Hi Hj Hne).
  - reflexivity.
  - apply Hok. exact (lookup_Some_In _ _ _ Hi).
  - apply Hok. exact (lookup_Some_In _ _ _ Hj).
Qed.

(** X2.  [clk_stm32_enable] and [clk_stm32_disable] act on one gate
    only: with a gate table that fits the RCC, whatever the id and
    whatever path the call takes, every gate of the table other than
    the one the id maps to keeps its enable state and its reference
    counter. *)
Theorem gate_switch_is_isolated (id : Z) (s s' : clk_state) :
  gates_wf ->
  (exists r, clk_stm32_enable id s = Done r s') \/
  clk_stm32_disable id s = Done tt s' ->
  forall (j : nat) (g : clk_gate),
    stm32mp1_clk_gate !! j = Some g ->
    Z.of_nat j <> stm32mp1_clk_get_gated_id id ->
    __clk_is_enabled g (rcc_regs s') = __clk_is_enabled g (rcc_regs s) /\
    refcount s' (Z.of_nat j) = refcount s (Z.of_nat j).
Proof.
  intros Hwf Hrun j g Hj Hne.
  set (i := stm32mp1_clk_get_gated_id id) in *.
  assert (Hcase :
    s' = s \/
    (0 <= i /\
     exists r c, rcc_regs s' = r /\
       (r = rcc_regs s \/ r = __clk_enable (gate_ref i) (rcc_regs s)
        \/ r = __clk_disable (gate_ref i) (rcc_regs s)) /\
       gate_refcounts s' = c /\
       (c = gate_refcounts s
        \/ exists v, c = <[Z.to_nat i := v]> (gate_refcounts s)))).
  { destruct Hrun as [(r & Hrun) | Hrun].
    - unfold clk_stm32_enable in Hrun. fold i in Hrun.
      destruct (clock_is_always_on id);
        [left; inversion Hrun; reflexivity |].
      destruct (Z.ltb_spec i 0) as [Hneg | Hpos]; [discriminate Hrun |].
      right. split; [exact Hpos |].
      destruct (gate_is_non_secure (gate_ref i)).
      + inversion Hrun; subst. simpl. eauto 10.
      + unfold bind, gets, modify, wr, ret in Hrun.
        destruct (refcount s i =? 0); inversion Hrun; subst; simpl; eauto 10.
    - unfold clk_stm32_disable in Hrun. fold i in Hrun.
      destruct (clock_is_always_on id);
        [left; inversion Hrun; reflexivity |].
      destruct (Z.ltb_spec i 0) as [Hneg | Hpos]; [discriminate Hrun |].
      destruct (gate_is_non_secure (gate_ref i));
        [left; inversion Hrun; reflexivity |].
      right. split; [exact Hpos |].
      unfold bind, gets, modify, wr, ret, assert in Hrun.
      destruct (negb (refcount s i =? 0)); [| discriminate Hrun].
      unfold bind, ret in Hrun.
      destruct (refcount (set_refcount i (u32 (refcount s i - 1)) s) i =? 0);
        inversion Hrun; subst; simpl; eauto 10. }
  destruct Hcase as [-> | (Hpos & r & c & Hr & Hrc & Hc & Hcc)];
    [split; reflexivity |].
  split.
  - rewrite Hr. destruct Hrc as [-> | [-> | ->]]; [reflexivity | |].
    + destruct (gated_id_spec id i eq_refl Hpos) as (Hgi & _).
      apply (other_gate_after_enable (Z.to_nat i) j (gate_ref i) g); auto.
      lia.
    + destruct (gated_id_spec id i eq_refl Hpos) as (Hgi & _).
      apply (other_gate_after_disable (Z.to_nat i) j (gate_ref i) g); auto.
      lia.
  - unfold refcount. rewrite Hc.
    destruct Hcc as [-> | (v & ->)]; [reflexivity |].
    rewrite !nth_lookup, list_lookup_insert_ne by lia. reflexivity.
Qed.

(** X3.  On a gate of the secure class, [clk_stm32_enable] followed by
    [clk_stm32_disable] is a round trip: the reference counters are
    what they were; when the gate was already referenced the whole
    state, registers included, is what it was; when it was not, the
    gate is off at the end. *)
Theorem enable_then_disable_is_round_trip (id i c : Z) (s : clk_state) :
  gate_is_non_secure (gate_ref i) = false ->
  gate_hw_ok (gate_ref i) ->
  counted id i c s ->
  0 <= c < UINT_MAX ->
  exists s',
    (clk_stm32_enable id ;;; clk_stm32_disable id) s = Done tt s' /\
    gate_refcounts s' = gate_refcounts s /\
    (0 < c -> s' = s) /\
    (c = 0 -> __clk_is_enabled (gate_ref i) (rcc_regs s') = false).
Proof.
  intros Hsec Hok (Hg & Hrc & Hen) Hc.
  pose proof Hg as (Hao & Hi & Hpos & Hlen).
  unfold bind at 1. rewrite (enable_secure_step id i s Hg Hsec).
  set (s1 := set_refcount i _ _).
  assert (Hlen1 : (Z.to_nat i < length (gate_refcounts s1))%nat).
  { subst s1. rewrite set_refcount_length.
    destruct (refcount s i =? 0); exact Hlen. }
  assert (Hg1 : gated_at id i s1) by (repeat split; assumption).
  assert (Hrc1 : refcount s1 i = c + 1).
  { subst s1. rewrite refcount_set_refcount
      by (destruct (refcount s i =? 0); exact Hlen).
    rewrite Hrc. apply u32_small. unfold UINT_MAX in Hc. lia. }
  rewrite (disable_secure_step id i s1 Hg1 Hsec) by lia.
  rewrite Hrc1. replace (c + 1 - 1) with c by lia.
  rewrite (u32_small c) by (unfold UINT_MAX in Hc; lia).
  cbv zeta. eexists. split; [reflexivity |].
  assert (Hl : gate_refcounts s !! Z.to_nat i = Some c).
  { destruct (lookup_lt_is_Some_2 _ _ Hlen) as (x & Hx).
    rewrite Hx. f_equal. rewrite <- Hrc. unfold refcount.
    rewrite nth_lookup, Hx. reflexivity. }
  assert (Hcounts :
    <[Z.to_nat i := c]> (gate_refcounts s1) = gate_refcounts s).
  { subst s1. unfold set_refcount. simpl.
    rewrite list_insert_insert_eq.
    destruct (refcount s i =? 0); simpl; apply list_insert_id; exact Hl. }
  split; [| split].
  - destruct (c =? 0); simpl; exact Hcounts.
  - intros Hc0. destruct (Z.eqb_spec c 0) as [? | _]; [lia |].
    unfold set_refcount at 1. rewrite Hcounts.
    subst s1. rewrite Hrc. destruct (Z.eqb_spec c 0) as [? | _]; [lia |].
    destruct s; reflexivity.
  - intros ->. simpl.
    rewrite is_enabled_after_disable, same_bit_refl by exact Hok.
    reflexivity.
Qed.

End GateIsolation.

Section GateIsolationExamples.
Local Existing Instances Board.ids Board.rmap Board.plat.

(** Enabling TZPC, the gate 18, leaves the gate 12 (bit 2 of the same
    register) as it was. *)
Lemma gate_switch_is_isolated_witness :
  gates_wf /\
  exists s',
    clk_stm32_enable Board.TZPC Board.st0 = Done TEE_SUCCESS s' /\
    __clk_is_enabled (gate_ref 12) (rcc_regs s')
    = __clk_is_enabled (gate_ref 12) (rcc_regs Board.st0) /\
    refcount s' 12 = refcount Board.st0 12.
Proof.
  split; [exact board_gates_wf |].
  destruct (clk_stm32_enable Board.TZPC Board.st0) as [r s' |] eqn:Hrun;
    [| discriminate Hrun].
  exists s'.
  assert (Hr : r = TEE_SUCCESS).
  { vm_compute in Hrun. inversion Hrun. reflexivity. }
  subst r. split; [reflexivity |].
  assert (Hg : stm32mp1_clk_gate !! 12%nat = Some (gate_ref 12))
    by reflexivity.
  assert (Hne : Z.of_nat 12 <> stm32mp1_clk_get_gated_id Board.TZPC)
    by discriminate.
  exact (gate_switch_is_isolated Board.TZPC Board.st0 s' board_gates_wf
           (or_introl (ex_intro _ TEE_SUCCESS Hrun)) 12%nat (gate_ref 12)
           Hg Hne).
Defined.

Lemma TZPC_counted : counted Board.TZPC 18 0 Board.st0.
Proof.
  split; [exact TZPC_gated_at |]. split; [reflexivity |]. intros H. lia.
Defined.

Lemma enable_then_disable_is_round_trip_witness :
  gate_is_non_secure (gate_ref 18) = false /\
  gate_hw_ok (gate_ref 18) /\
  counted Board.TZPC 18 0 Board.st0 /\
  0 <= 0 < UINT_MAX /\
  exists s',
    (clk_stm32_enable Board.TZPC ;;; clk_stm32_disable Board.TZPC) Board.st0
    = Done tt s' /\
    gate_refcounts s' = gate_refcounts Board.st0 /\
    (0 < 0 -> s' = Board.st0) /\
    (0 = 0 -> __clk_is_enabled (gate_ref 18) (rcc_regs s') = false).
Proof.
  assert (Hsec : gate_is_non_secure (gate_ref 18) = false) by reflexivity.
  assert (Hc : 0 <= 0 < UINT_MAX) by (unfold UINT_MAX; lia).
  split; [exact Hsec |]. split; [exact TZPC_gate_hw_ok |].
  split; [exact TZPC_counted |]. split; [exact Hc |].
  exact (enable_then_disable_is_round_trip Board.TZPC 18 0 Board.st0
           Hsec TZPC_gate_hw_ok TZPC_counted Hc).
Defined.

End GateIsolationExamples.

(** ** Further properties of the rate resolver and of the PLL engine *)

Lemma u32_bits (x n : Z) : Z.testbit (u32 x) n = (n <? 32) && Z.testbit x n.
Proof. unfold u32. apply Z.testbit_mod_pow2. lia. Qed.

Lemma not32_bits (x n : Z) :
  0 <= n -> Z.testbit (not32 x) n = (n <? 32) && negb (Z.testbit x n).
Proof. intros H. unfold not32. rewrite u32_bits, Z.lnot_spec by exact H. reflexivity. Qed.

(** Equality of two integers, bit by bit, through the 32-bit wrappers. *)
Ltac bitwise :=
  apply Z.bits_inj'; intros ?n ?Hn;
  repeat (rewrite ?u32_bits, ?Z.lor_spec, ?Z.land_spec, ?Z.bits_0;
          rewrite ?not32_bits by assumption);
  repeat match goal with
    | |- context [?a <? 32] => destruct (a <? 32)
    | |- context [Z.testbit ?a ?b] => destruct (Z.testbit a b)
    end; reflexivity.

Lemma u32_lor (a b : Z) : u32 (Z.lor a b) = Z.lor (u32 a) (u32 b).
Proof. bitwise. Qed.

Lemma u32_land_l (a b : Z) : u32 (Z.land a b) = Z.land (u32 a) b.
Proof. bitwise. Qed.

Lemma u32_land_u32 (a m : Z) : u32 (Z.land (u32 a) m) = Z.land (u32 a) m.
Proof. bitwise. Qed.

Lemma shiftr_le (x k : Z) : 0 <= x -> 0 <= k -> Z.shiftr x k <= x.
Proof.
  intros Hx Hk. rewrite Z.shiftr_div_pow2 by exact Hk.
  assert (0 < 2 ^ k) by (apply Z.pow_pos_nonneg; lia).
  apply Z.div_le_upper_bound; [lia | nia].
Qed.

Section RegisterFacts.
Context {rmap : rcc_map} {plat : clk_platform}.

Lemma reg_target_plain (off : Z) : plain_register off -> reg_target off = off.
Proof. intros (H1 & H2). unfold reg_target. rewrite H1, H2. reflexivity. Qed.

Lemma io_write32_plain (off v : Z) (r : gmap Z Z) :
  plain_register off -> io_write32 off v r = <[off := u32 v]> r.
Proof. intros (H1 & H2). unfold io_write32. rewrite H1, H2. reflexivity. Qed.

Lemma io_read32_insert_eq (off V : Z) (r : gmap Z Z) :
  reg_target off = off -> io_read32 off (<[off := V]> r) = u32 V.
Proof.
  intros H. unfold io_read32. rewrite H, lookup_insert_eq. reflexivity.
Qed.

Lemma io_read32_insert_ne (off k V : Z) (r : gmap Z Z) :
  reg_target off <> k -> io_read32 off (<[k := V]> r) = io_read32 off r.
Proof.
  intros H. unfold io_read32. rewrite lookup_insert_ne by congruence.
  reflexivity.
Qed.

Lemma io_read32_idem (off : Z) (r : gmap Z Z) :
  u32 (io_read32 off r) = io_read32 off r.
Proof. apply u32_idem. Qed.

End RegisterFacts.

Section RateFacts.
Context {ids : clk_ids} {rmap : rcc_map} {plat : clk_platform}.

Lemma get_timer_rate_state (rate bus r : Z) (s s' : clk_state) :
  get_timer_rate rate bus s = Done r s' -> s' = s.
Proof.
  unfold get_timer_rate, bind, rd, gets, ret, panic.
  repeat match goal with
    | |- context [if ?b then _ else _] => destruct b
    end; intros H; inversion H; reflexivity.
Qed.

(** X4.  [clk_stm32_get_rate] only reads: when it returns, the state of
    the driver and of the RCC is what it was, and the rate fits the
    [unsigned long] of the platform. *)
Theorem get_rate_only_reads (id r : Z) (s s' : clk_state) :
  clk_stm32_get_rate id s = Done r s' ->
  s' = s /\ 0 <= r < 2 ^ 32.
Proof.
  unfold clk_stm32_get_rate. unfold bind at 1.
  destruct (__clk_get_parent id s) as [p s1 |] eqn:Hp; [| discriminate].
  apply clk_get_parent_state in Hp. subst s1.
  destruct (Z.ltb_spec (u32 p) 0) as [Hneg | _].
  { pose proof (u32_range p). lia. }
  unfold bind at 1. unfold gets at 1.
  pose proof (clk_get_parent_rate_range (u32 p) s) as Hrate.
  set (rate := __clk_get_parent_rate (u32 p) s) in *. clearbody rate.
  unfold bind at 1.
  assert (H1 : forall (b : bool) (bus : Z) (rate : Z) a s1,
             0 <= rate < 2 ^ 32 ->
             (if b then r0 <- get_timer_rate (s32 rate) bus ;; ret (u32 r0)
              else ret rate) s = Done a s1 ->
             s1 = s /\ 0 <= a < 2 ^ 32).
  { intros b bus rate0 a s1 Hr0 H. destruct b.
    - unfold bind in H.
      destruct (get_timer_rate (s32 rate0) bus s) as [r0 s2 |] eqn:Ht;
        [| discriminate H].
      apply get_timer_rate_state in Ht. subst s2.
      inversion H; subst. split; [reflexivity | apply u32_range].
    - inversion H; subst. split; [reflexivity | exact Hr0]. }
  match goal with
  | |- match ?c s with _ => _ end = _ -> _ =>
      destruct (c s) as [a1 s1 |] eqn:Ha1; [| discriminate]
  end.
  apply H1 in Ha1; [| exact Hrate]. destruct Ha1 as (-> & Ha1).
  unfold bind at 1.
  match goal with
  | |- match ?c s with _ => _ end = _ -> _ =>
      destruct (c s) as [a2 s2 |] eqn:Ha2; [| discriminate]
  end.
  apply H1 in Ha2; [| exact Ha1]. destruct Ha2 as (-> & Ha2).
  intros H. inversion H; subst. split; [reflexivity | exact Ha2].
Qed.

Lemma apbx_shift_le (divr clock : Z) (s : clk_state) :
  0 <= clock -> apbx_shift divr clock s <= clock.
Proof.
  intros H. unfold apbx_shift. apply shiftr_le; [exact H |].
  apply apbx_div_nonneg.
Qed.

(** X5.  The rate resolver never reports a peripheral bus faster than
    the bus it is derived from: PCLK4 and PCLK5 are at most ACLK, which
    is also the rate of HCLK2 and HCLK6; PCLK1, PCLK2 and PCLK3 are at
    most the MCU clock; the halved HSE kernel clock is at most HSE. *)
Theorem bus_clock_hierarchy (s : clk_state) :
  __clk_get_parent_rate _PCLK4 s <= __clk_get_parent_rate _ACLK s /\
  __clk_get_parent_rate _PCLK5 s <= __clk_get_parent_rate _ACLK s /\
  __clk_get_parent_rate _HCLK2 s = __clk_get_parent_rate _ACLK s /\
  __clk_get_parent_rate _HCLK6 s = __clk_get_parent_rate _ACLK s /\
  __clk_get_parent_rate _PCLK1 s <= __clk_get_parent_rate _CK_MCU s /\
  __clk_get_parent_rate _PCLK2 s <= __clk_get_parent_rate _CK_MCU s /\
  __clk_get_parent_rate _PCLK3 s <= __clk_get_parent_rate _CK_MCU s /\
  __clk_get_parent_rate _HSE_KER_DIV2 s <= __clk_get_parent_rate _HSE_KER s.
Proof.
  pose proof (clk_get_parent_rate_range _ACLK s) as Ha.
  pose proof (clk_get_parent_rate_range _CK_MCU s) as Hm.
  pose proof (clk_get_parent_rate_range _HSE_KER s) as Hh.
  unfold __clk_get_parent_rate in *. cbn [parent_of_Z] in *.
  change (parent_of_Z _ACLK) with (Some P_ACLK) in *.
  change (parent_of_Z _PCLK4) with (Some P_PCLK4).
  change (parent_of_Z _PCLK5) with (Some P_PCLK5).
  change (parent_of_Z _HCLK2) with (Some P_HCLK2).
  change (parent_of_Z _HCLK6) with (Some P_HCLK6).
  change (parent_of_Z _CK_MCU) with (Some P_CK_MCU) in *.
  change (parent_of_Z _PCLK1) with (Some P_PCLK1).
  change (parent_of_Z _PCLK2) with (Some P_PCLK2).
  change (parent_of_Z _PCLK3) with (Some P_PCLK3).
  change (parent_of_Z _HSE_KER) with (Some P_HSE_KER) in *.
  change (parent_of_Z _HSE_KER_DIV2) with (Some P_HSE_KER_DIV2).
  cbv iota beta zeta in *.
  repeat split; try reflexivity;
    try (apply apbx_shift_le; lia); apply shiftr_le; lia.
Qed.

End RateFacts.

Section PllFacts.
Context {ids : clk_ids} {rmap : rcc_map} {plat : clk_platform}.

Lemma compute_pllxcfgr1_ext (pll : clk_pll) (pllcfg : list Z)
    (s s' : clk_state) :
  io_read32 (rckxselr pll) (rcc_regs s')
  = io_read32 (rckxselr pll) (rcc_regs s) ->
  stm32mp1_osc s' = stm32mp1_osc s ->
  pll_compute_pllxcfgr1 pll pllcfg s' = pll_compute_pllxcfgr1 pll pllcfg s.
Proof.
  intros Hr Ho. unfold pll_compute_pllxcfgr1, osc_frequency.
  rewrite Hr, Ho. reflexivity.
Qed.

Lemma compute_pllxcfgr1_u32 (pll : clk_pll) (pllcfg : list Z)
    (s : clk_state) (v : Z) :
  pll_compute_pllxcfgr1 pll pllcfg s = Some v -> u32 v = v.
Proof.
  unfold pll_compute_pllxcfgr1.
  destruct (_ || _); [discriminate |]. intros H. injection H as <-.
  bitwise.
Qed.

Lemma compute_pllxcfgr2_u32 (pllcfg : list Z) :
  u32 (pll_compute_pllxcfgr2 pllcfg) = pll_compute_pllxcfgr2 pllcfg.
Proof. unfold pll_compute_pllxcfgr2. bitwise. Qed.

(** X6.  Programming a PLL and asking whether it must be reprogrammed
    compose as expected.  When the divider registers of the PLL are
    plain registers, all different: a failing [pll_config] (-1) leaves
    the state as it was; after a successful one the three registers
    read back as the values computed from the settings,
    [is_pll_config_on_the_fly] for the same settings answers 1, same
    parameters as those in place, and the variables of the driver are
    untouched. *)
Theorem pll_config_then_on_the_fly (p : pll_id) (pllcfg : list Z)
    (fracv r : Z) (s s' : clk_state) :
  pll_registers_ok p ->
  0 <= RCC_PLLNFRACR_FRACLE < 2 ^ 32 ->
  pll_config p pllcfg fracv s = Done r s' ->
  (r = -1 /\ s' = s /\ pll_compute_pllxcfgr1 (pll_ref p) pllcfg s = None) \/
  (r = 0 /\
   pll_compute_pllxcfgr1 (pll_ref p) pllcfg s
   = Some (io_read32 (pllxcfgr1 (pll_ref p)) (rcc_regs s')) /\
   io_read32 (pllxcfgr2 (pll_ref p)) (rcc_regs s')
   = pll_compute_pllxcfgr2 pllcfg /\
   io_read32 (pllxfracr (pll_ref p)) (rcc_regs s')
   = Z.lor (u32 (Z.shiftl fracv RCC_PLLNFRACR_FRACV_SHIFT))
       RCC_PLLNFRACR_FRACLE /\
   is_pll_config_on_the_fly p pllcfg fracv s' = Some 1 /\
   driver_vars s' = driver_vars s).
Proof.
  intros (P1 & P2 & P3 & D12 & D13 & D23 & S1 & S2 & S3) Hle.
  unfold pll_config, bind, gets.
  destruct (pll_compute_pllxcfgr1 (pll_ref p) pllcfg s) as [value |] eqn:Hc.
  2:{ intros H. inversion H; subst. left. auto. }
  unfold pll_config_output, wr, rd, modify, gets, ret. cbn [rcc_regs set_rcc_regs].
  intros H. inversion H; subst. clear H. right.
  pose proof (compute_pllxcfgr1_u32 _ _ _ _ Hc) as Hv.
  rewrite !(io_write32_plain _ _ _ P1), !(io_write32_plain _ _ _ P2),
    !(io_write32_plain _ _ _ P3).
  pose proof (reg_target_plain _ P1) as T1.
  pose proof (reg_target_plain _ P2) as T2.
  pose proof (reg_target_plain _ P3) as T3.
  set (pll := pll_ref p) in *.
  assert (R1 : forall r0 a b c d e,
    io_read32 (pllxcfgr1 pll)
      (<[pllxcfgr2 pll := a]>
         (<[pllxfracr pll := b]>
            (<[pllxfracr pll := c]>
               (<[pllxfracr pll := d]> (<[pllxcfgr1 pll := e]> r0)))))
    = u32 e).
  { intros. rewrite !io_read32_insert_ne by congruence.
    apply io_read32_insert_eq, T1. }
  assert (R2 : forall r0 a, io_read32 (pllxcfgr2 pll) (<[pllxcfgr2 pll := a]> r0)
                            = u32 a)
    by (intros; apply io_read32_insert_eq, T2).
  assert (R3 : forall r0 a b,
    io_read32 (pllxfracr pll) (<[pllxcfgr2 pll := a]> (<[pllxfracr pll := b]> r0))
    = u32 b).
  { intros. rewrite io_read32_insert_ne by congruence.
    apply io_read32_insert_eq, T3. }
  assert (RS : forall r0 a b c d e,
    io_read32 (rckxselr pll)
      (<[pllxcfgr2 pll := a]>
         (<[pllxfracr pll := b]>
            (<[pllxfracr pll := c]>
               (<[pllxfracr pll := d]> (<[pllxcfgr1 pll := e]> r0)))))
    = io_read32 (rckxselr pll) r0).
  { intros. rewrite !io_read32_insert_ne by congruence. reflexivity. }
  assert (Hfrac :
    u32 (Z.lor (io_read32 (pllxfracr pll)
                  (<[pllxfracr pll := u32 (u32 (Z.shiftl fracv
                                                  RCC_PLLNFRACR_FRACV_SHIFT))]>
                     (<[pllxfracr pll := u32 value]>
                        (<[pllxcfgr1 pll := u32 value]> (rcc_regs s)))))
           RCC_PLLNFRACR_FRACLE)
    = Z.lor (u32 (Z.shiftl fracv RCC_PLLNFRACR_FRACV_SHIFT))
        RCC_PLLNFRACR_FRACLE).
  { rewrite (io_read32_insert_eq _ _ _ T3), !u32_idem, u32_lor, u32_idem.
    rewrite (u32_small RCC_PLLNFRACR_FRACLE) by exact Hle. reflexivity. }
  cbn [rcc_regs set_rcc_regs].
  match goal with
  | |- _ /\ _ = Some (io_read32 _ ?R) /\ _ => set (regs' := R)
  end.
  assert (E1 : io_read32 (pllxcfgr1 pll) regs' = value)
    by (subst regs'; rewrite R1, u32_idem; exact Hv).
  assert (E2 : io_read32 (pllxcfgr2 pll) regs' = pll_compute_pllxcfgr2 pllcfg)
    by (subst regs'; rewrite R2, u32_idem; apply compute_pllxcfgr2_u32).
  assert (E3 : io_read32 (pllxfracr pll) regs'
               = Z.lor (u32 (Z.shiftl fracv RCC_PLLNFRACR_FRACV_SHIFT))
                   RCC_PLLNFRACR_FRACLE)
    by (subst regs'; rewrite R3, u32_idem; exact Hfrac).
  assert (ES : io_read32 (rckxselr pll) regs'
               = io_read32 (rckxselr pll) (rcc_regs s))
    by (subst regs'; apply RS).
  clearbody regs'.
  split; [reflexivity |]. split; [rewrite E1; reflexivity |].
  split; [exact E2 |]. split; [exact E3 |]. split; [| reflexivity].
  unfold is_pll_config_on_the_fly. fold pll.
  rewrite (compute_pllxcfgr1_ext pll pllcfg s);
    [| cbn [rcc_regs set_rcc_regs]; exact ES | reflexivity].
  rewrite Hc. cbn [rcc_regs set_rcc_regs].
  rewrite E1, E2, E3, !Z.eqb_refl. reflexivity.
Qed.

(** X7.  After [pll_stop] returns, with 0 or with -1, the enable bit
    and the three output enables of the PLL read 0, provided the
    control register is a plain register and the ready flag is none of
    these bits; and it returns 0 only when the ready flag reads set:
    the wait loop of [pll_stop] is the one of [pll_output]. *)
Theorem pll_stop_clears_enables (p : pll_id) (r : Z) (s s' : clk_state) :
  plain_register (pllxcr (pll_ref p)) ->
  0 <= RCC_PLLNCR_PLLRDY < 2 ^ 32 ->
  Z.land RCC_PLLNCR_PLLRDY
    (Z.lor RCC_PLLNCR_PLLON
       (Z.lor (Z.lor RCC_PLLNCR_DIVPEN RCC_PLLNCR_DIVQEN)
          RCC_PLLNCR_DIVREN)) = 0 ->
  pll_stop p s = Done r s' ->
  Z.land (io_read32 (pllxcr (pll_ref p)) (rcc_regs s'))
    (Z.lor RCC_PLLNCR_PLLON
       (Z.lor (Z.lor RCC_PLLNCR_DIVPEN RCC_PLLNCR_DIVQEN)
          RCC_PLLNCR_DIVREN)) = 0 /\
  (r = 0 \/ r = -1) /\
  (r = 0 ->
   Z.land (io_read32 (pllxcr (pll_ref p)) (rcc_regs s')) RCC_PLLNCR_PLLRDY
   = RCC_PLLNCR_PLLRDY) /\
  driver_vars s' = driver_vars s.
Proof.
  intros Hp Hrdy Hdisj. pose proof (reg_target_plain _ Hp) as T.
  set (cr := pllxcr (pll_ref p)) in *.
  set (m3 := Z.lor (Z.lor RCC_PLLNCR_DIVPEN RCC_PLLNCR_DIVQEN)
               RCC_PLLNCR_DIVREN) in *.
  unfold pll_stop. fold cr. fold m3.
  unfold bind, wr, modify, io_clrbits32. cbn [rcc_regs set_rcc_regs].
  rewrite !(io_write32_plain _ _ _ Hp).
  rewrite !io_read32_insert_eq by exact T.
  set (v := io_read32 cr (rcc_regs s)). clearbody v m3.
  unfold wait_flag. cbn [hw_ready set_rcc_regs rcc_regs].
  assert (Hbits : forall n, 0 <= n ->
            Z.testbit RCC_PLLNCR_PLLRDY n
            && (Z.testbit RCC_PLLNCR_PLLON n || Z.testbit m3 n) = false).
  { intros n Hn. rewrite <- Z.lor_spec, <- Z.land_spec, Hdisj.
    apply Z.bits_0. }
  assert (Hhigh : forall n, 32 <= n -> Z.testbit RCC_PLLNCR_PLLRDY n = false).
  { intros n H32. rewrite <- (u32_small _ Hrdy), u32_bits.
    destruct (Z.ltb_spec n 32); [lia | reflexivity]. }
  destruct (hw_ready s) as [| [|] h]; cbn [negb]; unfold ret;
    intros H; inversion H; subst; clear H;
    cbn [rcc_regs set_rcc_regs set_hw_ready];
    rewrite ?T; rewrite !io_read32_insert_eq by exact T;
    (split; [| split; [auto | split; [| reflexivity]]]);
    try discriminate; try intros _;
    apply Z.bits_inj'; intros n Hn;
    specialize (Hbits n Hn); specialize (Hhigh n); revert Hbits Hhigh;
    repeat (rewrite ?u32_bits, ?Z.lor_spec, ?Z.land_spec, ?Z.bits_0;
            rewrite ?not32_bits by assumption);
    destruct (Z.ltb_spec n 32), (Z.testbit v n), (Z.testbit m3 n),
      (Z.testbit RCC_PLLNCR_PLLON n), (Z.testbit RCC_PLLNCR_PLLRDY n);
    cbn; intros Hb Hh; try reflexivity; try discriminate Hb;
    try (specialize (Hh ltac:(lia)); discriminate Hh).
Qed.

End PllFacts.

Section RateExamples.
Local Existing Instances Board.ids Board.rmap Board.plat.

Lemma get_rate_only_reads_witness :
  clk_stm32_get_rate CK_HSI Board.st0 = Done 64000000 Board.st0 /\
  Board.st0 = Board.st0 /\ 0 <= 64000000 < 2 ^ 32.
Proof.
  assert (H : clk_stm32_get_rate CK_HSI Board.st0 = Done 64000000 Board.st0)
    by reflexivity.
  split; [exact H |].
  exact (get_rate_only_reads CK_HSI 64000000 Board.st0 Board.st0 H).
Defined.

Lemma board_pll1_registers_ok : pll_registers_ok _PLL1.
Proof. repeat split; discriminate. Defined.

(** PLL1 is programmed with the settings of the operating point of
    650 MHz. *)
Lemma pll_config_then_on_the_fly_witness :
  pll_registers_ok _PLL1 /\
  0 <= RCC_PLLNFRACR_FRACLE < 2 ^ 32 /\
  exists s',
    pll_config _PLL1 [2; 80; 0; 0; 0; 1] 2048 (Board.st_650 []) = Done 0 s' /\
    is_pll_config_on_the_fly _PLL1 [2; 80; 0; 0; 0; 1] 2048 s' = Some 1.
Proof.
  assert (Hle : 0 <= RCC_PLLNFRACR_FRACLE < 2 ^ 32) by (cbn; lia).
  split; [exact board_pll1_registers_ok |]. split; [exact Hle |].
  destruct (pll_config _PLL1 [2; 80; 0; 0; 0; 1] 2048 (Board.st_650 []))
    as [r s' |] eqn:Hrun; [| discriminate Hrun].
  assert (Hr : r = 0) by (vm_compute in Hrun; inversion Hrun; reflexivity).
  subst r. exists s'. split; [reflexivity |].
  destruct (pll_config_then_on_the_fly _PLL1 [2; 80; 0; 0; 0; 1] 2048 0
              (Board.st_650 []) s' board_pll1_registers_ok Hle Hrun)
    as [(H0 & _) | (_ & _ & _ & _ & H & _)]; [discriminate H0 | exact H].
Defined.

Lemma pll_stop_clears_enables_witness :
  plain_register (pllxcr (pll_ref _PLL1)) /\
  0 <= RCC_PLLNCR_PLLRDY < 2 ^ 32 /\
  exists s',
    pll_stop _PLL1 (Board.st_650 [true]) = Done 0 s' /\
    Z.land (io_read32 (pllxcr (pll_ref _PLL1)) (rcc_regs s'))
      (Z.lor RCC_PLLNCR_PLLON
         (Z.lor (Z.lor RCC_PLLNCR_DIVPEN RCC_PLLNCR_DIVQEN)
            RCC_PLLNCR_DIVREN)) = 0.
Proof.
  assert (Hp : plain_register (pllxcr (pll_ref _PLL1)))
    by (split; reflexivity).
  assert (Hr : 0 <= RCC_PLLNCR_PLLRDY < 2 ^ 32) by (cbn; lia).
  assert (Hd : Z.land RCC_PLLNCR_PLLRDY
                 (Z.lor RCC_PLLNCR_PLLON
                    (Z.lor (Z.lor RCC_PLLNCR_DIVPEN RCC_PLLNCR_DIVQEN)
                       RCC_PLLNCR_DIVREN)) = 0) by reflexivity.
  split; [exact Hp |]. split; [exact Hr |].
  destruct (pll_stop _PLL1 (Board.st_650 [true])) as [r s' |] eqn:Hrun;
    [| discriminate Hrun].
  assert (H0 : r = 0) by (vm_compute in Hrun; inversion Hrun; reflexivity).
  subst r. exists s'. split; [reflexivity |].
  exact (proj1 (pll_stop_clears_enables _PLL1 0 (Board.st_650 [true]) s'
                  Hp Hr Hd Hrun)).
Defined.

End RateExamples.

(** ** Further properties of the operating point manager *)

Section OppFacts.
Context {ids : clk_ids} {rmap : rcc_map} {plat : clk_platform}.

Lemma find_opp_spec (ps : pll_settings) (f : Z) (n : nat) :
  forall idx : nat,
    let i := find_opp n idx f ps in
    (idx <= i <= idx + n)%nat /\
    ((i < idx + n)%nat -> freq_at ps i = f) /\
    (forall j, (idx <= j < i)%nat -> freq_at ps j <> f).
Proof.
  induction n as [| n IH]; intros idx; simpl.
  - split; [lia |]. split; [lia |]. intros j Hj. lia.
  - destruct (Z.eqb_spec (freq_at ps idx) f) as [Heq | Hne].
    + split; [lia |]. split; [intros _; exact Heq |]. intros j Hj. lia.
    + destruct (IH (S idx)) as (Hr & Hf & Hb). cbv zeta in *.
      split; [lia |]. split; [intros Hlt; apply Hf; lia |].
      intros j Hj. destruct (Nat.eq_dec j idx) as [-> | Hj'];
        [exact Hne | apply Hb; lia].
Qed.

(** X8.  [stm32mp1_get_mpu_div], for a frequency that is not 0, leaves
    the state as it is and answers the divider code [d] of 0 to 4
    exactly when the P output of PLL1, in kHz, is the frequency times
    2 ^ d; it answers -1 exactly when no such code exists. *)
Theorem get_mpu_div_is_exact (freq_khz : Z) (s : clk_state) :
  0 < freq_khz ->
  let pll1_p_khz := __clk_get_parent_rate _PLL1_P s / 1000 in
  exists d,
    stm32mp1_get_mpu_div freq_khz s = Done d s /\
    ((0 <= d <= 4 /\ pll1_p_khz = freq_khz * 2 ^ d) \/
     (d = -1 /\ forall k, 0 <= k <= 4 -> pll1_p_khz <> freq_khz * 2 ^ k)).
Proof.
  intros Hf pll1_p_khz.
  unfold stm32mp1_get_mpu_div, bind, gets, ret. fold pll1_p_khz.
  destruct (Z.eqb_spec freq_khz 0) as [? | _]; [lia |].
  clearbody pll1_p_khz.
  assert (Hpow : forall k, 0 <= k <= 4 ->
            2 ^ k = 1 \/ 2 ^ k = 2 \/ 2 ^ k = 4 \/ 2 ^ k = 8 \/ 2 ^ k = 16).
  { intros k Hk.
    assert (Hc : k = 0 \/ k = 1 \/ k = 2 \/ k = 3 \/ k = 4) by lia.
    destruct Hc as [-> | [-> | [-> | [-> | ->]]]]; cbn; lia. }
  destruct (Z.eqb_spec (pll1_p_khz mod freq_khz) 0) as [Hm | Hm]; cbn [negb].
  - assert (He : pll1_p_khz = freq_khz * (pll1_p_khz / freq_khz)).
    { pose proof (Z.div_mod pll1_p_khz freq_khz ltac:(lia)). lia. }
    set (q := pll1_p_khz / freq_khz) in *.
    destruct (Z.eqb_spec q 1) as [H1 | H1];
      [exists 0; split; [reflexivity | left; rewrite He, H1; cbn; lia] |].
    destruct (Z.eqb_spec q 2) as [H2 | H2];
      [exists 1; split; [reflexivity | left; rewrite He, H2; cbn; lia] |].
    destruct (Z.eqb_spec q 4) as [H4 | H4];
      [exists 2; split; [reflexivity | left; rewrite He, H4; cbn; lia] |].
    destruct (Z.eqb_spec q 8) as [H8 | H8];
      [exists 3; split; [reflexivity | left; rewrite He, H8; cbn; lia] |].
    destruct (Z.eqb_spec q 16) as [H16 | H16];
      [exists 4; split; [reflexivity | left; rewrite He, H16; cbn; lia] |].
    exists (-1). split; [reflexivity |]. right. split; [reflexivity |].
    intros k Hk Hk'. rewrite He in Hk'.
    apply Z.mul_reg_l in Hk'; [| lia].
    destruct (Hpow k Hk) as [E | [E | [E | [E | E]]]]; lia.
  - exists (-1). split; [reflexivity |]. right. split; [reflexivity |].
    intros k Hk Hk'. apply Hm. rewrite Hk', Z.mul_comm.
    apply Z.mod_mul. lia.
Qed.

(** X9.  [pll1_config_from_opp_khz] refuses a frequency that the OPP
    table does not hold: it returns -1 and touches neither the PLL nor
    any other register or variable. *)
Theorem opp_config_unknown_frequency (freq_khz : Z) (s : clk_state) :
  (forall j, (j < PLAT_MAX_OPP_NB)%nat ->
             freq_at (pll1_settings s) j <> freq_khz) ->
  pll1_config_from_opp_khz freq_khz s = Done (-1) s.
Proof.
  intros Hno. unfold pll1_config_from_opp_khz, bind, gets.
  destruct (find_opp_spec (pll1_settings s) freq_khz PLAT_MAX_OPP_NB 0%nat)
    as (Hr & Hf & _). cbv zeta in *.
  destruct (Nat.eqb_spec
              (find_opp PLAT_MAX_OPP_NB 0 freq_khz (pll1_settings s))
              PLAT_MAX_OPP_NB) as [_ | Hne]; [reflexivity |].
  exfalso. apply (Hno (find_opp PLAT_MAX_OPP_NB 0 freq_khz (pll1_settings s)));
    [lia | apply Hf; lia].
Qed.

End OppFacts.

Section SettingsFacts.
Context {ids : clk_ids} {rmap : rcc_map} {plat : clk_platform}.

(** What [clk_compute_pll1_settings] leaves: the entry of a failed
    search, or the record of a valid candidate. *)
Lemma compute_settings_outcome (input_freq : Z) (idx : nat) (s : clk_state) :
  0 <= input_freq < 2 ^ 32 ->
  let ps := pll1_settings s in
  let out := u32 (freq_at ps idx * 1000) in
  clk_compute_pll1_settings input_freq idx s
  = Done (-1)
      (set_pll1_settings (set_cfg idx PLLCFG_O 0 (search_start idx ps)) s)
  \/
  exists c,
    In c (candidates input_freq out) /\
    clk_compute_pll1_settings input_freq idx s
    = Done 0
        (set_pll1_settings (store_candidate idx c (search_start idx ps)) s).
Proof.
  intros Hi ps out.
  assert (Ho : 0 <= out < 2 ^ 32) by apply u32_range.
  assert (Hcode : clk_compute_pll1_settings input_freq idx s
                  = match divm_loop 64 idx input_freq out UINT_MAX
                            (search_start idx ps) with
                    | Return ps' => Done 0 (set_pll1_settings ps' s)
                    | Next (bd, ps') =>
                        if bd =? UINT_MAX
                        then Done (-1)
                               (set_pll1_settings
                                  (set_cfg idx PLLCFG_O 0 ps') s)
                        else Done 0 (set_pll1_settings ps' s)
                    end) by reflexivity.
  rewrite Hcode, (divm_loop_scan idx input_freq out Hi Ho 64) by lia.
  fold divm_values. fold (candidates input_freq out).
  pose proof (scan_first_best idx input_freq out (candidates input_freq out)
                UINT_MAX (search_start idx ps)
                ltac:(unfold UINT_MAX; lia)) as Hfb.
  assert (Hin : forall c l, is_first_best (freq_error input_freq out) l c ->
                            In c l).
  { intros c l (pre & post & -> & _). apply in_elt. }
  destruct (scan idx input_freq out (candidates input_freq out) UINT_MAX
              (search_start idx ps)) as [[bd ps'] | ps'].
  - destruct Hfb as [(-> & -> & _) | (c & Hc & He & Hr & ->)].
    + left. rewrite Z.eqb_refl. reflexivity.
    + right. exists c. split; [apply Hin, Hc |].
      destruct (Z.eqb_spec bd UINT_MAX); [lia | reflexivity].
  - destruct Hfb as (c & Hc & He & ->). right. exists c.
    split; [apply Hin, Hc | reflexivity].
Qed.

(** X10.  The settings that [clk_compute_pll1_settings] records on
    success are legal for the PLL: M is in 0..63, N in 24..99, P in
    0..127, the fraction in 0..8192; the reference after M is in the
    8-16 MHz window and the VCO they give is in the 400-800 MHz
    window. *)
Theorem computed_settings_are_legal (input_freq : Z) (idx : nat)
    (s s' : clk_state) :
  0 <= input_freq < 2 ^ 32 ->
  length (cfg_row (pll1_settings s) idx) = PLLCFG_NB ->
  (idx < length (frac (pll1_settings s)))%nat ->
  clk_compute_pll1_settings input_freq idx s = Done 0 s' ->
  let m := cfg_at (pll1_settings s') idx PLLCFG_M in
  let n := cfg_at (pll1_settings s') idx PLLCFG_N in
  let p := cfg_at (pll1_settings s') idx PLLCFG_P in
  let f := frac_at (pll1_settings s') idx in
  DIVM_MIN <= m <= DIVM_MAX /\ DIVN_MIN <= n <= DIVN_MAX /\
  DIVP_MIN <= p <= DIVP_MAX /\ 0 <= f <= FRAC_MAX /\
  POST_DIVM_MIN <= input_freq / (m + 1) <= POST_DIVM_MAX /\
  VCO_MIN / 2
  <= input_freq / (m + 1) * (n + 1) + input_freq / (m + 1) * f / FRAC_MAX
  <= VCO_MAX / 2.
Proof.
  intros Hi Hrow Hfrac Hrun.
  destruct (compute_settings_outcome input_freq idx s Hi)
    as [Hfail | (c & Hc & Hok)].
  { rewrite Hfail in Hrun. discriminate Hrun. }
  rewrite Hok in Hrun. injection Hrun as <-.
  cbn [pll1_settings set_pll1_settings].
  destruct (recorded_entry idx c (pll1_settings s) Hrow Hfrac) as (Hr & Hf).
  cbv zeta in Hr, Hf. unfold cfg_at. rewrite Hr, Hf.
  cbn [pllcfg_at nth PLLCFG_M PLLCFG_N PLLCFG_P].
  apply in_candidates in Hc.
  destruct Hc as (Hm & Hpost & Hp & Hn & Hnr & Hfr & Hw).
  unfold post_divm_of in Hpost. unfold vco_of, post_divm_of in Hw.
  assert (Hfrange : 0 <= c_frac c <= FRAC_MAX).
  { assert (0 <= frac_of input_freq
                   (u32 (freq_at (pll1_settings s) idx * 1000))
                   (c_divm c) (c_divp c) <= 8191).
    { apply frac_of_range.
      - unfold POST_DIVM_MIN in Hpost.
        destruct (Z.eq_dec input_freq 0) as [-> | ?]; [| lia].
        rewrite Z.div_0_l in Hpost by lia. lia.
      - pose proof (u32_range (freq_at (pll1_settings s) idx * 1000)).
        apply Z.mul_nonneg_nonneg; [apply Z.mul_nonneg_nonneg |]; lia. }
    unfold FRAC_MAX. destruct Hfr as [-> | ->]; lia. }
  unfold DIVM_MIN, DIVM_MAX, DIVP_MIN, DIVP_MAX.
  repeat split; try lia; apply Hw.
Qed.

End SettingsFacts.

Section GetSettings.
Context {ids : clk_ids} {rmap : rcc_map} {plat : clk_platform}
        {more : rcc_map_more}.

(** X11.  [clk_get_pll1_settings], for a slot [index] of the table,
    looks at the first slot [i] that holds the same frequency.  If that
    slot is computed (its output-enable field is not 0) the function
    returns 0 and changes nothing: the settings are not copied to the
    slot [index], also when [i] is an earlier slot and the slot
    [index] itself is not computed.  If it is not computed, the
    function computes the settings of the slot [index] from the rate
    of the selected reference.  It never returns through its last
    [return -1]. *)
Theorem get_pll1_settings_never_copies (clksrc : Z) (index : nat)
    (s : clk_state) :
  (index < PLAT_MAX_OPP_NB)%nat ->
  let ps := pll1_settings s in
  let i := find_opp PLAT_MAX_OPP_NB 0 (freq_at ps index) ps in
  (i <= index)%nat /\ freq_at ps i = freq_at ps index /\
  (cfg_at ps i PLLCFG_O <> 0 ->
   clk_get_pll1_settings clksrc index s = Done 0 s) /\
  (cfg_at ps i PLLCFG_O = 0 ->
   clk_get_pll1_settings clksrc index s
   = (input_freq <-
        (if clksrc =? CLK_PLL12_HSI then clk_stm32_get_rate CK_HSI
         else if clksrc =? CLK_PLL12_HSE then clk_stm32_get_rate CK_HSE
         else panic) ;;
      clk_compute_pll1_settings input_freq index) s).
Proof.
  intros Hidx ps i.
  destruct (find_opp_spec ps (freq_at ps index) PLAT_MAX_OPP_NB 0%nat)
    as (Hr & Hf & Hb). cbv zeta in Hr, Hf, Hb. fold i in Hr, Hf, Hb.
  assert (Hle : (i <= index)%nat).
  { destruct (Nat.le_gt_cases i index) as [H | H]; [exact H |].
    exfalso. apply (Hb index); [lia | reflexivity]. }
  split; [exact Hle |]. split; [apply Hf; lia |].
  assert (Heq :
    clk_get_pll1_settings clksrc index s
    = if cfg_at ps i PLLCFG_O =? 0
      then (input_freq <-
              (if clksrc =? CLK_PLL12_HSI then clk_stm32_get_rate CK_HSI
               else if clksrc =? CLK_PLL12_HSE then clk_stm32_get_rate CK_HSE
               else panic) ;;
            clk_compute_pll1_settings input_freq index) s
      else Done 0 s).
  { unfold clk_get_pll1_settings. unfold bind at 1. unfold gets at 1.
    unfold bind at 1. unfold gets at 1. fold ps. fold i.
    destruct (Nat.eqb_spec i PLAT_MAX_OPP_NB) as [? | _]; [lia |].
    destruct (Nat.ltb_spec i PLAT_MAX_OPP_NB) as [_ | ?]; [| lia].
    cbn [andb orb].
    destruct (cfg_at ps i PLLCFG_O =? 0); reflexivity. }
  rewrite Heq. split; intros HO.
  - destruct (Z.eqb_spec (cfg_at ps i PLLCFG_O) 0) as [? | _];
      [contradiction | reflexivity].
  - rewrite HO. reflexivity.
Qed.

End GetSettings.

Section OppServiceFacts.
Context {ids : clk_ids} {rmap : rcc_map} {plat : clk_platform}
        {svc : sip_svc}.

(** X12.  The rounding command of the operating point service of the
    secure monitor.  With a valid OPP table it never fails, whatever
    frequency in Hz the 32-bit argument holds: it changes nothing and
    answers the rounded operating point in Hz, which is at most the
    request (the product cannot overflow).  Without a valid table it
    answers the current operating point in Hz, or fails when that
    product does not fit 32 bits. *)
Theorem opp_round_service (x2 res : Z) (s : clk_state) :
  mul_overflow_u32 ->
  STM32_SIP_SVC_RCC_OPP_ROUND <> STM32_SIP_SVC_RCC_OPP_SET ->
  0 <= x2 < 2 ^ 32 ->
  (stm32mp1_clk_pll1_settings_are_valid s = true ->
   rcc_opp_scv_handler STM32_SIP_SVC_RCC_OPP_ROUND x2 res s
   = Done (STM32_SIP_SVC_OK, round_opp_result s (x2 / 1000) * 1000) s /\
   0 <= round_opp_result s (x2 / 1000) * 1000 <= x2) /\
  (stm32mp1_clk_pll1_settings_are_valid s = false ->
   rcc_opp_scv_handler STM32_SIP_SVC_RCC_OPP_ROUND x2 res s
   = if current_opp_khz s * 1000 <? 2 ^ 32
     then Done (STM32_SIP_SVC_OK, u32 (current_opp_khz s * 1000)) s
     else Done (STM32_SIP_SVC_FAILED, u32 (current_opp_khz s * 1000)) s).
Proof.
  intros Hmul Hcmd Hx.
  assert (Hrun : forall v,
    stm32mp1_round_opp_khz (x2 / 1000) s = Done (0, v) s ->
    rcc_opp_scv_handler STM32_SIP_SVC_RCC_OPP_ROUND x2 res s
    = if v * 1000 <? 2 ^ 32
      then Done (STM32_SIP_SVC_OK, u32 (v * 1000)) s
      else Done (STM32_SIP_SVC_FAILED, u32 (v * 1000)) s).
  { intros v Hv. unfold rcc_opp_scv_handler.
    destruct (Z.eqb_spec STM32_SIP_SVC_RCC_OPP_ROUND STM32_SIP_SVC_RCC_OPP_SET)
      as [? | _]; [contradiction |].
    rewrite Z.eqb_refl. unfold bind. rewrite Hv. cbn [Z.eqb negb].
    rewrite (Hmul v 1000). destruct (v * 1000 <? 2 ^ 32); reflexivity. }
  split; intros Hv.
  - pose proof (round_opp_result_valid s (x2 / 1000) Hv) as Hres.
    destruct (round_opp_loop_spec (pll1_settings s) (x2 / 1000)
                PLAT_MAX_OPP_NB 0 0) as (H0 & Hin & _).
    cbv zeta in H0, Hin. rewrite <- Hres in H0, Hin.
    set (r := round_opp_result s (x2 / 1000)) in *.
    assert (Hq : 0 <= x2 / 1000 /\ x2 / 1000 * 1000 <= x2).
    { pose proof (Z.div_mod x2 1000 ltac:(lia)).
      pose proof (Z.mod_pos_bound x2 1000 ltac:(lia)).
      split; [apply Z.div_pos; lia | lia]. }
    assert (Hr : 0 <= r <= x2 / 1000).
    { destruct Hin as [-> | (j & _ & _ & Hle)]; lia. }
    assert (Hb : 0 <= r * 1000 <= x2) by lia.
    split; [| exact Hb].
    rewrite (Hrun r).
    + destruct (Z.ltb_spec (r * 1000) (2 ^ 32)) as [_ | ?]; [| lia].
      rewrite u32_small by lia. reflexivity.
    + unfold stm32mp1_round_opp_khz, bind, gets, ret. rewrite Hv.
      cbn [negb]. subst r. rewrite Hres. reflexivity.
  - apply Hrun. unfold stm32mp1_round_opp_khz, bind, gets, ret.
    rewrite Hv. reflexivity.
Qed.

End OppServiceFacts.

Section OppExamples.
Local Existing Instances Board.ids Board.rmap Board.plat Board.more
  Board.svc.

(** PLL1 gives 650 MHz: the frequency 325 MHz is reached with the
    divider code 1. *)
Lemma get_mpu_div_is_exact_witness :
  0 < 325000 /\
  exists d,
    stm32mp1_get_mpu_div 325000 (Board.st_650 []) = Done d (Board.st_650 []) /\
    ((0 <= d <= 4 /\
      __clk_get_parent_rate _PLL1_P (Board.st_650 []) / 1000
      = 325000 * 2 ^ d) \/
     (d = -1 /\
      forall k, 0 <= k <= 4 ->
        __clk_get_parent_rate _PLL1_P (Board.st_650 []) / 1000
        <> 325000 * 2 ^ k)).
Proof.
  assert (H : 0 < 325000) by lia.
  split; [exact H |].
  exact (get_mpu_div_is_exact 325000 (Board.st_650 []) H).
Defined.

Example mpu_div_325MHz :
  stm32mp1_get_mpu_div 325000 (Board.st_650 []) = Done 1 (Board.st_650 []).
Proof. reflexivity. Qed.

Lemma opp_config_unknown_frequency_witness :
  (forall j, (j < PLAT_MAX_OPP_NB)%nat ->
             freq_at (pll1_settings Board.st_opp) j <> 700000) /\
  pll1_config_from_opp_khz 700000 Board.st_opp = Done (-1) Board.st_opp.
Proof.
  assert (H : forall j, (j < PLAT_MAX_OPP_NB)%nat ->
              freq_at (pll1_settings Board.st_opp) j <> 700000).
  { intros j Hj. cbn in Hj.
    destruct j as [| [| j]]; [discriminate | discriminate | lia]. }
  split; [exact H |].
  exact (opp_config_unknown_frequency 700000 Board.st_opp H).
Defined.

Lemma computed_settings_are_legal_witness :
  0 <= 24000000 < 2 ^ 32 /\
  length (cfg_row (pll1_settings Board.st_table) 0) = PLLCFG_NB /\
  (0 < length (frac (pll1_settings Board.st_table)))%nat /\
  exists s',
    clk_compute_pll1_settings 24000000 0 Board.st_table = Done 0 s' /\
    DIVN_MIN <= cfg_at (pll1_settings s') 0 PLLCFG_N <= DIVN_MAX.
Proof.
  assert (Hi : 0 <= 24000000 < 2 ^ 32) by lia.
  assert (Hrow : length (cfg_row (pll1_settings Board.st_table) 0)
                 = PLLCFG_NB) by reflexivity.
  assert (Hfrac : (0 < length (frac (pll1_settings Board.st_table)))%nat)
    by (simpl; lia).
  split; [exact Hi |]. split; [exact Hrow |]. split; [exact Hfrac |].
  destruct (clk_compute_pll1_settings 24000000 0 Board.st_table)
    as [r s' |] eqn:Hrun; [| discriminate Hrun].
  assert (Hr : r = 0) by (vm_compute in Hrun; inversion Hrun; reflexivity).
  subst r. exists s'. split; [reflexivity |].
  exact (proj1 (proj2 (computed_settings_are_legal 24000000 0
                         Board.st_table s' Hi Hrow Hfrac Hrun))).
Defined.

(** The slot 1 has the frequency of the slot 0, which is computed: the
    function returns 0 and the slot 1 is left without settings. *)
Lemma get_pll1_settings_never_copies_witness :
  (1 < PLAT_MAX_OPP_NB)%nat /\
  cfg_at (pll1_settings Board.st_twin)
    (find_opp PLAT_MAX_OPP_NB 0
       (freq_at (pll1_settings Board.st_twin) 1)
       (pll1_settings Board.st_twin)) PLLCFG_O <> 0 /\
  clk_get_pll1_settings CLK_PLL12_HSE 1 Board.st_twin = Done 0 Board.st_twin /\
  cfg_row (pll1_settings Board.st_twin) 1 = [0; 0; 0; 0; 0; 0].
Proof.
  assert (H1 : (1 < PLAT_MAX_OPP_NB)%nat) by (cbn; lia).
  assert (HO : cfg_at (pll1_settings Board.st_twin)
                 (find_opp PLAT_MAX_OPP_NB 0
                    (freq_at (pll1_settings Board.st_twin) 1)
                    (pll1_settings Board.st_twin)) PLLCFG_O <> 0)
    by discriminate.
  split; [exact H1 |]. split; [exact HO |].
  split; [| reflexivity].
  destruct (get_pll1_settings_never_copies CLK_PLL12_HSE 1 Board.st_twin H1)
    as (_ & _ & H & _).
  exact (H HO).
Defined.

Lemma board_mul_overflow : mul_overflow_u32.
Proof. intros a b. reflexivity. Defined.

(** 700 MHz is rounded to 650 MHz. *)
Lemma opp_round_service_witness :
  mul_overflow_u32 /\
  STM32_SIP_SVC_RCC_OPP_ROUND <> STM32_SIP_SVC_RCC_OPP_SET /\
  0 <= 700000000 < 2 ^ 32 /\
  stm32mp1_clk_pll1_settings_are_valid Board.st_opp = true /\
  rcc_opp_scv_handler STM32_SIP_SVC_RCC_OPP_ROUND 700000000 0 Board.st_opp
  = Done (STM32_SIP_SVC_OK,
          round_opp_result Board.st_opp (700000000 / 1000) * 1000)
      Board.st_opp.
Proof.
  assert (Hc : STM32_SIP_SVC_RCC_OPP_ROUND <> STM32_SIP_SVC_RCC_OPP_SET)
    by discriminate.
  assert (Hx : 0 <= 700000000 < 2 ^ 32) by lia.
  assert (Hv : stm32mp1_clk_pll1_settings_are_valid Board.st_opp = true)
    by reflexivity.
  split; [exact board_mul_overflow |]. split; [exact Hc |].
  split; [exact Hx |]. split; [exact Hv |].
  exact (proj1 (proj1 (opp_round_service 700000000 0 Board.st_opp
                         board_mul_overflow Hc Hx) Hv)).
Defined.

Example round_service_700MHz :
  rcc_opp_scv_handler STM32_SIP_SVC_RCC_OPP_ROUND 700000000 0 Board.st_opp
  = Done (0, 650000000) Board.st_opp.
Proof. reflexivity. Qed.

End OppExamples.

(** ** Suspend and resume: the saved context *)

Lemma bind_done {A B : Type} (c : M A) (k : A -> M B) (s s' : clk_state) (b : B) :
  bind c k s = Done b s' ->
  exists a s1, c s = Done a s1 /\ k a s1 = Done b s'.
Proof.
  unfold bind. destruct (c s) as [a s1 |]; [| discriminate].
  intros H. exists a, s1. split; [reflexivity | exact H].
Qed.

Section BackupFacts.
Context {rmap : rcc_map} {plat : clk_platform}.

Lemma backup_clocks_offsets (l : list backup_clock) (r : gmap Z Z) :
  map bk_offset (backup_clocks l r) = map bk_offset l.
Proof. induction l as [| c l IH]; simpl; [| rewrite IH]; reflexivity. Qed.

Lemma backup_clocks_value (l : list backup_clock) (r : gmap Z Z)
    (c : backup_clock) :
  In c (backup_clocks l r) -> bk_value c = io_read32 (bk_offset c) r.
Proof.
  induction l as [| c0 l IH]; simpl; [intros [] |].
  intros [<- | H]; [reflexivity | apply IH, H].
Qed.

Lemma backup_clocks_In (l : list backup_clock) (r : gmap Z Z)
    (c : backup_clock) :
  In c l ->
  In {| bk_offset := bk_offset c; bk_value := io_read32 (bk_offset c) r |}
     (backup_clocks l r).
Proof.
  induction l as [| c0 l IH]; simpl; [intros [] |].
  intros [-> | H]; [left; reflexivity | right; apply IH, H].
Qed.

(** One turn of the loop of [restore_sc_cfg] on a SET/CLEAR pair: the
    register ends with the saved value. *)
Lemma restore_sc_step (off v : Z) (r : gmap Z Z) :
  set_clear_register off ->
  exists V,
    io_write32 (off + RCC_MP_ENCLRR_OFFSET) (not32 v) (io_write32 off v r)
    = <[off := V]> r /\ u32 V = u32 v.
Proof.
  intros (Hs & Hc).
  assert (Hsub : off + RCC_MP_ENCLRR_OFFSET - RCC_MP_ENCLRR_OFFSET = off)
    by lia.
  assert (H1 : io_write32 off v r
               = <[off := Z.lor (io_read32 off r) (u32 v)]> r)
    by (unfold io_write32; rewrite Hs; reflexivity).
  rewrite H1. set (a := io_read32 off r). clearbody a.
  assert (H2 : forall w r1,
            io_write32 (off + RCC_MP_ENCLRR_OFFSET) w r1
            = <[off := Z.land (io_read32 (off + RCC_MP_ENCLRR_OFFSET) r1)
                         (not32 w)]> r1)
    by (intros w r1; unfold io_write32; rewrite Hc, Hsub, Hs; reflexivity).
  assert (H3 : forall V,
            io_read32 (off + RCC_MP_ENCLRR_OFFSET) (<[off := V]> r) = u32 V).
  { intros V. unfold io_read32, reg_target.
    rewrite Hc, Hsub, Hs, lookup_insert_eq. reflexivity. }
  rewrite H2, H3, insert_insert_eq. eexists. split; [reflexivity |].
  bitwise.
Qed.

Lemma reg_target_set_clear (off : Z) :
  set_clear_register off -> reg_target off = off.
Proof. intros (Hs & _). unfold reg_target. rewrite Hs. reflexivity. Qed.

(** A loop that, for each entry, puts a value of its own in the
    register of the entry: each listed register ends with the saved
    value, the other registers are left as they were. *)
Lemma restore_loop_reads (restore : list backup_clock -> gmap Z Z -> gmap Z Z)
    (ok : Z -> Prop) :
  (forall r, restore [] r = r) ->
  (forall c l r, ok (bk_offset c) ->
     exists V, restore (c :: l) r = restore l (<[bk_offset c := V]> r)
               /\ u32 V = u32 (bk_value c)) ->
  (forall off, ok off -> reg_target off = off) ->
  forall (l : list backup_clock) (r : gmap Z Z),
    NoDup (map bk_offset l) ->
    (forall c, In c l -> ok (bk_offset c)) ->
    (forall c, In c l ->
       io_read32 (bk_offset c) (restore l r) = u32 (bk_value c)) /\
    (forall off, (forall c, In c l -> reg_target off <> bk_offset c) ->
       io_read32 off (restore l r) = io_read32 off r).
Proof.
  intros Hnil Hcons Htarget.
  induction l as [| c l IH]; intros r Hnd Hok.
  - split; [intros c [] |]. intros off _. rewrite Hnil. reflexivity.
  - cbn [map] in Hnd. apply NoDup_cons in Hnd. destruct Hnd as (Hnin & Hnd).
    destruct (Hcons c l r (Hok c (or_introl eq_refl))) as (V & -> & HV).
    destruct (IH (<[bk_offset c := V]> r) Hnd
                (fun c' H => Hok c' (or_intror H))) as (IH1 & IH2).
    split.
    + intros c' [<- | Hin]; [| apply IH1, Hin].
      rewrite IH2.
      * rewrite io_read32_insert_eq
          by (apply Htarget, Hok; left; reflexivity).
        exact HV.
      * intros c' Hin Heq.
        rewrite (Htarget _ (Hok c (or_introl eq_refl))) in Heq.
        apply Hnin. rewrite Heq. apply list_elem_of_In, in_map, Hin.
    + intros off Hoff. rewrite IH2 by (intros c' H; apply Hoff; right; exact H).
      apply io_read32_insert_ne. apply Hoff. left. reflexivity.
Qed.

Lemma restore_sc_reads (l : list backup_clock) (r : gmap Z Z) :
  NoDup (map bk_offset l) ->
  (forall c, In c l -> set_clear_register (bk_offset c)) ->
  (forall c, In c l ->
     io_read32 (bk_offset c) (restore_sc l r) = u32 (bk_value c)) /\
  (forall off, (forall c, In c l -> reg_target off <> bk_offset c) ->
     io_read32 off (restore_sc l r) = io_read32 off r).
Proof.
  apply (restore_loop_reads restore_sc set_clear_register).
  - reflexivity.
  - intros c l0 r0 Hc. cbn [restore_sc].
    destruct (restore_sc_step (bk_offset c) (bk_value c) r0 Hc) as (V & -> & HV).
    exists V. split; [reflexivity | exact HV].
  - apply reg_target_set_clear.
Qed.

Lemma restore_regular_reads (l : list backup_clock) (r : gmap Z Z) :
  NoDup (map bk_offset l) ->
  (forall c, In c l -> plain_register (bk_offset c)) ->
  (forall c, In c l ->
     io_read32 (bk_offset c) (restore_regular l r) = u32 (bk_value c)) /\
  (forall off, (forall c, In c l -> reg_target off <> bk_offset c) ->
     io_read32 off (restore_regular l r) = io_read32 off r).
Proof.
  apply (restore_loop_reads restore_regular plain_register).
  - reflexivity.
  - intros c l0 r0 Hc. cbn [restore_regular].
    rewrite (io_write32_plain _ _ _ Hc).
    exists (u32 (bk_value c)). split; [reflexivity | apply u32_idem].
  - apply reg_target_plain.
Qed.

(** *** Mux fields *)

Lemma backup_mux0_offsets (l : list backup_mux) (r : gmap Z Z) :
  map mux_offset (backup_mux0 l r) = map mux_offset l.
Proof. induction l as [| c l IH]; simpl; [| rewrite IH]; reflexivity. Qed.

Lemma backup_mux4_offsets (l : list backup_mux) (r : gmap Z Z) :
  map mux_offset (backup_mux4 l r) = map mux_offset l.
Proof. induction l as [| c l IH]; simpl; [| rewrite IH]; reflexivity. Qed.

Lemma small_mask_bits (m n : Z) :
  0 <= m < 256 -> Z.testbit m n = true -> 0 <= n < 8.
Proof.
  intros Hm Hb.
  destruct (Z.ltb_spec n 0) as [Hneg | Hpos].
  { rewrite Z.testbit_neg_r in Hb by exact Hneg. discriminate Hb. }
  split; [exact Hpos |].
  destruct (Z.ltb_spec n 8) as [H8 | H8]; [exact H8 |]. exfalso.
  rewrite <- (Z.mod_small m (2 ^ 8)) in Hb by (cbn; lia).
  rewrite Z.mod_pow2_bits_high in Hb by lia. discriminate Hb.
Qed.

(** One field restored in a plain register: the bits of the mask take
    the saved bits, the other bits are kept. *)
Lemma restore_field_bits (off mask : Z) (r0 r : gmap Z Z) (n : Z) :
  plain_register off -> 0 <= mask < 256 -> 0 <= n ->
  Z.testbit
    (io_read32 off
       (io_clrsetbits32 off mask (u8 (Z.land (io_read32 off r0) mask)) r)) n
  = if Z.testbit mask n then Z.testbit (io_read32 off r0) n
    else Z.testbit (io_read32 off r) n.
Proof.
  intros Hp Hm Hn. unfold io_clrsetbits32.
  rewrite (io_write32_plain _ _ _ Hp),
    (io_read32_insert_eq _ _ _ (reg_target_plain _ Hp)), u32_idem.
  pose proof (small_mask_bits mask n Hm) as Hsmall.
  pose proof (io_read32_range off r) as Hr.
  assert (Hhigh : 32 <= n -> Z.testbit (io_read32 off r) n = false).
  { intros H32. rewrite <- (u32_small _ Hr), u32_bits.
    destruct (Z.ltb_spec n 32); [lia | reflexivity]. }
  unfold u8. rewrite u32_bits, Z.lor_spec, Z.land_spec.
  rewrite not32_bits by exact Hn.
  change 256 with (2 ^ 8). rewrite Z.testbit_mod_pow2 by lia.
  rewrite Z.land_spec.
  destruct (Z.testbit mask n) eqn:Hb.
  - specialize (Hsmall eq_refl).
    destruct (Z.ltb_spec n 32); [| lia]. destruct (Z.ltb_spec n 8); [| lia].
    cbn. rewrite andb_false_r, andb_true_r. reflexivity.
  - destruct (Z.ltb_spec n 32) as [H32 | H32].
    + cbn. rewrite !andb_false_r, orb_false_r, andb_true_r. reflexivity.
    + rewrite (Hhigh H32). reflexivity.
Qed.

Lemma restore_field_other (off off' mask v : Z) (r : gmap Z Z) :
  plain_register off' -> reg_target off <> off' ->
  io_read32 off (io_clrsetbits32 off' mask v r) = io_read32 off r.
Proof.
  intros Hp Hne. unfold io_clrsetbits32. rewrite (io_write32_plain _ _ _ Hp).
  apply io_read32_insert_ne, Hne.
Qed.

(** The loop of a mux backup followed by the loop of its restore, for a
    table whose mask is [mask]. *)
Lemma restore_mux_bits
    (backup : list backup_mux -> gmap Z Z -> list backup_mux)
    (restore : list backup_mux -> gmap Z Z -> gmap Z Z)
    (mask : backup_mux -> Z) :
  (forall r0, backup [] r0 = []) ->
  (forall c l r0,
     backup (c :: l) r0
     = {| mux_offset := mux_offset c;
          mux_value := u8 (Z.land (io_read32 (mux_offset c) r0) (mask c));
          mux_bit_len := mux_bit_len c |} :: backup l r0) ->
  (forall r, restore [] r = r) ->
  (forall c l r,
     restore (c :: l) r
     = restore l (io_clrsetbits32 (mux_offset c) (mask c) (mux_value c) r)) ->
  (forall c v, mask {| mux_offset := mux_offset c; mux_value := v;
                       mux_bit_len := mux_bit_len c |} = mask c) ->
  forall (l : list backup_mux) (r0 r : gmap Z Z) (off n : Z),
    NoDup (map mux_offset l) ->
    (forall c, In c l ->
       plain_register (mux_offset c) /\ 0 <= mask c < 256) ->
    reg_target off = off -> 0 <= n ->
    Z.testbit (io_read32 off (restore (backup l r0) r)) n
    = if existsb (fun c => (mux_offset c =? off) && Z.testbit (mask c) n) l
      then Z.testbit (io_read32 off r0) n
      else Z.testbit (io_read32 off r) n.
Proof.
  intros Hb0 Hb1 Hr0 Hr1 Hmask.
  induction l as [| c l IH]; intros r0 r off n Hnd Hok Ht Hn.
  - rewrite Hb0, Hr0. reflexivity.
  - cbn [map] in Hnd. apply NoDup_cons in Hnd. destruct Hnd as (Hnin & Hnd).
    destruct (Hok c (or_introl eq_refl)) as (Hp & Hm).
    rewrite Hb1, Hr1. cbn [mux_offset mux_value]. rewrite Hmask.
    rewrite IH; [| exact Hnd | intros c' H; apply Hok; right; exact H
                 | exact Ht | exact Hn].
    cbn [existsb].
    destruct (Z.eqb_spec (mux_offset c) off) as [Heq | Hne].
    + subst off.
      assert (Hex : existsb
                      (fun c' => (mux_offset c' =? mux_offset c)
                                 && Z.testbit (mask c') n) l = false).
      { apply not_true_is_false. intros Hex.
        apply existsb_exists in Hex. destruct Hex as (c' & Hin & Hc').
        apply andb_prop in Hc'. destruct Hc' as (Ho & _).
        apply Z.eqb_eq in Ho. apply Hnin. rewrite <- Ho.
        apply list_elem_of_In, in_map, Hin. }
      rewrite Hex, orb_false_r. cbn [andb].
      apply restore_field_bits; assumption.
    + cbn [andb orb].
      rewrite restore_field_other by (try assumption; congruence).
      reflexivity.
Qed.

End BackupFacts.

Section ContextRoundTrips.
Context {ids : clk_ids} {rmap : rcc_map} {plat : clk_platform}
        {more : rcc_map_more}.

(** X13.  [backup_sc_cfg] and [restore_sc_cfg] are a round trip on the
    SET/CLEAR registers of the table, each listed once: whatever the
    registers hold when the restore runs, each listed register ends
    with the value it had at the backup, and no other register is
    touched.  The backup itself changes no register. *)
Theorem sc_cfg_round_trip (s0 s1 s2 s3 : clk_state) :
  NoDup (map bk_offset (backup_clock_sc_cfg s0)) ->
  (forall c, In c (backup_clock_sc_cfg s0) ->
             set_clear_register (bk_offset c)) ->
  backup_sc_cfg s0 = Done tt s1 ->
  backup_clock_sc_cfg s2 = backup_clock_sc_cfg s1 ->
  restore_sc_cfg s2 = Done tt s3 ->
  rcc_regs s1 = rcc_regs s0 /\
  (forall c, In c (backup_clock_sc_cfg s0) ->
     reg_value (bk_offset c) s3 = reg_value (bk_offset c) s0) /\
  (forall off,
     (forall c, In c (backup_clock_sc_cfg s0) ->
                reg_target off <> bk_offset c) ->
     reg_value off s3 = reg_value off s2).
Proof.
  intros Hnd Hok Hb Hkeep Hr.
  unfold backup_sc_cfg, modify in Hb. injection Hb as <-.
  cbn [backup_clock_sc_cfg set_backup_clock_sc_cfg] in Hkeep.
  unfold restore_sc_cfg, bind, gets, wr, modify in Hr. injection Hr as <-.
  unfold reg_value. cbn [rcc_regs set_rcc_regs set_backup_clock_sc_cfg].
  rewrite Hkeep. set (l := backup_clock_sc_cfg s0) in *.
  destruct (restore_sc_reads (backup_clocks l (rcc_regs s0)) (rcc_regs s2))
    as (H1 & H2).
  { rewrite backup_clocks_offsets. exact Hnd. }
  { intros c Hc. apply in_map with (f := bk_offset) in Hc.
    rewrite backup_clocks_offsets in Hc. apply in_map_iff in Hc.
    destruct Hc as (c' & <- & Hc'). apply Hok, Hc'. }
  split; [reflexivity |]. split.
  - intros c Hc.
    pose proof (H1 _ (backup_clocks_In l (rcc_regs s0) c Hc)) as E.
    cbn [bk_offset bk_value] in E. rewrite E. apply u32_idem.
  - intros off Hoff. apply H2. intros c Hc.
    apply in_map with (f := bk_offset) in Hc.
    rewrite backup_clocks_offsets in Hc. apply in_map_iff in Hc.
    destruct Hc as (c' & <- & Hc'). apply Hoff, Hc'.
Qed.

(** X14.  [backup_regular_cfg] and [restore_regular_cfg] are a round
    trip on the plain registers of the table, each listed once: each
    listed register ends with the value it had at the backup, and no
    other register is touched. *)
Theorem regular_cfg_round_trip (s0 s1 s2 s3 : clk_state) :
  NoDup (map bk_offset (backup_clock_cfg s0)) ->
  (forall c, In c (backup_clock_cfg s0) -> plain_register (bk_offset c)) ->
  backup_regular_cfg s0 = Done tt s1 ->
  backup_clock_cfg s2 = backup_clock_cfg s1 ->
  restore_regular_cfg s2 = Done tt s3 ->
  rcc_regs s1 = rcc_regs s0 /\
  (forall c, In c (backup_clock_cfg s0) ->
     reg_value (bk_offset c) s3 = reg_value (bk_offset c) s0) /\
  (forall off,
     (forall c, In c (backup_clock_cfg s0) -> reg_target off <> bk_offset c) ->
     reg_value off s3 = reg_value off s2).
Proof.
  intros Hnd Hok Hb Hkeep Hr.
  unfold backup_regular_cfg, modify in Hb. injection Hb as <-.
  cbn [backup_clock_cfg set_backup_clock_cfg] in Hkeep.
  unfold restore_regular_cfg, bind, gets, wr, modify in Hr.
  injection Hr as <-.
  unfold reg_value. cbn [rcc_regs set_rcc_regs set_backup_clock_cfg].
  rewrite Hkeep. set (l := backup_clock_cfg s0) in *.
  destruct (restore_regular_reads (backup_clocks l (rcc_regs s0))
              (rcc_regs s2)) as (H1 & H2).
  { rewrite backup_clocks_offsets. exact Hnd. }
  { intros c Hc. apply in_map with (f := bk_offset) in Hc.
    rewrite backup_clocks_offsets in Hc. apply in_map_iff in Hc.
    destruct Hc as (c' & <- & Hc'). apply Hok, Hc'. }
  split; [reflexivity |]. split.
  - intros c Hc.
    pose proof (H1 _ (backup_clocks_In l (rcc_regs s0) c Hc)) as E.
    cbn [bk_offset bk_value] in E. rewrite E. apply u32_idem.
  - intros off Hoff. apply H2. intros c Hc.
    apply in_map with (f := bk_offset) in Hc.
    rewrite backup_clocks_offsets in Hc. apply in_map_iff in Hc.
    destruct Hc as (c' & <- & Hc'). apply Hoff, Hc'.
Qed.

Lemma mux0_bits (l : list backup_mux) (r0 r : gmap Z Z) (off n : Z) :
  NoDup (map mux_offset l) ->
  (forall c, In c l ->
     plain_register (mux_offset c) /\ 0 <= mux0_mask c < 256) ->
  reg_target off = off -> 0 <= n ->
  Z.testbit (io_read32 off (restore_mux0 (backup_mux0 l r0) r)) n
  = if existsb (fun c => (mux_offset c =? off) && Z.testbit (mux0_mask c) n) l
    then Z.testbit (io_read32 off r0) n
    else Z.testbit (io_read32 off r) n.
Proof.
  apply (restore_mux_bits backup_mux0 restore_mux0 mux0_mask);
    reflexivity.
Qed.

Lemma mux4_bits (l : list backup_mux) (r0 r : gmap Z Z) (off n : Z) :
  NoDup (map mux_offset l) ->
  (forall c, In c l ->
     plain_register (mux_offset c) /\ 0 <= mux4_mask c < 256) ->
  reg_target off = off -> 0 <= n ->
  Z.testbit (io_read32 off (restore_mux4 (backup_mux4 l r0) r)) n
  = if existsb (fun c => (mux_offset c =? off) && Z.testbit (mux4_mask c) n) l
    then Z.testbit (io_read32 off r0) n
    else Z.testbit (io_read32 off r) n.
Proof.
  apply (restore_mux_bits backup_mux4 restore_mux4 mux4_mask);
    reflexivity.
Qed.

Lemma mux_saved_existsb (l0 l4 : list backup_mux) (off n : Z) :
  mux_saved l0 l4 off n <->
  existsb (fun c => (mux_offset c =? off) && Z.testbit (mux0_mask c) n) l0
  || existsb (fun c => (mux_offset c =? off) && Z.testbit (mux4_mask c) n) l4
  = true.
Proof.
  unfold mux_saved. rewrite orb_true_iff, !existsb_exists.
  split; (intros [(c & Hc) | (c & Hc)]; [left | right]; exists c);
    rewrite ?andb_true_iff, ?Z.eqb_eq in *; tauto.
Qed.

(** X15.  [backup_mux_cfg] and [restore_mux_cfg] are a round trip on
    the selector fields: in every register, the bits of a saved field
    end with the value they had at the backup, and every other bit is
    left as the restore found it. *)
Theorem mux_cfg_round_trip (s0 s1 s2 s3 : clk_state) :
  mux_tables_ok (backup_mux0_cfg s0) (backup_mux4_cfg s0) ->
  backup_mux_cfg s0 = Done tt s1 ->
  backup_mux0_cfg s2 = backup_mux0_cfg s1 ->
  backup_mux4_cfg s2 = backup_mux4_cfg s1 ->
  restore_mux_cfg s2 = Done tt s3 ->
  rcc_regs s1 = rcc_regs s0 /\
  forall off n, reg_target off = off -> 0 <= n ->
    (mux_saved (backup_mux0_cfg s0) (backup_mux4_cfg s0) off n ->
     Z.testbit (reg_value off s3) n = Z.testbit (reg_value off s0) n) /\
    (~ mux_saved (backup_mux0_cfg s0) (backup_mux4_cfg s0) off n ->
     Z.testbit (reg_value off s3) n = Z.testbit (reg_value off s2) n).
Proof.
  intros (Hnd0 & Hnd4 & Hok0 & Hok4) Hb Hk0 Hk4 Hr.
  unfold backup_mux_cfg, bind, modify in Hb. injection Hb as <-.
  cbn [backup_mux0_cfg backup_mux4_cfg rcc_regs set_backup_mux0_cfg
       set_backup_mux4_cfg] in Hk0, Hk4.
  unfold restore_mux_cfg, bind, gets, wr, modify in Hr. injection Hr as <-.
  cbn [backup_mux0_cfg backup_mux4_cfg rcc_regs set_rcc_regs
       set_backup_mux0_cfg set_backup_mux4_cfg].
  split; [reflexivity |].
  intros off n Ht Hn. unfold reg_value.
  cbn [rcc_regs set_rcc_regs]. rewrite Hk0, Hk4.
  rewrite mux4_bits, mux0_bits by assumption.
  pose proof (mux_saved_existsb (backup_mux0_cfg s0) (backup_mux4_cfg s0)
                off n) as Hiff.
  destruct (existsb _ (backup_mux0_cfg s0)), (existsb _ (backup_mux4_cfg s0));
    cbn [orb] in Hiff; split; intros H; try reflexivity;
    try (exfalso; apply H, Hiff; reflexivity);
    apply Hiff in H; discriminate H.
Qed.

End ContextRoundTrips.

Section SuspendResume.
Context {ids : clk_ids} {rmap : rcc_map} {plat : clk_platform}
        {more : rcc_map_more}.

Lemma disable_kernel_clocks_off (s s' : clk_state) :
  ocen_ok ->
  disable_kernel_clocks s = Done tt s' ->
  Z.land (reg_value RCC_OCENSETR s') ker_mask = 0 /\
  (forall off, reg_target off <> RCC_OCENSETR ->
     reg_value off s' = reg_value off s) /\
  driver_vars s' = driver_vars s /\ saved_context s' = saved_context s.
Proof.
  intros ((Hs & Hc) & Hclr) H.
  unfold disable_kernel_clocks, wr, modify in H. injection H as <-.
  unfold reg_value. cbn [rcc_regs set_rcc_regs].
  assert (Hw : io_write32 RCC_OCENCLRR ker_mask (rcc_regs s)
               = <[RCC_OCENSETR :=
                     Z.land (io_read32 RCC_OCENCLRR (rcc_regs s))
                       (not32 ker_mask)]> (rcc_regs s)).
  { unfold io_write32. rewrite Hclr, Hc.
    replace (RCC_OCENSETR + RCC_MP_ENCLRR_OFFSET - RCC_MP_ENCLRR_OFFSET)
      with RCC_OCENSETR by lia.
    rewrite Hs. reflexivity. }
  rewrite Hw. split; [| split; [| split; reflexivity]].
  - rewrite io_read32_insert_eq
      by (unfold reg_target; rewrite Hs; reflexivity).
    set (v := io_read32 RCC_OCENCLRR (rcc_regs s)). clearbody v.
    set (k := ker_mask). clearbody k. bitwise.
  - intros off Hoff. apply io_read32_insert_ne, Hoff.
Qed.

(** X16.  Both ways out of a low power state end with the kernel
    clocks of HSI, CSI and HSE switched off: when the kernel clock
    enables are a SET/CLEAR pair, their three bits read 0 after
    [stm32_clock_resume] and after
    [stm32mp1_clk_restore_context_for_stop]. *)
Theorem low_power_exit_stops_kernel_clocks :
  ocen_ok ->
  (forall s s', stm32_clock_resume s = Done tt s' ->
     Z.land (reg_value RCC_OCENSETR s') ker_mask = 0) /\
  (forall s s', stm32mp1_clk_restore_context_for_stop s = Done tt s' ->
     Z.land (reg_value RCC_OCENSETR s') ker_mask = 0).
Proof.
  intros Hocen. split; intros s s' H.
  - unfold stm32_clock_resume in H.
    apply bind_done in H. destruct H as (? & s1 & _ & H).
    apply bind_done in H. destruct H as (? & s2 & _ & H).
    exact (proj1 (disable_kernel_clocks_off s2 s' Hocen H)).
  - unfold stm32mp1_clk_restore_context_for_stop in H.
    apply bind_done in H. destruct H as (? & s1 & _ & H).
    apply bind_done in H. destruct H as (? & s2 & _ & H).
    exact (proj1 (disable_kernel_clocks_off s2 s' Hocen H)).
Qed.

(** X17.  [stm32_clock_suspend] always returns.  It saves the listed
    registers, the selector fields and the control registers of PLL3
    and PLL4 as they are when it is called; it leaves the reference
    counters, the OPP table and the current operating point alone;
    and the only registers it changes are the kernel clock enables,
    where it switches on the kernel clock of each running oscillator
    and switches nothing off, and the reset status. *)
Theorem suspend_saves_and_arms (s : clk_state) :
  ocen_ok ->
  reg_target RCC_MP_RSTSCLRR <> RCC_OCENSETR ->
  exists s',
    stm32_clock_suspend s = Done tt s' /\
    backup_clock_cfg s' = backup_clocks (backup_clock_cfg s) (rcc_regs s) /\
    backup_clock_sc_cfg s'
    = backup_clocks (backup_clock_sc_cfg s) (rcc_regs s) /\
    backup_mux0_cfg s' = backup_mux0 (backup_mux0_cfg s) (rcc_regs s) /\
    backup_mux4_cfg s' = backup_mux4 (backup_mux4_cfg s) (rcc_regs s) /\
    pll3cr (soc_stop_ctx s') = reg_value RCC_PLL3CR s /\
    pll4cr (soc_stop_ctx s') = reg_value RCC_PLL4CR s /\
    driver_vars s' = driver_vars s /\
    (forall off,
       reg_target off <> RCC_OCENSETR ->
       reg_target off <> reg_target RCC_MP_RSTSCLRR ->
       reg_value off s' = reg_value off s) /\
    reg_value RCC_OCENSETR s'
    = Z.lor (reg_value RCC_OCENSETR s)
        (Z.land (u32 (Z.shiftl (reg_value RCC_OCENSETR s) 1)) ker_mask).
Proof.
  intros ((Hs & Hc) & Hclr) Hrst.
  assert (Ht : reg_target RCC_OCENSETR = RCC_OCENSETR)
    by (unfold reg_target; rewrite Hs; reflexivity).
  eexists. split; [reflexivity |].
  cbn [backup_clock_cfg backup_clock_sc_cfg backup_mux0_cfg backup_mux4_cfg
       soc_stop_ctx rcc_regs set_rcc_regs set_soc_stop_ctx
       set_backup_clock_cfg set_backup_clock_sc_cfg set_backup_mux0_cfg
       set_backup_mux4_cfg pll3cr pll4cr].
  repeat (split; [reflexivity |]).
  unfold reg_value.
  cbn [rcc_regs set_rcc_regs set_soc_stop_ctx
       set_backup_clock_cfg set_backup_clock_sc_cfg set_backup_mux0_cfg
       set_backup_mux4_cfg].
  destruct (io_write32_shape RCC_MP_RSTSCLRR 0
              (io_write32 RCC_OCENSETR
                 (Z.land (u32 (Z.shiftl (io_read32 RCC_OCENSETR (rcc_regs s)) 1))
                    ker_mask) (rcc_regs s))) as (V & ->).
  assert (Hw : forall v, io_write32 RCC_OCENSETR v (rcc_regs s)
               = <[RCC_OCENSETR :=
                     Z.lor (io_read32 RCC_OCENSETR (rcc_regs s)) (u32 v)]>
                   (rcc_regs s))
    by (intros v; unfold io_write32; rewrite Hs; reflexivity).
  rewrite Hw. split.
  - intros off H1 H2. rewrite !io_read32_insert_ne by congruence.
    reflexivity.
  - rewrite io_read32_insert_ne by (rewrite Ht; congruence).
    rewrite (io_read32_insert_eq _ _ _ Ht).
    set (v := io_read32 RCC_OCENSETR (rcc_regs s)).
    rewrite u32_lor, u32_idem, u32_land_u32.
    subst v. rewrite io_read32_idem. reflexivity.
Qed.

Lemma keeps_ret {A} (a : A) : keeps_context (ret a).
Proof. intros s a' s' H. inversion H. reflexivity. Qed.

Lemma keeps_panic {A} : keeps_context (@panic A).
Proof. intros s a s' H. discriminate H. Qed.

Lemma keeps_gets {A} (f : clk_state -> A) : keeps_context (gets f).
Proof. intros s a s' H. inversion H. reflexivity. Qed.

Lemma keeps_wr (f : gmap Z Z -> gmap Z Z) : keeps_context (wr f).
Proof. intros s a s' H. inversion H. reflexivity. Qed.

Lemma keeps_wait_flag (off mask : Z) : keeps_context (wait_flag off mask).
Proof.
  intros s a s' H. unfold wait_flag in H.
  destruct (hw_ready s) as [| [|] h]; inversion H; reflexivity.
Qed.

Lemma keeps_bind {A B} (c : M A) (k : A -> M B) :
  keeps_context c -> (forall a, keeps_context (k a)) ->
  keeps_context (bind c k).
Proof.
  intros Hc Hk s b s' H. unfold bind in H.
  destruct (c s) as [a s1 |] eqn:Hcs; [| discriminate].
  rewrite (Hk a s1 b s' H). exact (Hc s a s1 Hcs).
Qed.

Lemma keeps_if {A} (b : bool) (c1 c2 : M A) :
  keeps_context c1 -> keeps_context c2 ->
  keeps_context (if b then c1 else c2).
Proof. destruct b; auto. Qed.

(** The restore of PLL3 and PLL4 leaves the memory of the driver as it
    is. *)
Lemma restore_pll34_keeps_context (s s' : clk_state) :
  restore_pll34_state s = Done tt s' -> saved_context s' = saved_context s.
Proof.
  enough (H : keeps_context restore_pll34_state) by apply H.
  unfold restore_pll34_state, pll_start, pll_output, rd.
  repeat first
    [ apply keeps_bind | apply keeps_if | apply keeps_ret
    | apply keeps_panic | apply keeps_gets | apply keeps_wr
    | apply keeps_wait_flag | intro ].
Qed.

Lemma resume_gate_other_registers (idx : nat) (gi : clk_gate)
    (s s' : clk_state) :
  gates_wf ->
  stm32mp1_clk_gate !! idx = Some gi ->
  resume_gate (Z.of_nat idx) s = Done tt s' ->
  saved_context s' = saved_context s /\
  forall off, reg_target off <> gate_offset gi ->
              reg_value off s' = reg_value off s.
Proof.
  intros (Hok & _) Hgi. unfold resume_gate.
  rewrite (gate_ref_lookup idx gi Hgi).
  assert (Hgok : gate_hw_ok gi) by (apply Hok, (lookup_Some_In _ _ _ Hgi)).
  destruct (gate_is_non_secure gi).
  { intros H. injection H as <-. split; reflexivity. }
  unfold bind, gets, wr, modify.
  destruct (negb (refcount s (Z.of_nat idx) =? 0)); intros H;
    injection H as <-; (split; [reflexivity |]); intros off Hoff;
    unfold reg_value; cbn [rcc_regs set_rcc_regs].
  - destruct (clk_enable_shape gi (rcc_regs s) Hgok) as (V & -> & _).
    apply io_read32_insert_ne, Hoff.
  - destruct (clk_disable_shape gi (rcc_regs s) Hgok) as (V & -> & _).
    apply io_read32_insert_ne, Hoff.
Qed.

Lemma resume_gates_other_registers (n : nat) :
  gates_wf ->
  forall (idx : nat) (s s' : clk_state),
    (idx + n <= NB_GATES)%nat ->
    resume_gates n (Z.of_nat idx) s = Done tt s' ->
    saved_context s' = saved_context s /\
    forall off,
      (forall g, In g stm32mp1_clk_gate -> reg_target off <> gate_offset g) ->
      reg_value off s' = reg_value off s.
Proof.
  intros Hwf. induction n as [| n IH]; intros idx s s' Hlen H.
  - injection H as <-. split; reflexivity.
  - cbn [resume_gates] in H. apply bind_done in H.
    destruct H as ([] & s1 & H1 & H2).
    destruct (lookup_lt_is_Some_2 stm32mp1_clk_gate idx) as (gi & Hgi).
    { unfold NB_GATES in Hlen. lia. }
    destruct (resume_gate_other_registers idx gi s s1 Hwf Hgi H1)
      as (Hc1 & Hr1).
    replace (Z.of_nat idx + 1) with (Z.of_nat (S idx)) in H2 by lia.
    destruct (IH (S idx) s1 s' ltac:(lia) H2) as (Hc2 & Hr2).
    split; [congruence |]. intros off Hoff.
    rewrite Hr2 by exact Hoff. apply Hr1, Hoff, (lookup_Some_In _ _ _ Hgi).
Qed.

(** A suspend followed by a resume puts back the plain registers of
    [backup_clock_cfg]. *)
Lemma suspend_resume_registers (s s1 s2 s' : clk_state) :
  gates_wf -> ocen_ok ->
  NoDup (map bk_offset (backup_clock_cfg s)) ->
  (forall c, In c (backup_clock_cfg s) -> plain_register (bk_offset c)) ->
  stm32_clock_suspend s = Done tt s1 ->
  saved_context s2 = saved_context s1 ->
  driver_vars s2 = driver_vars s1 ->
  stm32_clock_resume s2 = Done tt s' ->
  driver_vars s' = driver_vars s /\
  forall c, In c (backup_clock_cfg s) ->
    (forall g, In g stm32mp1_clk_gate -> gate_offset g <> bk_offset c) ->
    reg_value (bk_offset c) s' = reg_value (bk_offset c) s.
Proof.
  intros Hwf Hocen Hnd Hplain Hsus Hctx Hvars Hres.
  assert (Hsaved : backup_clock_cfg s1
                   = backup_clocks (backup_clock_cfg s) (rcc_regs s) /\
                   driver_vars s1 = driver_vars s).
  { unfold stm32_clock_suspend in Hsus. injection Hsus as <-.
    split; reflexivity. }
  destruct Hsaved as (Hsaved & Hvars1).
  unfold stm32_clock_resume in Hres.
  apply bind_done in Hres. destruct Hres as ([] & sa & Hrest & Hres).
  apply bind_done in Hres. destruct Hres as ([] & sb & Hgates & Hker).
  pose proof (hw_only_resume_restore _ _ _ Hrest) as Hva.
  destruct (resume_gates_spec NB_GATES Hwf 0%nat sa ltac:(lia))
    as (sb' & Hgates' & Hvb & _).
  change (Z.of_nat 0) with 0 in Hgates'. rewrite Hgates in Hgates'.
  injection Hgates' as <-.
  destruct (disable_kernel_clocks_off sb s' Hocen Hker)
    as (_ & Hrk & Hvk & _).
  split; [congruence |].
  intros c Hc Hnogate.
  pose proof (Hplain c Hc) as Hp.
  pose proof (reg_target_plain _ Hp) as Ht.
  (* the four steps of the restore *)
  unfold resume_restore in Hrest.
  apply bind_done in Hrest. destruct Hrest as ([] & sp & Hpll & Hrest).
  apply bind_done in Hrest. destruct Hrest as ([] & sm & Hmux & Hrest).
  apply bind_done in Hrest. destruct Hrest as ([] & sc & Hsc & Hreg).
  apply restore_pll34_keeps_context in Hpll.
  assert (Hm : saved_context sm = saved_context sp).
  { unfold restore_mux_cfg, bind, gets, wr, modify in Hmux.
    injection Hmux as <-. reflexivity. }
  assert (Hs : saved_context sc = saved_context sm).
  { unfold restore_sc_cfg, bind, gets, wr, modify in Hsc.
    injection Hsc as <-. reflexivity. }
  assert (Hl : backup_clock_cfg sc
               = backup_clocks (backup_clock_cfg s) (rcc_regs s)).
  { rewrite <- Hsaved.
    assert (E : saved_context sc = saved_context s1) by congruence.
    unfold saved_context in E. injection E as _ _ _ _ E. exact E. }
  unfold restore_regular_cfg, bind, gets, wr, modify in Hreg.
  injection Hreg as <-.
  (* after the gates and the kernel clocks *)
  rewrite Hrk.
  2:{ rewrite Ht. destruct Hocen as ((Hset & _) & _).
      destruct Hp as (Hp1 & _). congruence. }
  destruct (resume_gates_other_registers NB_GATES Hwf 0%nat _ sb
              ltac:(lia) Hgates) as (_ & Hrg).
  rewrite Hrg by (intros g Hg; rewrite Ht; intros E; apply (Hnogate g Hg);
                  congruence).
  unfold reg_value. cbn [rcc_regs set_rcc_regs]. rewrite Hl.
  destruct (restore_regular_reads
              (backup_clocks (backup_clock_cfg s) (rcc_regs s))
              (rcc_regs sc)) as (H1 & _).
  { rewrite backup_clocks_offsets. exact Hnd. }
  { intros c0 Hc0. apply in_map with (f := bk_offset) in Hc0.
    rewrite backup_clocks_offsets in Hc0. apply in_map_iff in Hc0.
    destruct Hc0 as (c' & <- & Hc'). apply Hplain, Hc'. }
  pose proof (H1 _ (backup_clocks_In (backup_clock_cfg s) (rcc_regs s) c Hc))
    as E.
  cbn [bk_offset bk_value] in E. rewrite E. apply u32_idem.
Qed.

(** X18.  The power management callback [stm32_clock_pm], called to
    suspend and later called again with another operation, to resume,
    puts back the plain registers of [backup_clock_cfg].  Between the
    two calls the hardware may lose or change any register: the memory
    of the driver is all that the resume needs.  Both calls return
    [TEE_SUCCESS]; when the second returns, each listed register that
    holds no gate of the table has the value it had when the suspend
    was called, and the reference counters, the OPP table and the
    current operating point are what they were. *)
Theorem suspend_resume_restores_registers (op r1 r2 : Z)
    (s s1 s2 s' : clk_state) :
  gates_wf -> ocen_ok ->
  NoDup (map bk_offset (backup_clock_cfg s)) ->
  (forall c, In c (backup_clock_cfg s) -> plain_register (bk_offset c)) ->
  op <> PM_OP_SUSPEND ->
  stm32_clock_pm PM_OP_SUSPEND s = Done r1 s1 ->
  saved_context s2 = saved_context s1 ->
  driver_vars s2 = driver_vars s1 ->
  stm32_clock_pm op s2 = Done r2 s' ->
  r1 = TEE_SUCCESS /\ r2 = TEE_SUCCESS /\
  driver_vars s' = driver_vars s /\
  forall c, In c (backup_clock_cfg s) ->
    (forall g, In g stm32mp1_clk_gate -> gate_offset g <> bk_offset c) ->
    reg_value (bk_offset c) s' = reg_value (bk_offset c) s.
Proof.
  intros Hwf Hocen Hnd Hplain Hop Hsus Hctx Hvars Hres.
  unfold stm32_clock_pm in Hsus, Hres.
  rewrite Z.eqb_refl in Hsus.
  destruct (Z.eqb_spec op PM_OP_SUSPEND) as [? | _]; [contradiction |].
  apply bind_done in Hsus. destruct Hsus as ([] & sa & Hsus & Hr1).
  apply bind_done in Hres. destruct Hres as ([] & sb & Hres & Hr2).
  injection Hr1 as <- ->. injection Hr2 as <- ->.
  split; [reflexivity |]. split; [reflexivity |].
  exact (suspend_resume_registers s s1 s2 s' Hwf Hocen Hnd Hplain Hsus
           Hctx Hvars Hres).
Qed.

End SuspendResume.

Section StopContext.
Context {ids : clk_ids} {rmap : rcc_map} {plat : clk_platform}
        {more : rcc_map_more}.

(** X19.  The context for the stop modes is a round trip on the clock
    source and on the divider of the MCU subsystem.  Whatever the
    registers hold when [stm32mp1_clk_restore_context_for_stop] runs,
    when it returns the source selector has the value that
    [stm32mp1_clk_save_context_for_stop] found, and the divider field
    has the value found there, cut to the MCU divider mask.  The two
    registers are plain registers, and the ready flag of the divider
    is not part of its field. *)
Theorem stop_context_round_trip (s s1 s2 s' : clk_state) :
  ocen_ok ->
  plain_register RCC_MSSCKSELR -> plain_register RCC_MCUDIVR ->
  RCC_MSSCKSELR <> RCC_MCUDIVR ->
  Z.land RCC_DIVR_DIVRDY RCC_DIVR_DIV_MASK = 0 ->
  stm32mp1_clk_save_context_for_stop s = Done tt s1 ->
  soc_stop_ctx s2 = soc_stop_ctx s1 ->
  stm32mp1_clk_restore_context_for_stop s2 = Done tt s' ->
  reg_value RCC_MSSCKSELR s' = reg_value RCC_MSSCKSELR s /\
  Z.land (reg_value RCC_MCUDIVR s') RCC_DIVR_DIV_MASK
  = Z.land (Z.land (reg_value RCC_MCUDIVR s) RCC_MCUDIV_MASK)
      RCC_DIVR_DIV_MASK.
Proof.
  intros Hocen Hsel Hdiv Hne Hrdy Hsave Hctx Hrest.
  pose proof Hocen as ((Hset & Hclr) & Heq).
  pose proof (reg_target_plain _ Hsel) as Tsel.
  pose proof (reg_target_plain _ Hdiv) as Tdiv.
  assert (Hsel_ne : RCC_MSSCKSELR <> RCC_OCENSETR)
    by (destruct Hsel as (H1 & _); congruence).
  assert (Hdiv_ne : RCC_MCUDIVR <> RCC_OCENSETR)
    by (destruct Hdiv as (H1 & _); congruence).
  (* what is saved *)
  assert (Hsaved :
    mssckselr (soc_stop_ctx s1) = reg_value RCC_MSSCKSELR s /\
    mcudivr (soc_stop_ctx s1)
    = Z.land (reg_value RCC_MCUDIVR s) RCC_MCUDIV_MASK).
  { unfold stm32mp1_clk_save_context_for_stop in Hsave.
    injection Hsave as <-.
    cbn [soc_stop_ctx set_soc_stop_ctx set_rcc_regs rcc_regs mssckselr
         mcudivr].
    unfold reg_value.
    assert (Hw : forall v, io_write32 RCC_OCENSETR v (rcc_regs s)
                 = <[RCC_OCENSETR :=
                       Z.lor (io_read32 RCC_OCENSETR (rcc_regs s)) (u32 v)]>
                     (rcc_regs s))
      by (intros v; unfold io_write32; rewrite Hset; reflexivity).
    rewrite Hw, !io_read32_insert_ne by congruence. split; reflexivity. }
  destruct Hsaved as (Hs1 & Hs2).
  (* the three steps of the restore *)
  unfold stm32mp1_clk_restore_context_for_stop in Hrest.
  apply bind_done in Hrest. destruct Hrest as ([] & sp & Hpll & Hrest).
  apply bind_done in Hrest. destruct Hrest as ([] & sm & Hmcu & Hker).
  apply restore_pll34_keeps_context in Hpll.
  assert (Hctxp : soc_stop_ctx sp = soc_stop_ctx s1).
  { unfold saved_context in Hpll. injection Hpll as E _ _ _ _. congruence. }
  destruct (disable_kernel_clocks_off sm s' Hocen Hker) as (_ & Hrk & _).
  rewrite !Hrk by congruence.
  unfold restore_mcu_subsys_clocks, stm32mp1_set_clkdiv, bind, gets, wr,
    modify, wait_flag in Hmcu.
  cbn [hw_ready rcc_regs set_rcc_regs soc_stop_ctx] in Hmcu.
  rewrite Hctxp, Hs1, Hs2 in Hmcu.
  destruct (hw_ready sp) as [| [|] h]; cbn [negb Z.eqb] in Hmcu;
    try discriminate Hmcu.
  unfold ret in Hmcu. injection Hmcu as <-.
  set (v := reg_value RCC_MCUDIVR s).
  set (w := reg_value RCC_MSSCKSELR s).
  assert (Hv : u32 v = v) by apply io_read32_idem.
  assert (Hw : u32 w = w) by apply io_read32_idem.
  clearbody v w.
  unfold reg_value.
  cbn [rcc_regs set_rcc_regs set_hw_ready].
  rewrite Tdiv. unfold io_clrsetbits32.
  rewrite !(io_write32_plain _ _ _ Hdiv), !(io_write32_plain _ _ _ Hsel).
  rewrite !(io_read32_insert_eq _ _ _ Tdiv).
  split.
  - rewrite !io_read32_insert_ne by congruence.
    rewrite (io_read32_insert_eq _ _ _ Tsel).
    rewrite !u32_idem. exact Hw.
  - set (old := io_read32 RCC_MCUDIVR _). clearbody old.
    apply Z.bits_inj'. intros n Hn.
    assert (Hb : Z.testbit RCC_DIVR_DIVRDY n
                 && Z.testbit RCC_DIVR_DIV_MASK n = false).
    { rewrite <- Z.land_spec, Hrdy. apply Z.bits_0. }
    assert (Hh : Z.testbit v n = (n <? 32) && Z.testbit v n)
      by (rewrite <- Hv at 1; apply u32_bits).
    repeat (rewrite ?u32_bits, ?Z.lor_spec, ?Z.land_spec;
            rewrite ?not32_bits by assumption).
    rewrite Hh. revert Hb.
    destruct (n <? 32), (Z.testbit old n), (Z.testbit v n),
      (Z.testbit RCC_DIVR_DIV_MASK n), (Z.testbit RCC_MCUDIV_MASK n),
      (Z.testbit RCC_DIVR_DIVRDY n); cbn; intros Hb;
      try reflexivity; discriminate Hb.
Qed.

End StopContext.

Ltac nodup_tac :=
  repeat (apply NoDup_cons_2;
          [ rewrite ?not_elem_of_cons; repeat split;
            try discriminate; apply not_elem_of_nil | ]);
  apply NoDup_nil_2.

Section SuspendExamples.
Local Existing Instances Board.ids Board.rmap Board.plat Board.more.

Lemma board_ocen_ok : ocen_ok.
Proof. repeat split. Defined.

Lemma sc_cfg_round_trip_witness :
  exists s1 s3,
    backup_sc_cfg Board.st_run = Done tt s1 /\
    restore_sc_cfg (Board.power_lost s1) = Done tt s3 /\
    reg_value Board.RCC_MP_APB1ENSETR s3
    = reg_value Board.RCC_MP_APB1ENSETR Board.st_run.
Proof.
  eexists. eexists. split; [reflexivity |]. split; [reflexivity |].
  assert (Hnd : NoDup (map bk_offset (backup_clock_sc_cfg Board.st_run)))
    by (cbn; nodup_tac).
  assert (Hok : forall c, In c (backup_clock_sc_cfg Board.st_run) ->
                          set_clear_register (bk_offset c)).
  { intros c Hc. cbn in Hc.
    repeat (destruct Hc as [<- | Hc]; [split; reflexivity |]).
    contradiction. }
  assert (Hin : In {| bk_offset := Board.RCC_MP_APB1ENSETR; bk_value := 0 |}
                  (backup_clock_sc_cfg Board.st_run))
    by (left; reflexivity).
  exact (proj1 (proj2 (sc_cfg_round_trip Board.st_run _ _ _ Hnd Hok
                         eq_refl eq_refl eq_refl)) _ Hin).
Defined.

Lemma regular_cfg_round_trip_witness :
  exists s1 s3,
    backup_regular_cfg Board.st_run = Done tt s1 /\
    restore_regular_cfg (Board.power_lost s1) = Done tt s3 /\
    reg_value Board.RCC_MCO1CFGR s3
    = reg_value Board.RCC_MCO1CFGR Board.st_run.
Proof.
  eexists. eexists. split; [reflexivity |]. split; [reflexivity |].
  assert (Hnd : NoDup (map bk_offset (backup_clock_cfg Board.st_run)))
    by (cbn; nodup_tac).
  assert (Hok : forall c, In c (backup_clock_cfg Board.st_run) ->
                          plain_register (bk_offset c)).
  { intros c Hc. cbn in Hc.
    repeat (destruct Hc as [<- | Hc]; [split; reflexivity |]).
    contradiction. }
  assert (Hin : In {| bk_offset := Board.RCC_MCO1CFGR; bk_value := 0 |}
                  (backup_clock_cfg Board.st_run))
    by (left; reflexivity).
  exact (proj1 (proj2 (regular_cfg_round_trip Board.st_run _ _ _ Hnd Hok
                         eq_refl eq_refl eq_refl)) _ Hin).
Defined.

Lemma board_mux_tables_ok :
  mux_tables_ok (backup_mux0_cfg Board.st_run) (backup_mux4_cfg Board.st_run).
Proof.
  split; [cbn; nodup_tac |]. split; [cbn; nodup_tac |].
  split; intros c Hc; cbn in Hc;
    repeat (destruct Hc as [<- | Hc];
            [split; [split; reflexivity | cbn; lia] |]);
    contradiction.
Defined.

(** The bit 4 of the USB selector register belongs to the field of the
    second mux table. *)
Lemma mux_cfg_round_trip_witness :
  exists s1 s3,
    backup_mux_cfg Board.st_run = Done tt s1 /\
    restore_mux_cfg (Board.power_lost s1) = Done tt s3 /\
    Z.testbit (reg_value Board.RCC_USBCKSELR s3) 4
    = Z.testbit (reg_value Board.RCC_USBCKSELR Board.st_run) 4.
Proof.
  eexists. eexists. split; [reflexivity |]. split; [reflexivity |].
  assert (Ht : reg_target Board.RCC_USBCKSELR = Board.RCC_USBCKSELR)
    by reflexivity.
  assert (Hn : 0 <= 4) by lia.
  assert (Hs : mux_saved (backup_mux0_cfg Board.st_run)
                 (backup_mux4_cfg Board.st_run) Board.RCC_USBCKSELR 4).
  { right. eexists. split; [left; reflexivity |]. split; reflexivity. }
  exact (proj1 (proj2 (mux_cfg_round_trip Board.st_run _ _ _
                         board_mux_tables_ok eq_refl eq_refl eq_refl
                         eq_refl) _ _ Ht Hn) Hs).
Defined.

Lemma low_power_exit_stops_kernel_clocks_witness :
  ocen_ok /\
  exists s',
    stm32_clock_resume (Board.st_suspended (replicate 35 0)) = Done tt s' /\
    Z.land (reg_value RCC_OCENSETR s') ker_mask = 0.
Proof.
  split; [exact board_ocen_ok |].
  destruct (stm32_clock_resume (Board.st_suspended (replicate 35 0)))
    as [[] s' |] eqn:Hrun; [| discriminate Hrun].
  exists s'. split; [reflexivity |].
  exact (proj1 (low_power_exit_stops_kernel_clocks board_ocen_ok) _ _ Hrun).
Defined.

Lemma suspend_saves_and_arms_witness :
  ocen_ok /\ reg_target RCC_MP_RSTSCLRR <> RCC_OCENSETR /\
  exists s',
    stm32_clock_suspend Board.st_run = Done tt s' /\
    reg_value RCC_OCENSETR s'
    = Z.lor (reg_value RCC_OCENSETR Board.st_run)
        (Z.land (u32 (Z.shiftl (reg_value RCC_OCENSETR Board.st_run) 1))
           ker_mask).
Proof.
  assert (Hr : reg_target RCC_MP_RSTSCLRR <> RCC_OCENSETR) by discriminate.
  split; [exact board_ocen_ok |]. split; [exact Hr |].
  destruct (suspend_saves_and_arms Board.st_run board_ocen_ok Hr)
    as (s' & Hrun & _ & _ & _ & _ & _ & _ & _ & _ & Hk).
  exists s'. split; [exact Hrun | exact Hk].
Defined.

(** HSI and HSE run (bits 0 and 8): their kernel clocks (bits 1 and 9)
    are switched on. *)
Example suspend_arms_kernel_clocks :
  match stm32_clock_suspend Board.st_run with
  | Done _ s' => reg_value RCC_OCENSETR s' = 0x303
  | Panic => False
  end.
Proof. reflexivity. Qed.

Lemma suspend_resume_restores_registers_witness :
  gates_wf /\ ocen_ok /\
  exists s1 s',
    stm32_clock_pm PM_OP_SUSPEND Board.st_run = Done TEE_SUCCESS s1 /\
    stm32_clock_pm 1 (Board.power_lost s1) = Done TEE_SUCCESS s' /\
    reg_value Board.RCC_MCO1CFGR s'
    = reg_value Board.RCC_MCO1CFGR Board.st_run.
Proof.
  split; [exact board_gates_wf |]. split; [exact board_ocen_ok |].
  destruct (stm32_clock_pm PM_OP_SUSPEND Board.st_run) as [r1 s1 |] eqn:Hsus;
    [| discriminate Hsus].
  assert (Hr1 : r1 = TEE_SUCCESS)
    by (vm_compute in Hsus; injection Hsus as <- _; reflexivity).
  subst r1.
  destruct (stm32_clock_pm 1 (Board.power_lost s1)) as [r2 s' |] eqn:Hres.
  2:{ exfalso. vm_compute in Hsus. injection Hsus as <-.
      vm_compute in Hres. discriminate Hres. }
  assert (Hr2 : r2 = TEE_SUCCESS).
  { vm_compute in Hsus. injection Hsus as <-.
    vm_compute in Hres. injection Hres as <- _. reflexivity. }
  subst r2.
  assert (Hop : 1 <> PM_OP_SUSPEND) by discriminate.
  exists s1, s'. split; [reflexivity |]. split; [exact Hres |].
  assert (Hnd : NoDup (map bk_offset (backup_clock_cfg Board.st_run)))
    by (cbn; nodup_tac).
  assert (Hok : forall c, In c (backup_clock_cfg Board.st_run) ->
                          plain_register (bk_offset c)).
  { intros c Hc. cbn in Hc.
    repeat (destruct Hc as [<- | Hc]; [split; reflexivity |]).
    contradiction. }
  assert (Hin : In {| bk_offset := Board.RCC_MCO1CFGR; bk_value := 0 |}
                  (backup_clock_cfg Board.st_run))
    by (left; reflexivity).
  assert (Hg : forall g, In g stm32mp1_clk_gate ->
                         gate_offset g <> Board.RCC_MCO1CFGR).
  { intros g Hgin. cbn in Hgin.
    repeat (destruct Hgin as [<- | Hgin]; [discriminate |]).
    contradiction. }
  exact (proj2 (proj2 (proj2
           (suspend_resume_restores_registers 1 TEE_SUCCESS TEE_SUCCESS
              Board.st_run s1 (Board.power_lost s1) s' board_gates_wf
              board_ocen_ok Hnd Hok Hop Hsus eq_refl eq_refl Hres)))
           _ Hin Hg).
Defined.

Lemma stop_context_round_trip_witness :
  ocen_ok /\
  exists s1 s',
    stm32mp1_clk_save_context_for_stop Board.st_mcu = Done tt s1 /\
    stm32mp1_clk_restore_context_for_stop
      (set_hw_ready [true] (Board.power_lost s1)) = Done tt s' /\
    reg_value RCC_MSSCKSELR s' = reg_value RCC_MSSCKSELR Board.st_mcu /\
    Z.land (reg_value RCC_MCUDIVR s') RCC_DIVR_DIV_MASK
    = Z.land (Z.land (reg_value RCC_MCUDIVR Board.st_mcu) RCC_MCUDIV_MASK)
        RCC_DIVR_DIV_MASK.
Proof.
  split; [exact board_ocen_ok |].
  destruct (stm32mp1_clk_save_context_for_stop Board.st_mcu) as [[] s1 |] eqn:Hsave;
    [| discriminate Hsave].
  destruct (stm32mp1_clk_restore_context_for_stop
              (set_hw_ready [true] (Board.power_lost s1)))
    as [[] s' |] eqn:Hres.
  2:{ exfalso. vm_compute in Hsave. injection Hsave as <-.
      vm_compute in Hres. discriminate Hres. }
  exists s1, s'. split; [reflexivity |]. split; [exact Hres |].
  apply (stop_context_round_trip Board.st_mcu s1
           (set_hw_ready [true] (Board.power_lost s1)) s').
  - exact board_ocen_ok.
  - split; reflexivity.
  - split; reflexivity.
  - discriminate.
  - reflexivity.
  - exact Hsave.
  - reflexivity.
  - exact Hres.
Defined.

End SuspendExamples.
